(** * SauceBot: dispense safety and stats accounting

    A shallow embedding of [Saucebot.py]: the module-level [state] dict, the
    stats file, the wall clock read by [time.time()], the daemon threads
    started by [dispense], and the handlers [on_tomato], [on_mustard] and
    [on_both] with the helpers they call.

    Modelling choices.
    - Python values that can reach [state] (integers, floats, and whatever
      [json.loads] may return) are the type [pyval].  Floats are modelled
      as exact rationals [Q]: rounding of binary64 arithmetic is outside
      the model.
    - [state] is a [gmap string pyval].  Keys that are not strings (they can
      only come from a JSON list of pairs given to [dict.update]) are never
      read by the program and are not stored.
    - Exceptions are values of [exn]; a computation is a function from the
      world to a result and the world it leaves behind, so that mutations
      made before an exception stay visible, as in Python.
    - [time.time()] is the n-th reading of a clock [nat -> Q], n being the
      number of readings taken so far.
    - [json.loads] and [json.dumps] belong to Python's library and are taken
      as parameters [json_loads] and [json_dumps]; the module [Json] is an
      executable instance of them, for which the round trip is proved.
    - Outside the model: errors of the file system when the stats file is
      read or written, the [OverflowError] of an integer beyond the range
      of floats, the windows of Tk (of [show_qr], the text it encodes is
      modelled), and callbacks that run at the same time: the handlers
      run one after the other. *)

From Stdlib Require Import ZArith QArith Qminmax Lqa Lia List String Ascii
  DecimalString DecimalPos DecimalFacts.
From stdpp Require Import gmap strings list fin_maps.

Local Open Scope string_scope.

(** ** Python values *)

#[local] Set Warnings "-register-all".

Inductive pyval : Type :=
| PNone
| PBool (b : bool)
| PInt (z : Z)
| PFloat (q : Q)
| PStr (s : string)
| PList (items : list pyval)
| PDict (kvs : list (string * pyval)).

Inductive exn : Type :=
| KeyError
| TypeError
| ValueError
| JSONDecodeError.

Inductive result (A : Type) : Type :=
| Ok (a : A)
| Raise (e : exn).
Arguments Ok {A} a.
Arguments Raise {A} e.

(** [float(v)] for the values Python accepts in [now - v]. *)
Definition as_num (v : pyval) : option Q :=
  match v with
  | PInt z => Some (inject_Z z)
  | PFloat q => Some q
  | PBool b => Some (inject_Z (Z.b2z b))
  | _ => None
  end.

(** [v + 1], as in [state[k] += 1]. *)
Definition py_add1 (v : pyval) : result pyval :=
  match v with
  | PInt z => Ok (PInt (z + 1))
  | PBool b => Ok (PInt (Z.b2z b + 1))
  | PFloat q => Ok (PFloat (q + 1))
  | _ => Raise TypeError
  end.

(** [now - v] for a float [now]. *)
Definition py_rsub (now : Q) (v : pyval) : result Q :=
  match as_num v with
  | Some q => Ok (now - q)%Q
  | None => Raise TypeError
  end.

Definition Qltb (x y : Q) : bool :=
  match (x ?= y)%Q with Lt => true | _ => false end.

(** The builtins [min(a, b)] and [max(a, b)]: the first argument is kept
    unless the second is strictly smaller (resp. larger). *)
Definition py_min (a b : Q) : Q := if Qltb b a then b else a.
Definition py_max (a b : Q) : Q := if Qltb a b then b else a.

(** ** Configuration *)

Definition DEFAULT_DISPENSE_TIME_SECONDS : Q := 3 # 2.
Definition MIN_INTERVAL_SECONDS : Q := 3 # 2.
Definition MAX_DISPENSE_SECONDS : Q := 6 # 1.

(** ** Hardware and threads *)

Inductive pump : Type := pump_tomato | pump_mustard.

Inductive action : Type :=
| LockAcquire
| PumpOn (p : pump)
| Sleep (secs : Q)
| PumpOff (p : pump)
| LockRelease.

(** The closure [worker] of [dispense]: under [dispense_lock], switch the
    pump on, sleep, switch it off. *)
Definition worker (pump_device : pump) (seconds : Q) : list action :=
  [LockAcquire; PumpOn pump_device; Sleep seconds; PumpOff pump_device;
   LockRelease].

Record thread : Type := Thread { thread_target : list action; daemon : bool }.

Definition pump_eqb (p q : pump) : bool :=
  match p, q with
  | pump_tomato, pump_tomato | pump_mustard, pump_mustard => true
  | _, _ => false
  end.

(** The sleeps during which the output of pump [p] is high when the actions
    of a thread run in order, [on] telling whether it is high at the
    start. *)
Fixpoint held_on (p : pump) (on : bool) (body : list action) : list Q :=
  match body with
  | [] => []
  | PumpOn q :: rest => held_on p (if pump_eqb p q then true else on) rest
  | PumpOff q :: rest => held_on p (if pump_eqb p q then false else on) rest
  | Sleep secs :: rest =>
      if on then secs :: held_on p on rest else held_on p on rest
  | (LockAcquire | LockRelease) :: rest => held_on p on rest
  end.

(** ** The world *)

Inductive call : Type :=
| Call_load_stats
| Call_save_stats
| Call_dispense (p : pump)
| Call_too_soon
| Call_record_served (which : string).

Record World : Type := mkWorld {
  state : gmap string pyval;      (* the module-level dict [state] *)
  stats_file : option string;     (* text of STATS_FILE, None if absent *)
  ticks : nat;                    (* readings of time.time() taken so far *)
  threads : list thread;          (* threads started, oldest first *)
  calls : list call               (* functions entered, oldest first *)
}.

(** The dict literal bound to [state] when the module is loaded. *)
Definition state0 : gmap string pyval :=
  <["served" := PInt 0]>
  (<["tomato_served" := PInt 0]>
  (<["mustard_served" := PInt 0]>
  (<["last_dispense_time" := PFloat 0]> ∅))).

Definition world0 (file : option string) : World :=
  mkWorld state0 file 0 [] [].

(** ** Computations *)

Definition M (A : Type) : Type := World -> result A * World.

Definition ret {A} (a : A) : M A := fun w => (Ok a, w).

Definition bind {A B} (m : M A) (f : A -> M B) : M B :=
  fun w =>
    match m w with
    | (Ok a, w') => f a w'
    | (Raise e, w') => (Raise e, w')
    end.

Notation "x <- m ;; k" := (bind m (fun x => k))
  (at level 100, m at next level, right associativity).
Notation "m ;;; k" := (bind m (fun _ => k))
  (at level 100, right associativity).

Definition lift {A} (r : result A) : M A := fun w => (r, w).

(** [try: body  except Exception: handler]. *)
Definition try_except {A} (body : M A) (handler : exn -> M A) : M A :=
  fun w =>
    match body w with
    | (Ok a, w') => (Ok a, w')
    | (Raise e, w') => handler e w'
    end.

Definition called (c : call) : M unit :=
  fun w => (Ok tt, mkWorld (state w) (stats_file w) (ticks w) (threads w)
                           (calls w ++ [c])).

(** [state[k]]. *)
Definition getitem (k : string) : M pyval :=
  fun w =>
    match state w !! k with
    | Some v => (Ok v, w)
    | None => (Raise KeyError, w)
    end.

(** [state[k] = v]. *)
Definition setitem (k : string) (v : pyval) : M unit :=
  fun w => (Ok tt, mkWorld (<[k := v]> (state w)) (stats_file w) (ticks w)
                           (threads w) (calls w)).

(** [state[k] += 1]. *)
Definition incr (k : string) : M unit :=
  v <- getitem k ;; v' <- lift (py_add1 v) ;; setitem k v'.

(** [STATS_FILE.write_text(txt)]: the file is replaced as a whole. *)
Definition write_text (txt : string) : M unit :=
  fun w => (Ok tt, mkWorld (state w) (Some txt) (ticks w) (threads w)
                           (calls w)).

(** [threading.Thread(target=body, daemon=True)] followed by [t.start()]. *)
Definition start_thread (body : list action) : M thread :=
  fun w =>
    let t := Thread body true in
    (Ok t, mkWorld (state w) (stats_file w) (ticks w) (threads w ++ [t])
                   (calls w)).

(** ** [dict.update] *)

(** The key and the value an element of an update sequence stands for: the
    element has to be an iterable of length two. *)
Definition pair_of_item (item : pyval) : result (pyval * pyval) :=
  match item with
  | PList [k; v] => Ok (k, v)
  | PList _ => Raise ValueError
  | PStr (String a (String b EmptyString)) =>
      Ok (PStr (String a EmptyString), PStr (String b EmptyString))
  | PStr _ => Raise ValueError
  | PDict [(k1, _); (k2, _)] => Ok (PStr k1, PStr k2)
  | PDict _ => Raise ValueError
  | PNone | PBool _ | PInt _ | PFloat _ => Raise TypeError
  end.

(** [d[k] = v] for an arbitrary key: lists and dicts are unhashable; other
    keys that are not strings are stored where nothing reads them. *)
Definition store (k v : pyval) (d : gmap string pyval)
  : result (gmap string pyval) :=
  match k with
  | PStr s => Ok (<[s := v]> d)
  | PList _ | PDict _ => Raise TypeError
  | PNone | PBool _ | PInt _ | PFloat _ => Ok d
  end.

(** Merging a sequence of pairs stops at the first bad element and keeps
    what was stored before it. *)
Fixpoint merge_from_seq (items : list pyval) (d : gmap string pyval)
  : result unit * gmap string pyval :=
  match items with
  | [] => (Ok tt, d)
  | item :: rest =>
      match pair_of_item item with
      | Raise e => (Raise e, d)
      | Ok (k, v) =>
          match store k v d with
          | Raise e => (Raise e, d)
          | Ok d' => merge_from_seq rest d'
          end
      end
  end.

Definition merge_dict (kvs : list (string * pyval)) (d : gmap string pyval)
  : gmap string pyval :=
  fold_left (fun acc kv => <[fst kv := snd kv]> acc) kvs d.

Definition chars (s : string) : list pyval :=
  map (fun c => PStr (String c EmptyString)) (list_ascii_of_string s).

Definition dict_update (j : pyval) (d : gmap string pyval)
  : result unit * gmap string pyval :=
  match j with
  | PDict kvs => (Ok tt, merge_dict kvs d)
  | PList items => merge_from_seq items d
  | PStr s => merge_from_seq (chars s) d
  | PNone | PBool _ | PInt _ | PFloat _ => (Raise TypeError, d)
  end.

(** [state.update(j)]. *)
Definition state_update (j : pyval) : M unit :=
  fun w =>
    let '(r, d) := dict_update j (state w) in
    (r, mkWorld d (stats_file w) (ticks w) (threads w) (calls w)).

(** ** The program *)

Inductive target : Type := Tomato | Mustard | Both.

Inductive verdict : Type := Accepted | Rejected.

Section Program.

(** The wall clock and Python's [json] module. *)
Variable clock : nat -> Q.
Variable json_loads : string -> result pyval.
Variable json_dumps : pyval -> string.

(** [time.time()]. *)
Definition time_time : M Q :=
  fun w => (Ok (clock (ticks w)),
            mkWorld (state w) (stats_file w) (S (ticks w)) (threads w)
                    (calls w)).

Definition load_stats : M unit :=
  called Call_load_stats ;;;
  fun w =>
    match stats_file w with
    | Some text =>
        try_except
          (j <- lift (json_loads text) ;; state_update j)
          (fun _ => ret tt)
          w
    | None => (Ok tt, w)
    end.

Definition save_stats : M unit :=
  called Call_save_stats ;;;
  served <- getitem "served" ;;
  tomato_served <- getitem "tomato_served" ;;
  mustard_served <- getitem "mustard_served" ;;
  last_dispense_time <- getitem "last_dispense_time" ;;
  write_text (json_dumps (PDict [("served", served);
                                 ("tomato_served", tomato_served);
                                 ("mustard_served", mustard_served);
                                 ("last_dispense_time", last_dispense_time)])).

Definition dispense (pump_device : pump) (seconds : Q) : M thread :=
  called (Call_dispense pump_device) ;;;
  let seconds := py_max (1 # 20) (py_min seconds MAX_DISPENSE_SECONDS) in
  start_thread (worker pump_device seconds).

Definition too_soon : M bool :=
  called Call_too_soon ;;;
  now <- time_time ;;
  last <- getitem "last_dispense_time" ;;
  elapsed <- lift (py_rsub now last) ;;
  if Qltb elapsed MIN_INTERVAL_SECONDS then ret true else ret false.

Definition record_served (which : string) : M unit :=
  called (Call_record_served which) ;;;
  incr "served" ;;;
  (if String.eqb which "tomato" then incr "tomato_served"
   else if String.eqb which "mustard" then incr "mustard_served"
   else ret tt) ;;;
  now <- time_time ;;
  setitem "last_dispense_time" (PFloat now) ;;;
  save_stats.

Definition on_tomato (from_physical : bool) : M unit :=
  soon <- too_soon ;;
  if soon then ret tt
  else
    dispense pump_tomato DEFAULT_DISPENSE_TIME_SECONDS ;;;
    record_served "tomato".

Definition on_mustard (from_physical : bool) : M unit :=
  soon <- too_soon ;;
  if soon then ret tt
  else
    dispense pump_mustard DEFAULT_DISPENSE_TIME_SECONDS ;;;
    record_served "mustard".

Definition on_both : M unit :=
  soon <- too_soon ;;
  if soon then ret tt
  else
    dispense pump_tomato DEFAULT_DISPENSE_TIME_SECONDS ;;;
    dispense pump_mustard DEFAULT_DISPENSE_TIME_SECONDS ;;;
    record_served "tomato" ;;;
    record_served "mustard".

(** *** Requests

    The three buttons are the three targets of a request.  The handlers
    return [None] on both paths; whether a request was accepted is seen
    from outside by whether it started a pump thread. *)

Definition handler (tgt : target) : M unit :=
  match tgt with
  | Tomato => on_tomato false
  | Mustard => on_mustard false
  | Both => on_both
  end.

Definition request (tgt : target) : M verdict :=
  fun w =>
    match handler tgt w with
    | (Ok _, w') =>
        (Ok (if Nat.eqb (length (threads w')) (length (threads w))
             then Rejected else Accepted), w')
    | (Raise e, w') => (Raise e, w')
    end.

(** A session: the requests are served in order; after each one its
    verdict and the value of [state["last_dispense_time"]] are noted. *)
Fixpoint serve (reqs : list target) : M (list (verdict * pyval)) :=
  match reqs with
  | [] => ret []
  | tgt :: rest =>
      v <- request tgt ;;
      last <- getitem "last_dispense_time" ;;
      log <- serve rest ;;
      ret ((v, last) :: log)
  end.

End Program.

(** ** A reference instance of the [json] module

    Most theorems below hold for any [json_loads] and [json_dumps].  To run
    the program on actual file texts, and to state the round trip through
    the stats file, this module gives an executable instance for the JSON
    grammar without [\u] escapes and without the non-standard constants
    [NaN] and [Infinity].  Numbers with a fraction or an exponent are
    floats, the others integers, as in Python; a float is printed with all
    the digits of its decimal expansion when that is finite; otherwise
    the expansion is cut after 17 digits, or after as many digits as the
    denominator has bits when that is more. *)

Module Json.

Definition dquote : ascii := "034"%char.
Definition backslash : ascii := "092"%char.

Definition is_ws (c : ascii) : bool :=
  match nat_of_ascii c with
  | 32%nat | 9%nat | 10%nat | 13%nat => true
  | _ => false
  end.

Definition digit_of (c : ascii) : option Z :=
  let n := Z.of_nat (nat_of_ascii c) in
  if ((48 <=? n) && (n <=? 57))%Z then Some (n - 48)%Z else None.

Definition char_of_digit (d : Z) : ascii :=
  ascii_of_nat (Z.to_nat (48 + d)).

Fixpoint skip_ws (s : string) : string :=
  match s with
  | String c r => if is_ws c then skip_ws r else s
  | EmptyString => s
  end.

(** The longest prefix of digits, as a list of their values. *)
Fixpoint take_digits (s : string) : list Z * string :=
  match s with
  | String c r =>
      match digit_of c with
      | Some d => let '(ds, r') := take_digits r in (d :: ds, r')
      | None => ([], s)
      end
  | EmptyString => ([], s)
  end.

Definition value_of (ds : list Z) : Z :=
  fold_left (fun acc d => (10 * acc + d)%Z) ds 0%Z.

Definition pow10 (k : Z) : Q :=
  if (0 <=? k)%Z then inject_Z (10 ^ k)
  else (1 # Z.to_pos (10 ^ (- k)))%Q.

Definition parse_exponent (s : string) : option (option Z * string) :=
  match s with
  | String c r =>
      if (Ascii.eqb c "e" || Ascii.eqb c "E")%bool then
        let '(neg, r1) :=
          match r with
          | String "-" r' => (true, r')
          | String "+" r' => (false, r')
          | _ => (false, r)
          end in
        match take_digits r1 with
        | ([], _) => None
        | (ds, r2) =>
            Some (Some (if neg then - value_of ds else value_of ds)%Z, r2)
        end
      else Some (None, s)
  | EmptyString => Some (None, s)
  end.

Definition leading_zero (ds : list Z) : bool :=
  match ds with
  | 0%Z :: _ :: _ => true
  | _ => false
  end.

(** The fraction, if there is one: a point must be followed by a digit. *)
Definition parse_fraction (s : string)
  : option (option (list Z) * string) :=
  match s with
  | String "." r =>
      match take_digits r with
      | ([], _) => None
      | (fs, r') => Some (Some fs, r')
      end
  | _ => Some (None, s)
  end.

(** A number without fraction and exponent is an [int], any other one a
    [float]. *)
Definition number_value (neg : bool) (ds : list Z)
           (frac : option (list Z)) (ex : option Z) : pyval :=
  let sign (q : Q) : Q := if neg then (- q)%Q else q in
  match frac, ex with
  | None, None => PInt (if neg then - value_of ds else value_of ds)%Z
  | _, _ =>
      let fs := match frac with Some fs => fs | None => [] end in
      let mant := value_of (ds ++ fs) in
      let e := match ex with Some e => e | None => 0%Z end in
      PFloat (Qred (sign (inject_Z mant
                          * pow10 (e - Z.of_nat (length fs)))%Q))
  end.

(** The digits behind the sign. *)
Definition parse_unsigned (neg : bool) (s : string)
  : option (pyval * string) :=
  match take_digits s with
  | ([], _) => None
  | (ds, s2) =>
      if leading_zero ds then None
      else
        match parse_fraction s2 with
        | None => None
        | Some (frac, s3) =>
            match parse_exponent s3 with
            | None => None
            | Some (ex, s4) => Some (number_value neg ds frac ex, s4)
            end
        end
  end.

Definition parse_number (s : string) : option (pyval * string) :=
  match s with
  | String c r =>
      if Ascii.eqb c "-" then parse_unsigned true r
      else parse_unsigned false s
  | EmptyString => None
  end.

Definition unescape (c : ascii) : option ascii :=
  if Ascii.eqb c dquote then Some dquote
  else if Ascii.eqb c backslash then Some backslash
  else if Ascii.eqb c "/" then Some "/"%char
  else if Ascii.eqb c "n" then Some "010"%char
  else if Ascii.eqb c "t" then Some "009"%char
  else if Ascii.eqb c "r" then Some "013"%char
  else if Ascii.eqb c "b" then Some "008"%char
  else if Ascii.eqb c "f" then Some "012"%char
  else None.

(** The characters up to the closing quote. *)
Fixpoint parse_chars (s : string) : option (string * string) :=
  match s with
  | EmptyString => None
  | String c r =>
      if Ascii.eqb c dquote then Some (EmptyString, r)
      else if Ascii.eqb c backslash then
        match r with
        | String e r' =>
            match unescape e, parse_chars r' with
            | Some c', Some (body, rest) => Some (String c' body, rest)
            | _, _ => None
            end
        | EmptyString => None
        end
      else if (nat_of_ascii c <? 32)%nat then None
      else
        match parse_chars r with
        | Some (body, rest) => Some (String c body, rest)
        | None => None
        end
  end.

(** [d[k] = v] on an object under construction: a repeated name keeps
    its place and takes the later value. *)
Fixpoint assign (k : string) (v : pyval) (kvs : list (string * pyval))
  : list (string * pyval) :=
  match kvs with
  | [] => [(k, v)]
  | (k', v') :: rest =>
      if String.eqb k k' then (k, v) :: rest
      else (k', v') :: assign k v rest
  end.

Fixpoint parse_value (fuel : nat) (s : string) {struct fuel}
  : option (pyval * string) :=
  match fuel with
  | O => None
  | S fuel =>
      match skip_ws s with
      | String "n" (String "u" (String "l" (String "l" r))) =>
          Some (PNone, r)
      | String "t" (String "r" (String "u" (String "e" r))) =>
          Some (PBool true, r)
      | String "f" (String "a" (String "l" (String "s" (String "e" r)))) =>
          Some (PBool false, r)
      | String "[" r =>
          match skip_ws r with
          | String "]" r' => Some (PList [], r')
          | _ =>
              match parse_items fuel r with
              | Some (items, r') => Some (PList items, r')
              | None => None
              end
          end
      | String "{" r =>
          match skip_ws r with
          | String "}" r' => Some (PDict [], r')
          | _ =>
              match parse_members fuel [] r with
              | Some (kvs, r') => Some (PDict kvs, r')
              | None => None
              end
          end
      | String c r as s' =>
          if Ascii.eqb c dquote then
            match parse_chars r with
            | Some (body, r') => Some (PStr body, r')
            | None => None
            end
          else parse_number s'
      | EmptyString => None
      end
  end
with parse_items (fuel : nat) (s : string) {struct fuel}
  : option (list pyval * string) :=
  match fuel with
  | O => None
  | S fuel =>
      match parse_value fuel s with
      | Some (v, r) =>
          match skip_ws r with
          | String "]" r' => Some ([v], r')
          | String "," r' =>
              match parse_items fuel r' with
              | Some (vs, r'') => Some (v :: vs, r'')
              | None => None
              end
          | _ => None
          end
      | None => None
      end
  end
with parse_members (fuel : nat) (acc : list (string * pyval)) (s : string)
  {struct fuel} : option (list (string * pyval) * string) :=
  match fuel with
  | O => None
  | S fuel =>
      match skip_ws s with
      | String c r =>
          if Ascii.eqb c dquote then
            match parse_chars r with
            | Some (k, r1) =>
                match skip_ws r1 with
                | String ":" r2 =>
                    match parse_value fuel r2 with
                    | Some (v, r3) =>
                        let acc := assign k v acc in
                        match skip_ws r3 with
                        | String "}" r4 => Some (acc, r4)
                        | String "," r4 => parse_members fuel acc r4
                        | _ => None
                        end
                    | None => None
                    end
                | _ => None
                end
            | None => None
            end
          else None
      | EmptyString => None
      end
  end.

Definition loads (text : string) : result pyval :=
  match parse_value (2 * String.length text + 2) text with
  | Some (v, rest) =>
      match skip_ws rest with
      | EmptyString => Ok v
      | _ => Raise JSONDecodeError
      end
  | None => Raise JSONDecodeError
  end.

(** *** Printing *)

Definition dumps_int (z : Z) : string :=
  NilZero.string_of_int (Z.to_int z).

Fixpoint fraction (fuel : nat) (num den : Z) : string :=
  match fuel with
  | O => EmptyString
  | S fuel =>
      let d := (10 * num / den)%Z in
      let r := (10 * num mod den)%Z in
      String (char_of_digit d)
             (if (r =? 0)%Z then EmptyString else fraction fuel r den)
  end.

(** The number of digits that suffices to print a fraction over [den]
    exactly, when it has a finite decimal expansion at all. *)
Definition fraction_digits_for (den : positive) : nat :=
  Nat.max 17 (S (Z.to_nat (Z.log2 (Zpos den)))).

(** A float is printed exactly when its decimal expansion is finite, as
    that of every binary float is: the text reads back as the same number,
    which is what [repr] guarantees. *)
Definition dumps_float (q : Q) : string :=
  let n := Z.abs (Qnum q) in
  let d := Zpos (Qden q) in
  (if (Qnum q <? 0)%Z then "-" else EmptyString)
    ++ dumps_int (n / d) ++ "."
    ++ fraction (fraction_digits_for (Qden q)) (n mod d) d.

Fixpoint escape (s : string) : string :=
  match s with
  | EmptyString => EmptyString
  | String c r =>
      if (Ascii.eqb c dquote || Ascii.eqb c backslash)%bool
      then String backslash (String c (escape r))
      else if Ascii.eqb c "010" then String backslash (String "n" (escape r))
      else if Ascii.eqb c "009" then String backslash (String "t" (escape r))
      else if Ascii.eqb c "013" then String backslash (String "r" (escape r))
      else String c (escape r)
  end.

Definition dumps_str (s : string) : string :=
  String dquote (escape s ++ String dquote EmptyString).

Fixpoint join (sep : string) (parts : list string) : string :=
  match parts with
  | [] => EmptyString
  | [p] => p
  | p :: rest => p ++ sep ++ join sep rest
  end.

Fixpoint dumps (v : pyval) : string :=
  match v with
  | PNone => "null"
  | PBool true => "true"
  | PBool false => "false"
  | PInt z => dumps_int z
  | PFloat q => dumps_float q
  | PStr s => dumps_str s
  | PList items => "[" ++ join ", " (map dumps items) ++ "]"
  | PDict kvs =>
      "{" ++ join ", "
               (map (fun kv =>
                       match kv with
                       | (k, x) => dumps_str k ++ ": " ++ dumps x
                       end) kvs)
          ++ "}"
  end.

End Json.

(** ** Specification vocabulary *)

(** The dict [d] holds the Counters value (s, t, m, l): three integer
    counts and a numeric time of the last dispense. *)
Definition counters (d : gmap string pyval) (s t m : Z) (l : Q) : Prop :=
  d !! "served" = Some (PInt s) /\
  d !! "tomato_served" = Some (PInt t) /\
  d !! "mustard_served" = Some (PInt m) /\
  exists v, d !! "last_dispense_time" = Some v /\ as_num v = Some l.

(** A clock that never runs backwards. *)
Definition monotone (clock : nat -> Q) : Prop :=
  forall i j : nat, (i <= j)%nat -> (clock i <= clock j)%Q.

(** The dict that [save_stats] serializes. *)
Definition stats_dict (served tomato_served mustard_served
                       last_dispense_time : pyval) : pyval :=
  PDict [("served", served);
         ("tomato_served", tomato_served);
         ("mustard_served", mustard_served);
         ("last_dispense_time", last_dispense_time)].

(** The thread that [dispense] starts for a pump and a clamped duration. *)
Definition activation (p : pump) (secs : Q) : thread :=
  Thread (worker p secs) true.

(** The log of a session is a time line from [l]: a rejected request leaves
    the time of the last dispense where it was, an accepted one moves it
    forward by at least the minimum interval. *)
Fixpoint timeline (l : Q) (log : list (verdict * pyval)) : Prop :=
  match log with
  | [] => True
  | (Rejected, v) :: rest => as_num v = Some l /\ timeline l rest
  | (Accepted, v) :: rest =>
      exists a, v = PFloat a /\ (l + MIN_INTERVAL_SECONDS <= a)%Q /\
                timeline a rest
  end.

(** The number of throttle checks among the functions entered. *)
Definition throttle_checks (cs : list call) : nat :=
  length (List.filter
            (fun c => match c with Call_too_soon => true | _ => false end) cs).

(** Content of the stats file after which [load_stats] has nothing to merge:
    no file, text that [json.loads] rejects, or a JSON scalar (null, a
    boolean, a number or a string), which [dict.update] refuses before it
    stores anything. *)
Definition nothing_to_load (json_loads : string -> result pyval)
           (file : option string) : bool :=
  match file with
  | None => true
  | Some text =>
      match json_loads text with
      | Raise _ => true
      | Ok (PNone | PBool _ | PInt _ | PFloat _ | PStr _) => true
      | Ok (PList _ | PDict _) => false
      end
  end.

(** A well-formed Counters record, in the words of the specification: the
    three counts are non-negative integers and the time of the last dispense
    is a number. *)
Fixpoint field (k : string) (kvs : list (string * pyval)) : option pyval :=
  match kvs with
  | [] => None
  | (k', v) :: rest => if String.eqb k k' then Some v else field k rest
  end.

Definition is_count (o : option pyval) : bool :=
  match o with Some (PInt z) => (0 <=? z)%Z | _ => false end.

Definition is_time (o : option pyval) : bool :=
  match o with Some (PInt _ | PFloat _) => true | _ => false end.

Definition well_formed_counters (j : pyval) : bool :=
  match j with
  | PDict kvs =>
      is_count (field "served" kvs) && is_count (field "tomato_served" kvs)
      && is_count (field "mustard_served" kvs)
      && is_time (field "last_dispense_time" kvs)
  | _ => false
  end.


(** The duration the specification asks for. *)
Definition clamp_spec (d : Q) : Q :=
  Qmax (1 # 20) (Qmin d MAX_DISPENSE_SECONDS).

(** What an accepted request for a target fires and counts. *)
Definition pumps_of (tgt : target) : list pump :=
  match tgt with
  | Tomato => [pump_tomato]
  | Mustard => [pump_mustard]
  | Both => [pump_tomato; pump_mustard]
  end.

Definition tomato_delta (tgt : target) : Z :=
  match tgt with Tomato | Both => 1 | Mustard => 0 end.

Definition mustard_delta (tgt : target) : Z :=
  match tgt with Mustard | Both => 1 | Tomato => 0 end.

(** A computation that starts no thread. *)
Definition keeps_threads {A} (m : M A) : Prop :=
  forall (w w' : World) (r : result A),
    m w = (r, w') -> threads w' = threads w.

(** ** Sample data *)

(** A clock that is read once per second, starting at the epoch. *)
Definition sample_clock (n : nat) : Q := inject_Z (Z.of_nat n).

(** The clock of the scenario: a request at [T], whose record reads [T]
    again, a request at [T + 0.5] and a request at [T + 2]. *)
Definition scenario_clock (T : Q) (n : nat) : Q :=
  match n with
  | 0%nat | 1%nat => T
  | 2%nat => (T + (1 # 2))%Q
  | _ => (T + 2)%Q
  end.

(** A world whose counters are 3, 2, 1 and 1700000000.5. *)
Definition sample_world : World :=
  mkWorld (<["served" := PInt 3]>
           (<["tomato_served" := PInt 2]>
            (<["mustard_served" := PInt 1]>
             (<["last_dispense_time" := PFloat (3400000001 # 2)]> ∅))))
          None 7 [] [].

(** A stats file that is valid JSON but no Counters record: the text
    [{"served": "lots"}]. *)
Definition corrupt_text : string :=
  Json.dumps (PDict [("served", PStr "lots")]).

(** ** The rest of the program

    The parts of the user interface that read or change [state]:
    [counter_text], [update_ui], the text that [show_qr] encodes, the
    start-up sequence of [main] and [SauceBotUI.__init__], and the dispatch
    of callbacks by [root.mainloop()].  Widgets, fonts and the rendering of
    the QR image are left out. *)

(** [int(x)] for a float: truncation towards zero. *)
Definition py_int (q : Q) : Z := Z.quot (Qnum q) (Zpos (Qden q)).

Inductive ui_event : Type :=
| Touch (tgt : target)          (* one of the three on-screen buttons *)
| Pressed (p : pump)            (* a physical button, [when_pressed] *)
| Refresh                       (* the timer set by [root.after] *)
| ShowQR.                       (* the "Show QR" button *)

Section Display.

Variable clock : nat -> Q.
Variable json_loads : string -> result pyval.
Variable json_dumps : pyval -> string.

(** Python's [str], which formats the value inside the f-string. *)
Variable py_str : pyval -> string.

Definition counter_text : M string :=
  served <- getitem "served" ;;
  ret ("Sausages served: " ++ py_str served).

(** [update_ui] sets the label to [counter_text()] and schedules itself
    again; the rescheduling is the event [Refresh]. *)
Definition update_ui : M unit :=
  text <- counter_text ;;
  ret tt.

(** The first statement of [show_qr]: the text handed to [qrcode.make]. *)
Definition show_qr_txt : M string :=
  served <- getitem "served" ;;
  tomato <- getitem "tomato_served" ;;
  mustard <- getitem "mustard_served" ;;
  now <- time_time clock ;;
  ret (json_dumps (PDict [("served", served);
                          ("tomato", tomato);
                          ("mustard", mustard);
                          ("timestamp", PInt (py_int now))])).

(** [SauceBotUI.__init__]: the counter label is built from
    [counter_text()], then [update_ui()] and [load_stats()] are called. *)
Definition SauceBotUI_init : M unit :=
  text <- counter_text ;;
  update_ui ;;;
  load_stats json_loads.

Definition main : M unit :=
  load_stats json_loads ;;;
  SauceBotUI_init.

Definition callback (ev : ui_event) : M unit :=
  match ev with
  | Touch tgt => handler clock json_dumps tgt
  | Pressed pump_tomato => on_tomato clock json_dumps true
  | Pressed pump_mustard => on_mustard clock json_dumps true
  | Refresh => update_ui
  | ShowQR => txt <- show_qr_txt ;; ret tt
  end.

(** [root.mainloop()]: the callbacks run one after the other; an exception
    raised by a callback is reported and the loop goes on with the state
    the callback left. *)
Fixpoint mainloop (evs : list ui_event) (w : World) : World :=
  match evs with
  | [] => w
  | ev :: rest => mainloop rest (snd (callback ev w))
  end.

(** The program run on a stats file and a sequence of events. *)
Definition program (file : option string) (evs : list ui_event) : World :=
  mainloop evs (snd (main (world0 file))).

End Display.

(** ** Running the threads

    The threads started by [dispense] run concurrently.  Their actions
    interleave in any order, except that a thread waits at [LockAcquire]
    while another one holds [dispense_lock]. *)

Record hw : Type := mkHw {
  lock_holder : option nat;     (* the thread inside [with dispense_lock] *)
  tomato_high : bool;           (* output of pump_tomato *)
  mustard_high : bool           (* output of pump_mustard *)
}.

(** Both outputs start low ([initial_value=False]) and the lock free. *)
Definition hw0 : hw := mkHw None false false.

Definition pin (p : pump) (h : hw) : bool :=
  match p with
  | pump_tomato => tomato_high h
  | pump_mustard => mustard_high h
  end.

Definition set_pin (p : pump) (b : bool) (h : hw) : hw :=
  match p with
  | pump_tomato => mkHw (lock_holder h) b (mustard_high h)
  | pump_mustard => mkHw (lock_holder h) (tomato_high h) b
  end.

(** The effect of action [a] of thread [i]; [None] when the thread has to
    wait. *)
Definition act (i : nat) (a : action) (h : hw) : option hw :=
  match a with
  | LockAcquire =>
      match lock_holder h with
      | None => Some (mkHw (Some i) (tomato_high h) (mustard_high h))
      | Some _ => None
      end
  | PumpOn p => Some (set_pin p true h)
  | Sleep _ => Some h
  | PumpOff p => Some (set_pin p false h)
  | LockRelease => Some (mkHw None (tomato_high h) (mustard_high h))
  end.

(** Thread [i] takes its next action. *)
Definition step (i : nat) (s : list (list action) * hw)
  : option (list (list action) * hw) :=
  match fst s !! i with
  | Some (a :: rest) =>
      match act i a (snd s) with
      | Some h => Some (<[i := rest]> (fst s), h)
      | None => None
      end
  | Some [] | None => None
  end.

(** A schedule names the thread that moves at each step. *)
Fixpoint run_schedule (sched : list nat) (s : list (list action) * hw)
  : option (list (list action) * hw) :=
  match sched with
  | [] => Some s
  | i :: rest =>
      match step i s with
      | Some s' => run_schedule rest s'
      | None => None
      end
  end.

(** The threads of a world, none of which has run yet.  A thread that is
    started later is one that the schedule has not picked so far, so the
    schedules from here cover every moment at which threads are started. *)
Definition boot (w : World) : list (list action) * hw :=
  (map thread_target (threads w), hw0).

(** A clock read once per second, starting in November 2023. *)
Definition epoch_clock (n : nat) : Q :=
  (1700000000 + inject_Z (Z.of_nat n))%Q.

(** ** More vocabulary *)

(** The four keys of the module-level dict are present. *)
Definition keys4 (d : gmap string pyval) : Prop :=
  is_Some (d !! "served") /\ is_Some (d !! "tomato_served") /\
  is_Some (d !! "mustard_served") /\ is_Some (d !! "last_dispense_time").

(** A computation that, on a state with the four keys, keeps them and
    raises nothing but [TypeError]. *)
Definition safe {A} (m : M A) : Prop :=
  forall (w w' : World) (r : result A),
    keys4 (state w) -> m w = (r, w') ->
    keys4 (state w') /\ forall e, r = Raise e -> e = TypeError.

(** A computation that changes neither [state] nor the stats file and
    starts no thread, whatever it returns. *)
Definition reads_only {A} (m : M A) : Prop :=
  forall (w w' : World) (r : result A),
    m w = (r, w') ->
    state w' = state w /\ stats_file w' = stats_file w /\
    threads w' = threads w.

(** The activations an accepted request for [tgt] starts. *)
Definition activations (tgt : target) : list thread :=
  map (fun p => activation p (3 # 2)) (pumps_of tgt).

(** A thread started by a handler: a daemon that drives one pump for the
    default time. *)
Definition default_activation (th : thread) : Prop :=
  th = activation pump_tomato (3 # 2) \/ th = activation pump_mustard (3 # 2).

(** A computation that only adds default activations to the threads. *)
Definition starts_defaults {A} (m : M A) : Prop :=
  forall (w w' : World) (r : result A),
    m w = (r, w') ->
    exists more, threads w' = (threads w ++ more)%list /\
                 Forall default_activation more.

(** What is left of a [worker] body at some point of its run. *)
Inductive stage : list action -> Prop :=
| stage_waiting (p : pump) (s : Q) : stage (worker p s)
| stage_locked (p : pump) (s : Q) :
    stage [PumpOn p; Sleep s; PumpOff p; LockRelease]
| stage_on (p : pump) (s : Q) : stage [Sleep s; PumpOff p; LockRelease]
| stage_slept (p : pump) : stage [PumpOff p; LockRelease]
| stage_off : stage [LockRelease]
| stage_done : stage [].

(** A body between its [LockAcquire] and the end of its [LockRelease]. *)
Definition holding (body : list action) : bool :=
  match body with
  | [] | LockAcquire :: _ => false
  | _ => true
  end.

(** The pump a body has switched on and not yet off. *)
Definition driving (body : list action) : option pump :=
  match body with
  | Sleep _ :: PumpOff p :: _ | PumpOff p :: _ => Some p
  | _ => None
  end.

Definition drives (p : pump) (body : list action) : bool :=
  match driving body with
  | Some q => pump_eqb p q
  | None => false
  end.

(** The lock discipline: the lock is held exactly by the one thread that is
    inside its [with] block, and an output is high exactly while that
    thread is between switching it on and off. *)
Definition disciplined (s : list (list action) * hw) : Prop :=
  Forall stage (fst s) /\
  match lock_holder (snd s) with
  | None =>
      (forall j b, fst s !! j = Some b -> holding b = false) /\
      tomato_high (snd s) = false /\ mustard_high (snd s) = false
  | Some i =>
      exists b, fst s !! i = Some b /\ holding b = true /\
                (forall j b', j <> i -> fst s !! j = Some b' ->
                              holding b' = false) /\
                tomato_high (snd s) = drives pump_tomato b /\
                mustard_high (snd s) = drives pump_mustard b
  end.

(** The pumps that the started threads drive, in order. *)
Definition pump_of (th : thread) : option pump :=
  match thread_target th with
  | LockAcquire :: PumpOn p :: _ => Some p
  | _ => None
  end.

Definition count_pump (p : pump) (ths : list thread) : Z :=
  Z.of_nat (length (List.filter
                      (fun th => match pump_of th with
                                 | Some q => pump_eqb p q
                                 | None => false
                                 end) ths)).

(** The stats file holds the serialization of the counters in [state],
    which are three integers and a float. *)
Definition persisted (json_dumps : pyval -> string) (w : World) : Prop :=
  exists (s t m : Z) (l : Q),
    state w !! "served" = Some (PInt s)
    /\ state w !! "tomato_served" = Some (PInt t)
    /\ state w !! "mustard_served" = Some (PInt m)
    /\ state w !! "last_dispense_time" = Some (PFloat l)
    /\ stats_file w =
       Some (json_dumps (stats_dict (PInt s) (PInt t) (PInt m) (PFloat l))).

(** The update sequence of [dict.update] as far as it gets: the pairs
    stored before the first bad element, and how it ends. *)
Fixpoint seq_stores (items : list pyval) : list (string * pyval) :=
  match items with
  | [] => []
  | item :: rest =>
      match pair_of_item item with
      | Raise _ => []
      | Ok (PStr k, v) => (k, v) :: seq_stores rest
      | Ok ((PList _ | PDict _), _) => []
      | Ok ((PNone | PBool _ | PInt _ | PFloat _), _) => seq_stores rest
      end
  end.

(** The value the last pair for key [k] carries, if there is one. *)
Definition last_value (k : string) (kvs : list (string * pyval))
  : option pyval :=
  field k (rev kvs).

(** ** More sample data and vocabulary of loading *)

(** A clock that is set back: its readings are 10, 10, 11.5, 11, 12.5 and
    then 3, as [time.time()] may give when the system time is adjusted
    between two readings. *)
Definition stepback_clock (n : nat) : Q :=
  match n with
  | 0%nat | 1%nat => 10
  | 2%nat => 23 # 2
  | 3%nat => 11
  | 4%nat => 25 # 2
  | _ => 3
  end.


(** The four keys of the Counters. *)
Definition counter_keys : list string :=
  ["served"; "tomato_served"; "mustard_served"; "last_dispense_time"].

(** ** Vocabulary of the decimal notation *)

(** A decimal digit. *)
Definition digit (d : Z) : Prop := (0 <= d <= 9)%Z.

(** The digits of a decimal numeral, most significant first. *)
Fixpoint uint_digits (d : Decimal.uint) : list Z :=
  match d with
  | Decimal.Nil => []
  | Decimal.D0 d => 0%Z :: uint_digits d
  | Decimal.D1 d => 1%Z :: uint_digits d
  | Decimal.D2 d => 2%Z :: uint_digits d
  | Decimal.D3 d => 3%Z :: uint_digits d
  | Decimal.D4 d => 4%Z :: uint_digits d
  | Decimal.D5 d => 5%Z :: uint_digits d
  | Decimal.D6 d => 6%Z :: uint_digits d
  | Decimal.D7 d => 7%Z :: uint_digits d
  | Decimal.D8 d => 8%Z :: uint_digits d
  | Decimal.D9 d => 9%Z :: uint_digits d
  end.

(** The digits that [Json.fraction] prints. *)
Fixpoint fraction_digits (fuel : nat) (num den : Z) : list Z :=
  match fuel with
  | O => []
  | S fuel =>
      let d := (10 * num / den)%Z in
      let r := (10 * num mod den)%Z in
      d :: (if (r =? 0)%Z then [] else fraction_digits fuel r den)
  end.

Definition text_of_digits (ds : list Z) : string :=
  fold_right (fun d s => String (Json.char_of_digit d) s) EmptyString ds.

(** Text that does not go on with a digit. *)
Definition no_digit_head (s : string) : Prop :=
  match s with
  | String c _ => Json.digit_of c = None
  | EmptyString => True
  end.

(** Text that goes on with the comma or the brace behind a member of an
    object. *)
Definition member_end (s : string) : Prop :=
  exists r, s = String "," r \/ s = String "}" r.

(** The character opens a number. *)
Definition number_head (c : ascii) : bool :=
  match Json.digit_of c with
  | Some _ => true
  | None => Ascii.eqb c "-"
  end.

(** [text] is read as the value [v] where a member's value is expected. *)
Definition reads_as (text : string) (v : pyval) : Prop :=
  forall (fuel : nat) (rest : string),
    member_end rest ->
    Json.parse_value (S fuel) (String " " (text ++ rest)) = Some (v, rest).

(** The text of the record that [save_stats] writes, from the texts of its
    four values. *)
Definition record_text (served tomato_served mustard_served
                        last_dispense_time : string) : string :=
  "{" ++ Json.dumps_str "served" ++ ": " ++ served ++ ", "
      ++ Json.dumps_str "tomato_served" ++ ": " ++ tomato_served ++ ", "
      ++ Json.dumps_str "mustard_served" ++ ": " ++ mustard_served ++ ", "
      ++ Json.dumps_str "last_dispense_time" ++ ": " ++ last_dispense_time
      ++ "}".

(** A number with a finite decimal expansion, as every value of Python's
    [float] type is. *)
Definition finite_decimal (q : Q) : Prop :=
  exists k : nat, (Zpos (Qden q) | 10 ^ Z.of_nat k)%Z.

(** A time as [state] holds it: an integer or a float. *)
Definition epoch_seconds (v : pyval) : Prop :=
  match v with
  | PInt _ => True
  | PFloat q => finite_decimal q
  | _ => False
  end.

(** Equality of Python values, floats being compared as numbers. *)
Definition same_value (v v' : pyval) : Prop :=
  match v, v' with
  | PFloat a, PFloat b => (a == b)%Q
  | _, _ => v = v'
  end.

(** The digits of the absolute value of an integer. *)
Definition abs_digits (z : Z) : list Z :=
  match z with
  | Z0 => [0%Z]
  | Zpos p | Zneg p => uint_digits (Pos.to_uint p)
  end.

(** ** Arithmetic of the builtins *)

Lemma Qltb_true (x y : Q) : Qltb x y = true <-> (x < y)%Q.
Proof.
  unfold Qltb. rewrite Qlt_alt.
  destruct (x ?= y)%Q; split; congruence.
Qed.

Lemma Qltb_false (x y : Q) : Qltb x y = false <-> (y <= x)%Q.
Proof.
  split; intros H.
  - apply Qnot_lt_le. intros Hlt. apply Qltb_true in Hlt. congruence.
  - destruct (Qltb x y) eqn:E; [|reflexivity].
    apply Qltb_true in E. exfalso. exact (Qlt_not_le _ _ E H).
Qed.

Lemma py_max_Qmax (a b : Q) : py_max a b = Qmax a b.
Proof.
  unfold py_max, Qltb, Qmax, GenericMinMax.gmax.
  destruct (a ?= b)%Q; reflexivity.
Qed.

Example clamp_negative :
  py_max (1 # 20) (py_min (- (1)) MAX_DISPENSE_SECONDS) = (1 # 20)%Q.
Proof. reflexivity. Qed.

Example clamp_oversized :
  py_max (1 # 20) (py_min 100 MAX_DISPENSE_SECONDS) = (6 # 1)%Q.
Proof. reflexivity. Qed.

Example clamp_default_time :
  py_max (1 # 20) (py_min DEFAULT_DISPENSE_TIME_SECONDS MAX_DISPENSE_SECONDS)
  = (3 # 2)%Q.
Proof. reflexivity. Qed.

Lemma py_min_Qmin (a b : Q) : py_min a b = Qmin a b.
Proof.
  unfold py_min, Qltb, Qmin, GenericMinMax.gmin.
  rewrite <- (Qcompare_antisym a b).
  destruct (a ?= b)%Q; reflexivity.
Qed.

(** ** What each function does on a typed state *)

Ltac exec :=
  repeat (progress
            (cbn [state stats_file ticks threads calls py_add1
                  String.eqb Ascii.eqb Bool.eqb];
             rewrite ?lookup_insert_eq;
             rewrite ?lookup_insert_ne by done;
             repeat match goal with
                    | H : _ !! _ = Some _ |- _ => rewrite H
                    end)).

Lemma counters_fresh (d : gmap string pyval) (s t m : Z) (l : Q) :
  counters (<["last_dispense_time" := PFloat l]>
            (<["mustard_served" := PInt m]>
             (<["tomato_served" := PInt t]>
              (<["served" := PInt s]> d)))) s t m l.
Proof.
  unfold counters. exec. repeat split; try reflexivity.
  exists (PFloat l). split; reflexivity.
Qed.

Lemma clamp_default : clamp_spec DEFAULT_DISPENSE_TIME_SECONDS = (3 # 2)%Q.
Proof. reflexivity. Qed.

Section Exec.

Variable clock : nat -> Q.
Variable json_dumps : pyval -> string.

Lemma dispense_exec (p : pump) (d : Q) (w : World) :
  dispense p d w =
  (Ok (activation p (clamp_spec d)),
   mkWorld (state w) (stats_file w) (ticks w)
           (threads w ++ [activation p (clamp_spec d)])
           (calls w ++ [Call_dispense p])).
Proof.
  unfold dispense, bind, called, start_thread, activation, clamp_spec.
  simpl. rewrite py_max_Qmax, py_min_Qmin. reflexivity.
Qed.

Lemma too_soon_exec (w : World) (s t m : Z) (l : Q) :
  counters (state w) s t m l ->
  too_soon clock w =
  (Ok (Qltb (clock (ticks w) - l) MIN_INTERVAL_SECONDS),
   mkWorld (state w) (stats_file w) (S (ticks w)) (threads w)
           (calls w ++ [Call_too_soon])).
Proof.
  intros (_ & _ & _ & v & Hv & Hnum).
  unfold too_soon, bind, called, time_time, getitem, lift, py_rsub, ret.
  simpl. rewrite Hv, Hnum.
  destruct (Qltb _ _); reflexivity.
Qed.

Lemma record_served_tomato (w : World) (s t m : Z) (l : Q) :
  counters (state w) s t m l ->
  exists d,
    record_served clock json_dumps "tomato" w =
    (Ok tt,
     mkWorld d
             (Some (json_dumps
                      (stats_dict (PInt (s + 1)) (PInt (t + 1)) (PInt m)
                                  (PFloat (clock (ticks w))))))
             (S (ticks w)) (threads w)
             (calls w ++ [Call_record_served "tomato"; Call_save_stats]))
    /\ counters d (s + 1) (t + 1) m (clock (ticks w))
    /\ d !! "last_dispense_time" = Some (PFloat (clock (ticks w))).
Proof.
  intros (Hs & Ht & Hm & v & Hv & Hnum).
  eexists. split; [|split].
  - unfold record_served, save_stats, incr, bind, called, time_time,
      getitem, setitem, lift, write_text, ret, stats_dict.
    exec. rewrite <- app_assoc. reflexivity.
  - unfold counters. exec. repeat split; try reflexivity.
    eexists. split; reflexivity.
  - exec. reflexivity.
Qed.

Lemma record_served_mustard (w : World) (s t m : Z) (l : Q) :
  counters (state w) s t m l ->
  exists d,
    record_served clock json_dumps "mustard" w =
    (Ok tt,
     mkWorld d
             (Some (json_dumps
                      (stats_dict (PInt (s + 1)) (PInt t) (PInt (m + 1))
                                  (PFloat (clock (ticks w))))))
             (S (ticks w)) (threads w)
             (calls w ++ [Call_record_served "mustard"; Call_save_stats]))
    /\ counters d (s + 1) t (m + 1) (clock (ticks w))
    /\ d !! "last_dispense_time" = Some (PFloat (clock (ticks w))).
Proof.
  intros (Hs & Ht & Hm & v & Hv & Hnum).
  eexists. split; [|split].
  - unfold record_served, save_stats, incr, bind, called, time_time,
      getitem, setitem, lift, write_text, ret, stats_dict.
    exec. rewrite <- app_assoc. reflexivity.
  - unfold counters. exec. repeat split; try reflexivity.
    eexists. split; reflexivity.
  - exec. reflexivity.
Qed.

End Exec.

Lemma bind_ok {A B} (m : M A) (f : A -> M B) (w w' : World) (a : A) :
  m w = (Ok a, w') -> bind m f w = f a w'.
Proof. intros H. unfold bind. rewrite H. reflexivity. Qed.

Section Handlers.

Variable clock : nat -> Q.
Variable json_dumps : pyval -> string.

(** The world a throttled request leaves behind. *)
Lemma handler_rejected (tgt : target) (w : World) (s t m : Z) (l : Q) :
  counters (state w) s t m l ->
  (clock (ticks w) - l < MIN_INTERVAL_SECONDS)%Q ->
  handler clock json_dumps tgt w =
  (Ok tt,
   mkWorld (state w) (stats_file w) (S (ticks w)) (threads w)
           (calls w ++ [Call_too_soon])).
Proof.
  intros Hc Hlt. apply Qltb_true in Hlt.
  destruct tgt; unfold handler, on_tomato, on_mustard, on_both;
    rewrite (bind_ok _ _ _ _ _ (too_soon_exec clock w s t m l Hc));
    rewrite Hlt; reflexivity.
Qed.

Lemma on_tomato_accepted (b : bool) (w : World) (s t m : Z) (l : Q) :
  counters (state w) s t m l ->
  (MIN_INTERVAL_SECONDS <= clock (ticks w) - l)%Q ->
  exists d,
    on_tomato clock json_dumps b w =
    (Ok tt,
     mkWorld d
             (Some (json_dumps
                      (stats_dict (PInt (s + 1)) (PInt (t + 1)) (PInt m)
                                  (PFloat (clock (S (ticks w)))))))
             (S (S (ticks w)))
             (threads w ++ [activation pump_tomato (3 # 2)])
             (calls w ++ [Call_too_soon; Call_dispense pump_tomato;
                          Call_record_served "tomato"; Call_save_stats]))
    /\ counters d (s + 1) (t + 1) m (clock (S (ticks w)))
    /\ d !! "last_dispense_time" = Some (PFloat (clock (S (ticks w)))).
Proof.
  intros Hc Hge. apply Qltb_false in Hge.
  unfold on_tomato.
  rewrite (bind_ok _ _ _ _ _ (too_soon_exec clock w s t m l Hc)), Hge.
  rewrite (bind_ok _ _ _ _ _ (dispense_exec _ _ _)), clamp_default.
  match goal with
  | |- context [record_served _ _ _ ?w1] =>
      destruct (record_served_tomato clock json_dumps w1 s t m l Hc)
        as (d & E & Hd & Hl)
  end.
  exists d. rewrite E.
  cbn [state stats_file ticks threads calls] in *.
  rewrite <- !app_assoc. split; [reflexivity | split; assumption].
Qed.

Lemma on_mustard_accepted (b : bool) (w : World) (s t m : Z) (l : Q) :
  counters (state w) s t m l ->
  (MIN_INTERVAL_SECONDS <= clock (ticks w) - l)%Q ->
  exists d,
    on_mustard clock json_dumps b w =
    (Ok tt,
     mkWorld d
             (Some (json_dumps
                      (stats_dict (PInt (s + 1)) (PInt t) (PInt (m + 1))
                                  (PFloat (clock (S (ticks w)))))))
             (S (S (ticks w)))
             (threads w ++ [activation pump_mustard (3 # 2)])
             (calls w ++ [Call_too_soon; Call_dispense pump_mustard;
                          Call_record_served "mustard"; Call_save_stats]))
    /\ counters d (s + 1) t (m + 1) (clock (S (ticks w)))
    /\ d !! "last_dispense_time" = Some (PFloat (clock (S (ticks w)))).
Proof.
  intros Hc Hge. apply Qltb_false in Hge.
  unfold on_mustard.
  rewrite (bind_ok _ _ _ _ _ (too_soon_exec clock w s t m l Hc)), Hge.
  rewrite (bind_ok _ _ _ _ _ (dispense_exec _ _ _)), clamp_default.
  match goal with
  | |- context [record_served _ _ _ ?w1] =>
      destruct (record_served_mustard clock json_dumps w1 s t m l Hc)
        as (d & E & Hd & Hl)
  end.
  exists d. rewrite E.
  cbn [state stats_file ticks threads calls] in *.
  rewrite <- !app_assoc. split; [reflexivity | split; assumption].
Qed.

Lemma on_both_accepted (w : World) (s t m : Z) (l : Q) :
  counters (state w) s t m l ->
  (MIN_INTERVAL_SECONDS <= clock (ticks w) - l)%Q ->
  exists d,
    on_both clock json_dumps w =
    (Ok tt,
     mkWorld d
             (Some (json_dumps
                      (stats_dict (PInt (s + 1 + 1)) (PInt (t + 1))
                                  (PInt (m + 1))
                                  (PFloat (clock (S (S (ticks w))))))))
             (S (S (S (ticks w))))
             (threads w ++ [activation pump_tomato (3 # 2);
                            activation pump_mustard (3 # 2)])
             (calls w ++ [Call_too_soon; Call_dispense pump_tomato;
                          Call_dispense pump_mustard;
                          Call_record_served "tomato"; Call_save_stats;
                          Call_record_served "mustard"; Call_save_stats]))
    /\ counters d (s + 1 + 1) (t + 1) (m + 1) (clock (S (S (ticks w))))
    /\ d !! "last_dispense_time" = Some (PFloat (clock (S (S (ticks w))))).
Proof.
  intros Hc Hge. apply Qltb_false in Hge.
  unfold on_both.
  rewrite (bind_ok _ _ _ _ _ (too_soon_exec clock w s t m l Hc)), Hge.
  rewrite (bind_ok _ _ _ _ _ (dispense_exec _ _ _)).
  rewrite (bind_ok _ _ _ _ _ (dispense_exec _ _ _)), clamp_default.
  match goal with
  | |- context [bind (record_served _ _ _) _ ?w1] =>
      destruct (record_served_tomato clock json_dumps w1 s t m l Hc)
        as (d1 & E1 & Hd1 & _)
  end.
  rewrite (bind_ok _ _ _ _ _ E1).
  match goal with
  | |- context [record_served _ _ _ ?w2] =>
      destruct (record_served_mustard clock json_dumps w2 _ _ _ _ Hd1)
        as (d & E & Hd & Hl)
  end.
  exists d. rewrite E.
  cbn [state stats_file ticks threads calls] in *.
  rewrite <- !app_assoc. split; [reflexivity | split; assumption].
Qed.

End Handlers.

Lemma length_grows {A} (l more : list A) (a : A) :
  Nat.eqb (length (l ++ a :: more)) (length l) = false.
Proof.
  apply Nat.eqb_neq. rewrite length_app. simpl. lia.
Qed.

(** ** Time lines *)

Lemma MIN_INTERVAL_nonneg : (0 <= MIN_INTERVAL_SECONDS)%Q.
Proof. unfold MIN_INTERVAL_SECONDS. lra. Qed.

Lemma timeline_lower (log : list (verdict * pyval)) :
  forall (l : Q), timeline l log ->
  forall (j : nat) (v : verdict) (x : pyval),
    log !! j = Some (v, x) ->
    exists b, as_num x = Some b /\ (l <= b)%Q /\
              (v = Accepted ->
               x = PFloat b /\ (l + MIN_INTERVAL_SECONDS <= b)%Q).
Proof.
  pose proof MIN_INTERVAL_nonneg as Hmin.
  induction log as [|[v0 x0] rest IH]; intros l Htl j v x Hj.
  - discriminate.
  - destruct j as [|j]; simpl in Hj.
    + injection Hj as Hv0 Hx0; subst.
      destruct v; simpl in Htl.
      * destruct Htl as (a & -> & Hle & _).
        exists a. split; [reflexivity|]. split; [lra|].
        intros _. split; [reflexivity | exact Hle].
      * destruct Htl as (Hnum & _).
        exists l. split; [exact Hnum|]. split; [lra | discriminate].
    + destruct v0; simpl in Htl.
      * destruct Htl as (a & -> & Hle & Hrest).
        destruct (IH a Hrest j v x Hj) as (b & Hb & Hab & Hacc).
        exists b. split; [exact Hb|]. split; [lra|].
        intros Hv. destruct (Hacc Hv) as [Hx ?]. split; [exact Hx | lra].
      * destruct Htl as (_ & Hrest).
        exact (IH l Hrest j v x Hj).
Qed.


Lemma timeline_tail (l : Q) (v : verdict) (x : pyval)
      (rest : list (verdict * pyval)) :
  timeline l ((v, x) :: rest) ->
  exists a, as_num x = Some a /\ (l <= a)%Q /\ timeline a rest.
Proof.
  pose proof MIN_INTERVAL_nonneg as Hmin.
  destruct v; simpl.
  - intros (a & -> & Hle & Hrest). exists a.
    split; [reflexivity|]. split; [lra | exact Hrest].
  - intros (Hnum & Hrest). exists l.
    split; [exact Hnum|]. split; [lra | exact Hrest].
Qed.

Lemma timeline_monotone (log : list (verdict * pyval)) :
  forall (l : Q), timeline l log ->
  forall (i j : nat) (vi vj : verdict) (xi xj : pyval),
    (i <= j)%nat ->
    log !! i = Some (vi, xi) ->
    log !! j = Some (vj, xj) ->
    exists a b, as_num xi = Some a /\ as_num xj = Some b /\
                (l <= a)%Q /\ (a <= b)%Q.
Proof.
  induction log as [|[v0 x0] rest IH]; intros l Htl i j vi vj xi xj Hij Hi Hj.
  - discriminate.
  - destruct (timeline_tail l v0 x0 rest Htl) as (a0 & Ha0 & Hla0 & Hrest).
    destruct i as [|i]; simpl in Hi.
    + assert (x0 = xi) by congruence. subst x0.
      destruct j as [|j]; simpl in Hj.
      * assert (xi = xj) by congruence. subst xj.
        exists a0, a0. repeat split; auto. lra.
      * destruct (timeline_lower rest a0 Hrest j vj xj Hj)
          as (b & Hb & Hab & _).
        exists a0, b. auto.
    + destruct j as [|j]; [lia|]. simpl in Hj.
      destruct (IH a0 Hrest i j vi vj xi xj) as (a & b & ? & ? & ? & ?);
        [lia | assumption | assumption |].
      exists a, b. repeat split; auto. lra.
Qed.

Lemma getitem_exec (k : string) (w : World) (v : pyval) :
  state w !! k = Some v -> getitem k w = (Ok v, w).
Proof. intros H. unfold getitem. rewrite H. reflexivity. Qed.

Section Sessions.

Variable clock : nat -> Q.
Variable json_dumps : pyval -> string.

Lemma request_rejected (tgt : target) (w : World) (s t m : Z) (l : Q) :
  counters (state w) s t m l ->
  (clock (ticks w) - l < MIN_INTERVAL_SECONDS)%Q ->
  request clock json_dumps tgt w =
  (Ok Rejected,
   mkWorld (state w) (stats_file w) (S (ticks w)) (threads w)
           (calls w ++ [Call_too_soon])).
Proof.
  intros Hc Hlt. unfold request.
  rewrite (handler_rejected clock json_dumps tgt w s t m l Hc Hlt).
  cbn [threads]. rewrite Nat.eqb_refl. reflexivity.
Qed.

Lemma request_accepted (tgt : target) (w : World) (s t m : Z) (l : Q) :
  counters (state w) s t m l ->
  (MIN_INTERVAL_SECONDS <= clock (ticks w) - l)%Q ->
  let s' := (s + tomato_delta tgt + mustard_delta tgt)%Z in
  let t' := (t + tomato_delta tgt)%Z in
  let m' := (m + mustard_delta tgt)%Z in
  let k := (length (pumps_of tgt) + ticks w)%nat in
  exists w',
    request clock json_dumps tgt w = (Ok Accepted, w')
    /\ counters (state w') s' t' m' (clock k)
    /\ state w' !! "last_dispense_time" = Some (PFloat (clock k))
    /\ stats_file w' =
       Some (json_dumps (stats_dict (PInt s') (PInt t') (PInt m')
                                    (PFloat (clock k))))
    /\ threads w' =
       (threads w ++ map (fun p => activation p (3 # 2)) (pumps_of tgt))%list
    /\ ticks w' = S k.
Proof.
  intros Hc Hge. unfold request.
  destruct tgt; cbn [handler tomato_delta mustard_delta pumps_of length
                     Nat.add map]; rewrite ?Z.add_0_r.
  - destruct (on_tomato_accepted clock json_dumps false w s t m l Hc Hge)
      as (d & E & Hd & Hl).
    rewrite E. cbn [threads]. rewrite length_grows.
    eexists. split; [reflexivity|]. cbn [state stats_file ticks threads].
    auto.
  - destruct (on_mustard_accepted clock json_dumps false w s t m l Hc Hge)
      as (d & E & Hd & Hl).
    rewrite E. cbn [threads]. rewrite length_grows.
    eexists. split; [reflexivity|]. cbn [state stats_file ticks threads].
    auto.
  - destruct (on_both_accepted clock json_dumps w s t m l Hc Hge)
      as (d & E & Hd & Hl).
    rewrite E. cbn [threads]. rewrite length_grows.
    eexists. split; [reflexivity|]. cbn [state stats_file ticks threads].
    auto.
Qed.

(** A session on a typed state runs to its end; the counts stay integers
    and grow together; the log is a time line when the clock is
    monotone. *)
Lemma serve_exec (reqs : list target) :
  forall (w : World) (s t m : Z) (l : Q),
    counters (state w) s t m l ->
    exists log w' s' t' m' l',
      serve clock json_dumps reqs w = (Ok log, w')
      /\ length log = length reqs
      /\ counters (state w') s' t' m' l'
      /\ (s' - s = (t' - t) + (m' - m))%Z
      /\ (monotone clock -> timeline l log).
Proof.
  induction reqs as [|tgt rest IH]; intros w s t m l Hc.
  - exists [], w, s, t, m, l.
    split; [reflexivity|]. split; [reflexivity|]. split; [exact Hc|].
    split; [lia | intros _; exact I].
  - cbn [serve].
    destruct (Qlt_le_dec (clock (ticks w) - l) MIN_INTERVAL_SECONDS)
      as [Hlt | Hge].
    + rewrite (bind_ok _ _ _ _ _
                 (request_rejected tgt w s t m l Hc Hlt)).
      destruct Hc as (Hs & Ht & Hm & v & Hv & Hnum).
      erewrite bind_ok by (apply getitem_exec; cbn [state]; exact Hv).
      match goal with
      | |- context [bind (serve _ _ rest) _ ?w1] =>
          destruct (IH w1 s t m l) as (log & w' & s' & t' & m' & l' &
                                       E & Hlen & Hc' & Hadd & Htl)
      end.
      { cbn [state]. repeat split; auto. exists v. auto. }
      rewrite (bind_ok _ _ _ _ _ E).
      exists ((Rejected, v) :: log), w', s', t', m', l'.
      split; [reflexivity|]. cbn [length].
      split; [congruence|]. split; [exact Hc'|]. split; [exact Hadd|].
      intros Hmono. cbn [timeline]. split; [exact Hnum | exact (Htl Hmono)].
    + destruct (request_accepted tgt w s t m l Hc Hge)
        as (w1 & E1 & Hc1 & Hl1 & _).
      set (s1 := (s + tomato_delta tgt + mustard_delta tgt)%Z) in *.
      set (t1 := (t + tomato_delta tgt)%Z) in *.
      set (m1 := (m + mustard_delta tgt)%Z) in *.
      set (k := (length (pumps_of tgt) + ticks w)%nat) in *.
      assert (ticks w <= k)%nat as Hk by (unfold k; lia).
      assert (s1 - s = (t1 - t) + (m1 - m))%Z as Hadd1
          by (unfold s1, t1, m1; lia).
      clearbody s1 t1 m1 k.
      rewrite (bind_ok _ _ _ _ _ E1).
      rewrite (bind_ok _ _ _ _ _ (getitem_exec _ _ _ Hl1)).
      destruct (IH w1 s1 t1 m1 (clock k) Hc1)
        as (log & w' & s' & t' & m' & l' & E & Hlen & Hc' & Hadd & Htl).
      rewrite (bind_ok _ _ _ _ _ E).
      exists ((Accepted, PFloat (clock k)) :: log), w', s', t', m', l'.
      split; [reflexivity|]. cbn [length].
      split; [congruence|]. split; [exact Hc'|]. split; [lia|].
      intros Hmono. cbn [timeline]. exists (clock k).
      split; [reflexivity|]. split; [| exact (Htl Hmono)].
      pose proof (Hmono _ _ Hk). lra.
Qed.

End Sessions.

(** ** Frame properties, for any state *)

Create HintDb keeps.

Lemma keeps_ret {A} (a : A) : keeps_threads (ret a).
Proof. intros w w' r [= _ <-]. reflexivity. Qed.

Lemma keeps_lift {A} (x : result A) : keeps_threads (lift x).
Proof. intros w w' r [= _ <-]. reflexivity. Qed.

Lemma keeps_called (c : call) : keeps_threads (called c).
Proof. intros w w' r [= _ <-]. reflexivity. Qed.

Lemma keeps_getitem (k : string) : keeps_threads (getitem k).
Proof.
  intros w w' r. unfold getitem.
  destruct (state w !! k); intros [= _ <-]; reflexivity.
Qed.

Lemma keeps_setitem (k : string) (v : pyval) : keeps_threads (setitem k v).
Proof. intros w w' r [= _ <-]. reflexivity. Qed.

Lemma keeps_write_text (txt : string) : keeps_threads (write_text txt).
Proof. intros w w' r [= _ <-]. reflexivity. Qed.

Lemma keeps_time_time (clock : nat -> Q) : keeps_threads (time_time clock).
Proof. intros w w' r [= _ <-]. reflexivity. Qed.

Lemma keeps_bind {A B} (m : M A) (f : A -> M B) :
  keeps_threads m -> (forall a, keeps_threads (f a)) ->
  keeps_threads (bind m f).
Proof.
  intros Hm Hf w w' r. unfold bind.
  destruct (m w) as [[a|e] w1] eqn:E.
  - intros H. rewrite (Hf a _ _ _ H). exact (Hm _ _ _ E).
  - intros [= _ <-]. exact (Hm _ _ _ E).
Qed.

#[local] Hint Resolve keeps_ret keeps_lift keeps_called keeps_getitem
  keeps_setitem keeps_write_text keeps_time_time : keeps.

Ltac keeps := repeat (apply keeps_bind; [|intros]); auto with keeps.

Lemma keeps_incr (k : string) : keeps_threads (incr k).
Proof. unfold incr. keeps. Qed.

Lemma keeps_save_stats (json_dumps : pyval -> string) :
  keeps_threads (save_stats json_dumps).
Proof. unfold save_stats. keeps. Qed.

Lemma keeps_record_served (clock : nat -> Q) (json_dumps : pyval -> string)
      (which : string) :
  keeps_threads (record_served clock json_dumps which).
Proof.
  pose proof keeps_incr. pose proof keeps_save_stats.
  unfold record_served. keeps.
  destruct (String.eqb _ _); [auto|]. destruct (String.eqb _ _); auto with keeps.
Qed.

(** The throttle check reads the clock and nothing else. *)
Lemma too_soon_quiet (clock : nat -> Q) (w w' : World) (r : result bool) :
  too_soon clock w = (r, w') ->
  state w' = state w /\ stats_file w' = stats_file w /\
  threads w' = threads w /\ ticks w' = S (ticks w) /\
  calls w' = (calls w ++ [Call_too_soon])%list.
Proof.
  unfold too_soon, bind, called, time_time, getitem, lift, py_rsub, ret.
  cbn [state stats_file ticks threads calls].
  destruct (state w !! "last_dispense_time") as [v|]; [|intros [= _ <-]; auto].
  destruct (as_num v); [|intros [= _ <-]; auto].
  destruct (Qltb _ _); intros [= _ <-]; auto.
Qed.

Lemma rejected_quiet (clock : nat -> Q) (json_dumps : pyval -> string)
      (tgt : target) (w w' : World) :
  request clock json_dumps tgt w = (Ok Rejected, w') ->
  state w' = state w /\ stats_file w' = stats_file w /\
  threads w' = threads w /\ calls w' = (calls w ++ [Call_too_soon])%list.
Proof.
  unfold request.
  destruct (handler clock json_dumps tgt w) as [[[]|e] w1] eqn:E;
    [|discriminate].
  intros [= Hv <-].
  destruct (Nat.eqb _ _) eqn:Hlen in Hv; [clear Hv|discriminate].
  apply Nat.eqb_eq in Hlen.
  assert (forall (k : M unit) (n : nat),
             (forall w0 w2 r, k w0 = (r, w2) ->
                              length (threads w2) = (length (threads w0) + S n)%nat) ->
             (soon <- too_soon clock ;; if soon then ret tt else k) w
             = (Ok tt, w1) ->
             state w1 = state w /\ stats_file w1 = stats_file w /\
             threads w1 = threads w /\ calls w1 = (calls w ++ [Call_too_soon])%list)
    as Hgate.
  { intros k n Hk. unfold bind at 1.
    destruct (too_soon clock w) as [[[|]|e] w0] eqn:Ets.
    - intros [= <-]. apply too_soon_quiet in Ets. tauto.
    - intros Hrun. apply Hk in Hrun.
      apply too_soon_quiet in Ets. destruct Ets as (_ & _ & Hth & _).
      rewrite Hth in Hrun. lia.
    - discriminate. }
  destruct tgt; cbn [handler] in E;
    unfold on_tomato, on_mustard, on_both in E.
  - apply (Hgate _ 0%nat) in E; [exact E|].
    intros w0 w2 r. rewrite (bind_ok _ _ _ _ _ (dispense_exec _ _ _)).
    intros Hr. apply keeps_record_served in Hr. rewrite Hr.
    cbn [threads]. rewrite length_app. reflexivity.
  - apply (Hgate _ 0%nat) in E; [exact E|].
    intros w0 w2 r. rewrite (bind_ok _ _ _ _ _ (dispense_exec _ _ _)).
    intros Hr. apply keeps_record_served in Hr. rewrite Hr.
    cbn [threads]. rewrite length_app. reflexivity.
  - apply (Hgate _ 1%nat) in E; [exact E|].
    intros w0 w2 r. rewrite (bind_ok _ _ _ _ _ (dispense_exec _ _ _)).
    rewrite (bind_ok _ _ _ _ _ (dispense_exec _ _ _)).
    intros Hr.
    assert (keeps_threads (record_served clock json_dumps "tomato" ;;;
                           record_served clock json_dumps "mustard")) as Hk
        by (apply keeps_bind; [|intros]; apply keeps_record_served).
    apply Hk in Hr. rewrite Hr.
    cbn [threads]. rewrite !length_app. cbn. lia.
Qed.

(** ** Loading *)

Lemma merge_from_seq_chars (s : string) (d : gmap string pyval) :
  snd (merge_from_seq (chars s) d) = d.
Proof. destruct s; reflexivity. Qed.

Lemma load_stats_total (json_loads : string -> result pyval) (w : World) :
  exists d,
    load_stats json_loads w =
    (Ok tt,
     mkWorld d (stats_file w) (ticks w) (threads w)
             (calls w ++ [Call_load_stats]))
    /\ (nothing_to_load json_loads (stats_file w) = true -> d = state w).
Proof.
  unfold load_stats, bind, called, nothing_to_load.
  cbn [state stats_file ticks threads calls].
  destruct (stats_file w) as [text|]; [|eexists; split; [reflexivity|auto]].
  unfold try_except, bind, lift, state_update, ret.
  cbn [state stats_file ticks threads calls].
  destruct (json_loads text) as [j|e];
    [|eexists; split; [reflexivity|auto]].
  pose proof (merge_from_seq_chars) as Hchars.
  destruct (dict_update j (state w)) as [[[]|e] d] eqn:E;
    (exists d; split; [reflexivity|]);
    destruct j; try discriminate; cbn [dict_update] in E; intros _;
    try congruence;
    specialize (Hchars s (state w)); rewrite E in Hchars; exact Hchars.
Qed.

Lemma load_stats_dict (json_loads : string -> result pyval) (w : World)
      (text : string) (kvs : list (string * pyval)) :
  stats_file w = Some text ->
  json_loads text = Ok (PDict kvs) ->
  load_stats json_loads w =
  (Ok tt,
   mkWorld (merge_dict kvs (state w)) (stats_file w) (ticks w) (threads w)
           (calls w ++ [Call_load_stats])).
Proof.
  intros Hfile Hparse.
  unfold load_stats, bind, called.
  cbn [state stats_file ticks threads calls]. rewrite Hfile.
  unfold try_except, bind, lift, state_update, ret. rewrite Hparse.
  reflexivity.
Qed.

Lemma save_stats_exec (json_dumps : pyval -> string) (w : World)
      (vs vt vm vl : pyval) :
  state w !! "served" = Some vs ->
  state w !! "tomato_served" = Some vt ->
  state w !! "mustard_served" = Some vm ->
  state w !! "last_dispense_time" = Some vl ->
  save_stats json_dumps w =
  (Ok tt,
   mkWorld (state w) (Some (json_dumps (stats_dict vs vt vm vl)))
           (ticks w) (threads w) (calls w ++ [Call_save_stats])).
Proof.
  intros Hs Ht Hm Hl.
  unfold save_stats, bind, called, getitem, write_text, stats_dict.
  exec. reflexivity.
Qed.

(** ** Facts about the sample data *)

Lemma counters_state0 : counters state0 0 0 0 0.
Proof.
  unfold counters, state0. exec. repeat split; try reflexivity.
  exists (PFloat 0). split; reflexivity.
Qed.

Lemma monotone_of_steps (clock : nat -> Q) :
  (forall i : nat, (clock i <= clock (S i))%Q) -> monotone clock.
Proof.
  intros Hstep i j Hij. induction Hij as [|j Hij IH].
  - apply Qle_refl.
  - exact (Qle_trans _ _ _ IH (Hstep j)).
Qed.

Lemma sample_clock_monotone : monotone sample_clock.
Proof.
  intros i j Hij. unfold sample_clock. rewrite <- Zle_Qle. lia.
Qed.

Lemma scenario_clock_monotone (T : Q) : monotone (scenario_clock T).
Proof.
  apply monotone_of_steps. intros i.
  destruct i as [|[|[|i]]]; cbn [scenario_clock]; lra.
Qed.

(** ** Merging with [dict.update] *)

Lemma field_app (k : string) (l1 l2 : list (string * pyval)) :
  field k (l1 ++ l2) =
  match field k l1 with Some v => Some v | None => field k l2 end.
Proof.
  induction l1 as [|[k' v'] l1 IH]; [reflexivity|].
  cbn [app field]. destruct (String.eqb k k'); [reflexivity | exact IH].
Qed.

Lemma merge_dict_lookup (kvs : list (string * pyval)) :
  forall (d : gmap string pyval) (k : string),
    merge_dict kvs d !! k =
    match last_value k kvs with Some v => Some v | None => d !! k end.
Proof.
  unfold last_value.
  induction kvs as [|[k' v'] rest IH]; intros d k; [reflexivity|].
  change (merge_dict ((k', v') :: rest) d)
    with (merge_dict rest (<[k' := v']> d)).
  rewrite IH. cbn [rev]. rewrite field_app.
  destruct (field k (rev rest)); [reflexivity|].
  cbn [field]. destruct (String.eqb k k') eqn:E.
  - apply String.eqb_eq in E. subst k'. apply lookup_insert_eq.
  - apply String.eqb_neq in E. rewrite lookup_insert_ne by congruence.
    reflexivity.
Qed.

Lemma merge_dict_idem (kvs : list (string * pyval)) (d : gmap string pyval) :
  merge_dict kvs (merge_dict kvs d) = merge_dict kvs d.
Proof.
  apply map_eq. intros k. rewrite !merge_dict_lookup.
  destruct (last_value k kvs); reflexivity.
Qed.

Lemma merge_dict_keeps (kvs : list (string * pyval)) (d : gmap string pyval)
      (k : string) :
  is_Some (d !! k) -> is_Some (merge_dict kvs d !! k).
Proof.
  intros H. rewrite merge_dict_lookup.
  destruct (last_value k kvs); [eauto | exact H].
Qed.

(** What a sequence stores, and how it ends, does not depend on the dict
    it is merged into. *)
Lemma merge_from_seq_stores (items : list pyval) :
  forall d : gmap string pyval,
    merge_from_seq items d =
    (fst (merge_from_seq items ∅), merge_dict (seq_stores items) d).
Proof.
  induction items as [|item rest IH]; intros d; [reflexivity|].
  cbn [merge_from_seq seq_stores].
  destruct (pair_of_item item) as [[k v]|e]; [|reflexivity].
  destruct k; cbn [store]; try reflexivity;
    rewrite IH; rewrite (IH (<[_ := _]> ∅)) || rewrite (IH ∅); reflexivity.
Qed.

Lemma dict_update_idem (j : pyval) (d : gmap string pyval) :
  dict_update j (snd (dict_update j d)) = dict_update j d.
Proof.
  destruct j; cbn [dict_update snd]; try reflexivity.
  - rewrite merge_from_seq_stores.
    rewrite (merge_from_seq_stores (chars s) d). cbn [snd].
    rewrite merge_dict_idem. reflexivity.
  - rewrite merge_from_seq_stores.
    rewrite (merge_from_seq_stores items d). cbn [snd].
    rewrite merge_dict_idem. reflexivity.
  - rewrite merge_dict_idem. reflexivity.
Qed.

Lemma dict_update_keeps (j : pyval) (d : gmap string pyval) (k : string) :
  is_Some (d !! k) -> is_Some (snd (dict_update j d) !! k).
Proof.
  intros H. destruct j; cbn [dict_update snd]; try exact H.
  - rewrite merge_from_seq_stores. cbn [snd]. apply merge_dict_keeps, H.
  - rewrite merge_from_seq_stores. cbn [snd]. apply merge_dict_keeps, H.
  - apply merge_dict_keeps, H.
Qed.

(** What [load_stats] does, for any content: it returns normally and the
    state is the one [dict.update] leaves, or the old one. *)
Lemma load_stats_exec (json_loads : string -> result pyval) (w : World) :
  load_stats json_loads w =
  (Ok tt,
   mkWorld (match stats_file w with
            | Some text =>
                match json_loads text with
                | Ok j => snd (dict_update j (state w))
                | Raise _ => state w
                end
            | None => state w
            end)
           (stats_file w) (ticks w) (threads w)
           (calls w ++ [Call_load_stats])).
Proof.
  unfold load_stats, bind, called.
  cbn [state stats_file ticks threads calls].
  destruct (stats_file w) as [text|]; [|reflexivity].
  unfold try_except, bind, lift, state_update, ret.
  cbn [state stats_file ticks threads calls].
  destruct (json_loads text) as [j|e]; [|reflexivity].
  destruct (dict_update j (state w)) as [[[]|e] d]; reflexivity.
Qed.

(** ** The reference codec reads back the numbers it prints *)

Lemma append_String (c : ascii) (s t : string) :
  String c s ++ t = String c (s ++ t).
Proof. reflexivity. Qed.

Lemma append_Empty (t : string) : EmptyString ++ t = t.
Proof. reflexivity. Qed.

Lemma append_assoc (s t u : string) : (s ++ t) ++ u = s ++ (t ++ u).
Proof.
  induction s as [|c s IH]; [reflexivity|].
  rewrite !append_String, IH. reflexivity.
Qed.

Lemma digit_of_char_of_digit (d : Z) :
  digit d -> Json.digit_of (Json.char_of_digit d) = Some d.
Proof.
  unfold digit. intros H.
  assert (d = 0 \/ d = 1 \/ d = 2 \/ d = 3 \/ d = 4 \/ d = 5 \/ d = 6
          \/ d = 7 \/ d = 8 \/ d = 9)%Z as Hd by lia.
  repeat (destruct Hd as [-> | Hd]; [reflexivity|]). subst d. reflexivity.
Qed.

Lemma take_digits_text (ds : list Z) (rest : string) :
  Forall digit ds -> no_digit_head rest ->
  Json.take_digits (text_of_digits ds ++ rest) = (ds, rest).
Proof.
  intros Hds Hrest. induction Hds as [|d ds Hd _ IH].
  - destruct rest as [|c r]; [reflexivity|].
    cbn [text_of_digits fold_right no_digit_head] in *.
    rewrite append_Empty. cbn [Json.take_digits].
    rewrite Hrest. reflexivity.
  - cbn [text_of_digits fold_right]. rewrite append_String.
    cbn [Json.take_digits].
    rewrite (digit_of_char_of_digit d Hd).
    fold (text_of_digits ds). rewrite IH. reflexivity.
Qed.

Lemma uint_digits_digit (d : Decimal.uint) : Forall digit (uint_digits d).
Proof.
  induction d; cbn [uint_digits]; constructor; auto; unfold digit; lia.
Qed.

Lemma string_of_uint_text (d : Decimal.uint) :
  NilEmpty.string_of_uint d = text_of_digits (uint_digits d).
Proof.
  induction d; cbn [NilEmpty.string_of_uint uint_digits text_of_digits
                    fold_right]; [reflexivity| ..];
    fold (text_of_digits (uint_digits d)); rewrite IHd; reflexivity.
Qed.

Lemma fraction_text (fuel : nat) :
  forall num den : Z,
    Json.fraction fuel num den
    = text_of_digits (fraction_digits fuel num den).
Proof.
  induction fuel as [|fuel IH]; intros num den; [reflexivity|].
  cbn [Json.fraction fraction_digits text_of_digits fold_right].
  destruct (10 * num mod den =? 0)%Z; [reflexivity|].
  fold (text_of_digits (fraction_digits fuel (10 * num mod den) den)).
  rewrite IH. reflexivity.
Qed.

(** *** The value of a list of digits *)

Lemma value_from (ds : list Z) :
  forall acc : Z,
    fold_left (fun acc d => (10 * acc + d)%Z) ds acc
    = (acc * 10 ^ Z.of_nat (length ds) + Json.value_of ds)%Z.
Proof.
  unfold Json.value_of.
  induction ds as [|d ds IH]; intros acc; [cbn; lia|].
  cbn [fold_left length]. rewrite IH. rewrite (IH (10 * 0 + d)%Z).
  rewrite Nat2Z.inj_succ, Z.pow_succ_r by lia. ring.
Qed.

Lemma value_of_cons (d : Z) (ds : list Z) :
  Json.value_of (d :: ds)
  = (d * 10 ^ Z.of_nat (length ds) + Json.value_of ds)%Z.
Proof.
  unfold Json.value_of at 1. cbn [fold_left]. rewrite value_from. ring.
Qed.

Lemma value_of_app (ds fs : list Z) :
  Json.value_of (ds ++ fs)
  = (Json.value_of ds * 10 ^ Z.of_nat (length fs) + Json.value_of fs)%Z.
Proof.
  unfold Json.value_of at 1. rewrite fold_left_app.
  fold (Json.value_of ds). apply value_from.
Qed.

Lemma value_of_uint_acc (d : Decimal.uint) :
  forall acc : positive,
    fold_left (fun acc d => (10 * acc + d)%Z) (uint_digits d) (Zpos acc)
    = Zpos (Pos.of_uint_acc d acc).
Proof.
  induction d; intros acc;
    cbn [uint_digits fold_left Pos.of_uint_acc]; [reflexivity| ..];
    rewrite <- IHd; f_equal; lia.
Qed.

Lemma value_of_uint (d : Decimal.uint) :
  Json.value_of (uint_digits d) = Z.of_N (Pos.of_uint d).
Proof.
  unfold Json.value_of.
  induction d; cbn [uint_digits fold_left Pos.of_uint];
    [reflexivity | exact IHd | ..];
    exact (value_of_uint_acc d _).
Qed.

Lemma value_of_to_uint (p : positive) :
  Json.value_of (uint_digits (Pos.to_uint p)) = Zpos p.
Proof.
  rewrite value_of_uint, DecimalPos.Unsigned.of_to. reflexivity.
Qed.

(** *** Integers *)

Lemma to_uint_no_leading_zero (p : positive) (d : Decimal.uint) :
  Pos.to_uint p <> Decimal.D0 d.
Proof.
  intros H.
  pose proof (DecimalPos.Unsigned.to_of (Pos.to_uint p)) as Hn.
  rewrite DecimalPos.Unsigned.of_to in Hn. cbn [N.to_uint] in Hn.
  rewrite H in Hn.
  destruct (Decimal.nzhead (Decimal.D0 d)) eqn:E;
    [apply DecimalFacts.unorm_0 in E; rewrite E in Hn;
     apply (DecimalPos.Unsigned.to_uint_nonzero p); congruence
    | exact (DecimalFacts.nzhead_nonzero _ _ E)
    | ..];
    rewrite DecimalFacts.unorm_nzhead in Hn by (rewrite E; discriminate);
    symmetry in Hn; exact (DecimalFacts.nzhead_nonzero _ _ Hn).
Qed.

Lemma abs_digits_spec (z : Z) :
  Forall digit (abs_digits z)
  /\ abs_digits z <> []
  /\ Json.leading_zero (abs_digits z) = false
  /\ Json.value_of (abs_digits z) = Z.abs z.
Proof.
  assert (forall p : positive,
             Forall digit (uint_digits (Pos.to_uint p))
             /\ uint_digits (Pos.to_uint p) <> []
             /\ Json.leading_zero (uint_digits (Pos.to_uint p)) = false
             /\ Json.value_of (uint_digits (Pos.to_uint p)) = Zpos p) as H.
  { intros p. split; [apply uint_digits_digit|].
    pose proof (DecimalPos.Unsigned.to_uint_nonnil p) as Hnil.
    pose proof (to_uint_no_leading_zero p) as Hzero.
    split; [|split; [|apply value_of_to_uint]];
      destruct (Pos.to_uint p); try discriminate; try reflexivity;
      try (exfalso; apply Hnil; reflexivity);
      exfalso; eapply Hzero; reflexivity. }
  destruct z as [|p|p]; [|exact (H p) | exact (H p)].
  split; [repeat constructor; unfold digit; lia|].
  split; [discriminate|]. split; reflexivity.
Qed.

Lemma dumps_int_text (z : Z) :
  Json.dumps_int z
  = (if (z <? 0)%Z then "-" else EmptyString) ++ text_of_digits (abs_digits z).
Proof.
  unfold Json.dumps_int.
  destruct z as [|p|p]; [reflexivity| |];
    cbn [Z.to_int NilZero.string_of_int NilZero.string_of_uint abs_digits
         Z.ltb Z.compare];
    rewrite <- string_of_uint_text;
    pose proof (DecimalPos.Unsigned.to_uint_nonnil p) as Hnil;
    destruct (Pos.to_uint p); try reflexivity;
    exfalso; apply Hnil; reflexivity.
Qed.

(** *** Numbers where a value is expected *)

Lemma member_end_no_digit (rest : string) :
  member_end rest -> no_digit_head rest.
Proof. intros (r & [-> | ->]); reflexivity. Qed.

Lemma parse_exponent_member_end (rest : string) :
  member_end rest -> Json.parse_exponent rest = Some (None, rest).
Proof. intros (r & [-> | ->]); reflexivity. Qed.

Lemma parse_fraction_member_end (rest : string) :
  member_end rest -> Json.parse_fraction rest = Some (None, rest).
Proof. intros (r & [-> | ->]); reflexivity. Qed.

Lemma parse_unsigned_int (neg : bool) (ds : list Z) (rest : string) :
  Forall digit ds -> ds <> [] -> Json.leading_zero ds = false ->
  member_end rest ->
  Json.parse_unsigned neg (text_of_digits ds ++ rest)
  = Some (Json.number_value neg ds None None, rest).
Proof.
  intros Hds Hne Hlz Hrest. unfold Json.parse_unsigned.
  rewrite (take_digits_text ds rest Hds (member_end_no_digit rest Hrest)).
  destruct ds as [|d ds]; [congruence|]. rewrite Hlz.
  rewrite (parse_fraction_member_end rest Hrest).
  rewrite (parse_exponent_member_end rest Hrest). reflexivity.
Qed.

Lemma parse_unsigned_float (neg : bool) (ds fs : list Z) (rest : string) :
  Forall digit ds -> ds <> [] -> Json.leading_zero ds = false ->
  Forall digit fs -> fs <> [] ->
  member_end rest ->
  Json.parse_unsigned neg
    (text_of_digits ds ++ String "." (text_of_digits fs ++ rest))
  = Some (Json.number_value neg ds (Some fs) None, rest).
Proof.
  intros Hds Hne Hlz Hfs Hfne Hrest. unfold Json.parse_unsigned.
  rewrite (take_digits_text ds _ Hds) by reflexivity.
  destruct ds as [|d ds]; [congruence|]. rewrite Hlz.
  cbn [Json.parse_fraction].
  rewrite (take_digits_text fs rest Hfs (member_end_no_digit rest Hrest)).
  destruct fs as [|f fs]; [congruence|].
  rewrite (parse_exponent_member_end rest Hrest). reflexivity.
Qed.

Lemma digit_not_minus (c : ascii) (d : Z) :
  Json.digit_of c = Some d -> Ascii.eqb c "-" = false.
Proof.
  intros H. destruct (Ascii.eqb_spec c "-") as [-> | _]; [|reflexivity].
  vm_compute in H. discriminate.
Qed.

Lemma parse_number_digits (ds : list Z) (rest : string) :
  Forall digit ds -> ds <> [] ->
  Json.parse_number (text_of_digits ds ++ rest)
  = Json.parse_unsigned false (text_of_digits ds ++ rest).
Proof.
  intros Hds Hne. destruct Hds as [|d ds Hd Hds]; [congruence|].
  cbn [text_of_digits fold_right]. rewrite append_String.
  cbn [Json.parse_number].
  rewrite (digit_not_minus _ d (digit_of_char_of_digit d Hd)). reflexivity.
Qed.

Lemma parse_value_number (fuel : nat) (c : ascii) (r : string) :
  number_head c = true ->
  Json.parse_value (S fuel) (String c r) = Json.parse_number (String c r).
Proof.
  intros H.
  destruct c as [[] [] [] [] [] [] [] []]; vm_compute in H;
    try discriminate H; reflexivity.
Qed.


Lemma parse_value_space (fuel : nat) (s : string) :
  Json.parse_value (S fuel) (String " " s) = Json.parse_value (S fuel) s.
Proof. reflexivity. Qed.

Lemma parse_number_minus (s : string) :
  Json.parse_number (String "-" s) = Json.parse_unsigned true s.
Proof. reflexivity. Qed.

Lemma parse_value_digits (fuel : nat) (ds : list Z) (rest : string) :
  Forall digit ds -> ds <> [] ->
  Json.parse_value (S fuel) (text_of_digits ds ++ rest)
  = Json.parse_unsigned false (text_of_digits ds ++ rest).
Proof.
  intros Hds Hne. rewrite <- (parse_number_digits ds rest Hds Hne).
  destruct Hds as [|d ds Hd Hds]; [congruence|].
  cbn [text_of_digits fold_right]. rewrite append_String.
  apply parse_value_number. unfold number_head.
  rewrite (digit_of_char_of_digit d Hd). reflexivity.
Qed.

Lemma parse_value_minus (fuel : nat) (s : string) :
  Json.parse_value (S fuel) (String "-" s) = Json.parse_unsigned true s.
Proof. rewrite parse_value_number by reflexivity. reflexivity. Qed.

(** An integer is read back as itself. *)
Lemma reads_as_int (z : Z) : reads_as (Json.dumps_int z) (PInt z).
Proof.
  intros fuel rest Hrest. rewrite parse_value_space, dumps_int_text.
  destruct (abs_digits_spec z) as (Hds & Hne & Hlz & Hval).
  destruct (z <? 0)%Z eqn:Hneg.
  - rewrite append_String, append_Empty, append_String, parse_value_minus.
    rewrite (parse_unsigned_int true _ rest Hds Hne Hlz Hrest).
    unfold Json.number_value. rewrite Hval.
    apply Z.ltb_lt in Hneg. do 3 f_equal. lia.
  - rewrite append_Empty, (parse_value_digits fuel _ rest Hds Hne).
    rewrite (parse_unsigned_int false _ rest Hds Hne Hlz Hrest).
    unfold Json.number_value. rewrite Hval.
    apply Z.ltb_ge in Hneg. do 3 f_equal. lia.
Qed.

(** *** Finite decimal expansions *)

Lemma coprime_power_of_ten (d : Z) (k : nat) :
  Z.gcd d 10 = 1%Z -> (d | 10 ^ Z.of_nat k)%Z -> (d | 1)%Z.
Proof.
  intros Hg. induction k as [|k IH]; [auto|].
  rewrite Nat2Z.inj_succ, Z.pow_succ_r by lia. intros H.
  apply IH. exact (Z.gauss _ _ _ H Hg).
Qed.

Lemma divides_power_of_ten (d : Z) (k : nat) :
  (1 < d)%Z -> (d | 10 ^ Z.of_nat k)%Z -> (2 | d)%Z \/ (5 | d)%Z.
Proof.
  intros Hd Hdiv.
  pose proof (Z.gcd_divide_l d 10) as Hgd.
  pose proof (Z.gcd_divide_r d 10) as Hg10.
  pose proof (Z.gcd_nonneg d 10) as Hpos.
  pose proof (coprime_power_of_ten d k) as Hone.
  set (g := Z.gcd d 10) in *.
  assert (g <= 10)%Z as Hle by (apply Z.divide_pos_le; [lia | exact Hg10]).
  assert (g = 1 \/ (2 | g) \/ (5 | g))%Z as [H1 | [H2 | H5]].
  { assert (g = 0 \/ g = 1 \/ g = 2 \/ g = 3 \/ g = 4 \/ g = 5 \/ g = 6
            \/ g = 7 \/ g = 8 \/ g = 9 \/ g = 10)%Z as Hcases by lia.
    destruct Hg10 as [c Hc].
    assert (g = 1 \/ g = 2 \/ g = 5 \/ g = 10)%Z
      as [-> | [-> | [-> | ->]]] by lia.
    - left. reflexivity.
    - right. left. exists 1%Z. reflexivity.
    - right. right. exists 1%Z. reflexivity.
    - right. left. exists 5%Z. reflexivity. }
  - exfalso. apply Z.divide_1_r_nonneg in Hone; [lia | lia | auto | auto].
  - left. exact (Z.divide_trans _ _ _ H2 Hgd).
  - right. exact (Z.divide_trans _ _ _ H5 Hgd).
Qed.

(** A denominator that divides a power of ten divides the power of ten
    whose exponent is its binary logarithm. *)
Lemma decimal_bound (d : Z) :
  (0 < d)%Z ->
  forall k : nat, (d | 10 ^ Z.of_nat k)%Z -> (d | 10 ^ Z.log2 d)%Z.
Proof.
  intros Hd.
  assert (forall n : nat, forall d : Z,
             (0 < d)%Z -> (Z.to_nat d <= n)%nat ->
             forall k : nat, (d | 10 ^ Z.of_nat k)%Z ->
                             (d | 10 ^ Z.log2 d)%Z) as Hind.
  { induction n as [|n IH]; intros e He Hn k Hdiv; [lia|].
    destruct (Z.eq_dec e 1%Z) as [-> | Hne]; [exists 1%Z; reflexivity|].
    assert (exists p e', (p = 2 \/ p = 5)%Z /\ e = (p * e')%Z)
      as (p & e' & Hp & ->).
    { destruct (divides_power_of_ten e k ltac:(lia) Hdiv) as [[c Hc] | [c Hc]].
      - exists 2%Z, c. split; [auto | lia].
      - exists 5%Z, c. split; [auto | lia]. }
    assert (0 < e')%Z as He' by lia.
    assert (e' | 10 ^ Z.of_nat k)%Z as Hdiv'.
    { apply Z.divide_trans with (p * e')%Z; [|exact Hdiv].
      exists p. reflexivity. }
    pose proof (IH e' He' ltac:(lia) k Hdiv') as Hsmall.
    assert (Z.log2 e' + 1 <= Z.log2 (p * e'))%Z as Hlog.
    { pose proof (Z.log2_double e' He') as Hdouble.
      pose proof (Z.log2_le_mono (2 * e') (p * e') ltac:(lia)). lia. }
    pose proof (Z.log2_nonneg e') as Hnn.
    replace (Z.log2 (p * e')) with
      ((Z.log2 e' + 1) + (Z.log2 (p * e') - (Z.log2 e' + 1)))%Z by lia.
    rewrite Z.pow_add_r by lia. apply Z.divide_mul_l.
    rewrite Z.pow_add_r by lia. change (10 ^ 1)%Z with 10%Z.
    destruct Hsmall as [c Hc]. rewrite Hc.
    destruct Hp as [-> | ->]; [exists (5 * c)%Z | exists (2 * c)%Z]; ring. }
  intros k. exact (Hind (Z.to_nat d) d Hd (Nat.le_refl _) k).
Qed.

(** The fraction is printed exactly when enough digits are allowed. *)
Lemma fraction_digits_exact (fuel : nat) :
  forall (k : nat) (r d : Z),
    (0 <= r < d)%Z -> (d | r * 10 ^ Z.of_nat k)%Z ->
    (k < fuel)%nat ->
    let fs := fraction_digits fuel r d in
    Forall digit fs /\ fs <> []
    /\ (Json.value_of fs * d = r * 10 ^ Z.of_nat (length fs))%Z.
Proof.
  induction fuel as [|fuel IH]; intros k r d Hr Hdiv Hk; [lia|].
  cbn [fraction_digits].
  pose proof (Z.div_mod (10 * r) d ltac:(lia)) as Hdm.
  pose proof (Z.mod_pos_bound (10 * r) d ltac:(lia)) as Hmod.
  assert (digit (10 * r / d)) as Hdigit.
  { unfold digit. split.
    - apply Z.div_pos; lia.
    - assert (10 * r / d < 10)%Z; [|lia].
      apply Z.div_lt_upper_bound; lia. }
  destruct (10 * r mod d =? 0)%Z eqn:Hzero.
  - apply Z.eqb_eq in Hzero. cbv zeta.
    split; [constructor; [exact Hdigit | constructor]|].
    split; [discriminate|].
    change (Json.value_of [(10 * r / d)%Z]) with (10 * 0 + 10 * r / d)%Z.
    cbn [length]. change (10 ^ Z.of_nat 1)%Z with 10%Z. lia.
  - apply Z.eqb_neq in Hzero. cbv zeta.
    assert (exists k', k = S k') as (k' & ->).
    { destruct k as [|k']; [|eauto]. exfalso.
      rewrite Z.mul_1_r in Hdiv.
      destruct (Z.eq_dec r 0%Z) as [-> | Hr0];
        [apply Hzero; rewrite Z.mul_0_r; apply Z.mod_0_l; lia|].
      apply Z.divide_pos_le in Hdiv; lia. }
    assert (d | (10 * r mod d) * 10 ^ Z.of_nat k')%Z as Hdiv'.
    { rewrite Nat2Z.inj_succ, Z.pow_succ_r in Hdiv by lia.
      replace (r * (10 * 10 ^ Z.of_nat k'))%Z
        with (d * (10 * r / d) * 10 ^ Z.of_nat k'
              + (10 * r mod d) * 10 ^ Z.of_nat k')%Z in Hdiv by nia.
      apply (Z.divide_add_cancel_r _ (d * (10 * r / d) * 10 ^ Z.of_nat k'));
        [|exact Hdiv].
      rewrite <- Z.mul_assoc. apply Z.divide_factor_l. }
    destruct (IH k' (10 * r mod d)%Z d Hmod Hdiv' ltac:(lia))
      as (Hfs & Hne & Hval).
    split; [constructor; [exact Hdigit | exact Hfs]|].
    split; [discriminate|].
    rewrite value_of_cons. cbn [length].
    rewrite Nat2Z.inj_succ, Z.pow_succ_r by lia.
    set (L := (10 ^ Z.of_nat (length (fraction_digits fuel (10 * r mod d) d)))%Z)
      in *.
    set (v := Json.value_of (fraction_digits fuel (10 * r mod d) d)) in *.
    nia.
Qed.

Lemma float_value (neg : bool) (q : Q) (ds fs : list Z) :
  neg = (Qnum q <? 0)%Z ->
  fs <> [] ->
  Json.value_of ds = (Z.abs (Qnum q) / Zpos (Qden q))%Z ->
  (Json.value_of fs * Zpos (Qden q)
   = (Z.abs (Qnum q) mod Zpos (Qden q)) * 10 ^ Z.of_nat (length fs))%Z ->
  Json.number_value neg ds (Some fs) None = PFloat (Qred q).
Proof.
  intros Hneg Hne Hds Hfs. unfold Json.number_value. f_equal.
  apply Qred_complete.
  destruct q as [n d]. cbn [Qnum Qden] in *.
  pose proof (Z.div_mod (Z.abs n) (Zpos d) ltac:(lia)) as Hdm.
  assert (0 < length fs)%nat as Hlen
      by (destruct fs; [congruence | cbn; lia]).
  unfold Json.pow10.
  destruct (Z.leb_spec 0 (0 - Z.of_nat (length fs))) as [Hle | _]; [lia|].
  replace (- (0 - Z.of_nat (length fs)))%Z with (Z.of_nat (length fs))
    by lia.
  rewrite value_of_app, Hds.
  set (P := (10 ^ Z.of_nat (length fs))%Z) in *.
  assert (0 < P)%Z as HP by (apply Z.pow_pos_nonneg; lia).
  set (a := (Z.abs n / Zpos d)%Z) in *.
  set (r := (Z.abs n mod Zpos d)%Z) in *.
  set (v := Json.value_of fs) in *.
  assert ((a * P + v) * Zpos d = Z.abs n * P)%Z as Hmain by nia.
  destruct (Z.ltb_spec n 0) as [Hn | Hn]; subst neg;
    unfold Qeq; cbn [Qnum Qden Qmult Qopp inject_Z];
    rewrite Pos.mul_1_l, Z2Pos.id by exact HP; nia.
Qed.

(** A float with a finite decimal expansion is read back as the same
    number, in lowest terms. *)
Lemma reads_as_float (q : Q) :
  finite_decimal q -> reads_as (Json.dumps_float q) (PFloat (Qred q)).
Proof.
  intros (k & Hk) fuel rest Hrest.
  rewrite parse_value_space. unfold Json.dumps_float. cbv zeta.
  set (n := Z.abs (Qnum q)). set (d := Zpos (Qden q)).
  assert (0 <= n / d)%Z as Hquot by (apply Z.div_pos; unfold n, d; lia).
  rewrite dumps_int_text, fraction_text.
  destruct (Z.ltb_spec (n / d) 0) as [Hlt | _]; [lia|].
  destruct (abs_digits_spec (n / d)) as (Hds & Hne & Hlz & Hval).
  rewrite Z.abs_eq in Hval by exact Hquot.
  pose proof (Z.mod_pos_bound n d ltac:(unfold d; lia)) as Hmod.
  pose proof (Z.log2_nonneg d) as Hlog.
  assert (d | (n mod d) * 10 ^ Z.of_nat (Z.to_nat (Z.log2 d)))%Z as Hdiv.
  { apply Z.divide_mul_r. rewrite Z2Nat.id by exact Hlog.
    apply (decimal_bound d ltac:(unfold d; lia) k Hk). }
  destruct (fraction_digits_exact
              (Json.fraction_digits_for (Qden q))
              (Z.to_nat (Z.log2 d)) (n mod d)%Z d Hmod Hdiv
              ltac:(unfold Json.fraction_digits_for; fold d; lia))
    as (Hfs & Hfne & Hfval).
  set (fs := fraction_digits (Json.fraction_digits_for (Qden q))
                             (n mod d) d) in *.
  rewrite append_Empty, !append_assoc, (append_String "."), append_Empty.
  destruct (Qnum q <? 0)%Z eqn:Hneg.
  - rewrite append_String, append_Empty, parse_value_minus.
    rewrite (parse_unsigned_float true _ fs rest Hds Hne Hlz Hfs Hfne Hrest).
    rewrite (float_value true q _ fs (eq_sym Hneg) Hfne Hval Hfval).
    reflexivity.
  - rewrite append_Empty, (parse_value_digits fuel _ _ Hds Hne).
    rewrite (parse_unsigned_float false _ fs rest Hds Hne Hlz Hfs Hfne Hrest).
    rewrite (float_value false q _ fs (eq_sym Hneg) Hfne Hval Hfval).
    reflexivity.
Qed.

(** *** The record of [save_stats] *)

Lemma parse_members_space (fuel : nat) (acc : list (string * pyval))
      (s : string) :
  Json.parse_members (S fuel) acc (String " " s)
  = Json.parse_members (S fuel) acc s.
Proof. reflexivity. Qed.

Lemma parse_member_next (fuel : nat) (acc : list (string * pyval))
      (k text : string) (v : pyval) (rest : string) :
  (forall r, Json.parse_chars (k ++ String Json.dquote r) = Some (k, r)) ->
  Json.parse_value fuel (String " " (text ++ String "," rest))
  = Some (v, String "," rest) ->
  Json.parse_members
    (S fuel) acc
    (String Json.dquote
            (k ++ String Json.dquote
               (String ":" (String " " (text ++ String "," rest)))))
  = Json.parse_members fuel (Json.assign k v acc) rest.
Proof.
  intros Hk Hv. cbn [Json.parse_members].
  change (Json.skip_ws (String Json.dquote ?s)) with (String Json.dquote s).
  change (Ascii.eqb Json.dquote Json.dquote) with true. cbv iota.
  rewrite Hk.
  change (Json.skip_ws (String ":" ?s)) with (String ":" s). cbv iota.
  rewrite Hv. reflexivity.
Qed.

Lemma parse_member_last (fuel : nat) (acc : list (string * pyval))
      (k text : string) (v : pyval) (rest : string) :
  (forall r, Json.parse_chars (k ++ String Json.dquote r) = Some (k, r)) ->
  Json.parse_value fuel (String " " (text ++ String "}" rest))
  = Some (v, String "}" rest) ->
  Json.parse_members
    (S fuel) acc
    (String Json.dquote
            (k ++ String Json.dquote
               (String ":" (String " " (text ++ String "}" rest)))))
  = Some (Json.assign k v acc, rest).
Proof.
  intros Hk Hv. cbn [Json.parse_members].
  change (Json.skip_ws (String Json.dquote ?s)) with (String Json.dquote s).
  change (Ascii.eqb Json.dquote Json.dquote) with true. cbv iota.
  rewrite Hk.
  change (Json.skip_ws (String ":" ?s)) with (String ":" s). cbv iota.
  rewrite Hv. reflexivity.
Qed.

Lemma dumps_str_plain (k : string) :
  Json.escape k = k ->
  Json.dumps_str k = String Json.dquote (k ++ String Json.dquote EmptyString).
Proof. intros H. unfold Json.dumps_str. rewrite H. reflexivity. Qed.

Lemma record_text_eq (A B C E : string) :
  record_text A B C E
  = String "{"
      (String Json.dquote
         ("served" ++ String Json.dquote
            (String ":" (String " " (A ++ String "," (String " "
      (String Json.dquote
         ("tomato_served" ++ String Json.dquote
            (String ":" (String " " (B ++ String "," (String " "
      (String Json.dquote
         ("mustard_served" ++ String Json.dquote
            (String ":" (String " " (C ++ String "," (String " "
      (String Json.dquote
         ("last_dispense_time" ++ String Json.dquote
            (String ":" (String " " (E ++ String "}" EmptyString))))))))))))))))))))))).
Proof.
  unfold record_text.
  rewrite !dumps_str_plain by reflexivity.
  rewrite !append_String, !append_Empty.
  repeat (rewrite !append_assoc, ?append_String, ?append_Empty).
  reflexivity.
Qed.

Lemma dumps_record (a b c e : pyval) :
  Json.dumps (stats_dict a b c e)
  = record_text (Json.dumps a) (Json.dumps b) (Json.dumps c) (Json.dumps e).
Proof.
  unfold stats_dict, record_text. cbn [Json.dumps map Json.join].
  rewrite !append_assoc. reflexivity.
Qed.

Lemma parse_record (fuel : nat) (A B C E : string) (a b c e : pyval) :
  reads_as A a -> reads_as B b -> reads_as C c -> reads_as E e ->
  Json.parse_value (S (S (S (S (S (S fuel)))))) (record_text A B C E)
  = Some (stats_dict a b c e, EmptyString).
Proof.
  intros HA HB HC HE. rewrite record_text_eq.
  cbn [Json.parse_value].
  change (Json.skip_ws (String "{" ?s)) with (String "{" s). cbv iota.
  change (Json.skip_ws (String Json.dquote ?s)) with (String Json.dquote s).
  cbv iota.
  rewrite (parse_member_next _ _ "served" A a);
    [|intros r; reflexivity | apply HA; eexists; left; reflexivity].
  rewrite parse_members_space.
  rewrite (parse_member_next _ _ "tomato_served" B b);
    [|intros r; reflexivity | apply HB; eexists; left; reflexivity].
  rewrite parse_members_space.
  rewrite (parse_member_next _ _ "mustard_served" C c);
    [|intros r; reflexivity | apply HC; eexists; left; reflexivity].
  rewrite parse_members_space.
  rewrite (parse_member_last _ _ "last_dispense_time" E e);
    [|intros r; reflexivity | apply HE; eexists; right; reflexivity].
  reflexivity.
Qed.

(** The reference codec reads the record back. *)
Lemma loads_record (A B C E : string) (a b c e : pyval) :
  reads_as A a -> reads_as B b -> reads_as C c -> reads_as E e ->
  Json.loads (record_text A B C E) = Ok (stats_dict a b c e).
Proof.
  intros HA HB HC HE. unfold Json.loads.
  assert (exists fuel,
             (2 * String.length (record_text A B C E) + 2)%nat
             = S (S (S (S (S (S fuel)))))) as (fuel & ->).
  { rewrite record_text_eq. cbn [String.length].
    eexists (_ : nat). rewrite Nat.add_comm. cbn [Nat.add Nat.mul].
    rewrite <- !plus_n_Sm. reflexivity. }
  rewrite (parse_record fuel A B C E a b c e HA HB HC HE). reflexivity.
Qed.

(** ** The claims *)

(** C1.  Counter additivity: starting from the zeroed counters, every
    session of requests, accepted or rejected, runs to its end and leaves
    [served] equal to [tomato_served + mustard_served]. *)
Theorem counter_additivity (clock : nat -> Q) (json_dumps : pyval -> string)
        (reqs : list target) (file : option string) (n : nat)
        (thr : list thread) (cl : list call) :
  exists log w' t m l,
    serve clock json_dumps reqs (mkWorld state0 file n thr cl) = (Ok log, w')
    /\ counters (state w') (t + m) t m l.
Proof.
  destruct (serve_exec clock json_dumps reqs (mkWorld state0 file n thr cl)
                       0 0 0 0 counters_state0)
    as (log & w' & s' & t' & m' & l' & E & _ & Hc & Hadd & _).
  exists log, w', t', m', l'. split; [exact E|].
  replace (t' + m')%Z with s' by lia. exact Hc.
Qed.




(** C4.  Duration clamp: for every requested duration [d], the thread that
    [dispense] starts switches the pump on, sleeps for
    max(0.05, min(d, MAX_DISPENSE_SECONDS)) and switches it off, with
    MAX_DISPENSE_SECONDS = 6.0; the pump's output is high for that one sleep
    only, and that duration lies between 0.05 and 6. *)
Theorem duration_clamp (p : pump) (d : Q) (w : World) :
  let effective := Qmax (1 # 20) (Qmin d MAX_DISPENSE_SECONDS) in
  exists th,
    dispense p d w =
    (Ok th,
     mkWorld (state w) (stats_file w) (ticks w) (threads w ++ [th])
             (calls w ++ [Call_dispense p]))
    /\ thread_target th =
       [LockAcquire; PumpOn p; Sleep effective; PumpOff p; LockRelease]
    /\ held_on p false (thread_target th) = [effective]
    /\ MAX_DISPENSE_SECONDS = (6 # 1)%Q
    /\ ((1 # 20) <= effective)%Q /\ (effective <= 6 # 1)%Q.
Proof.
  intros effective. exists (activation p (clamp_spec d)).
  split; [apply dispense_exec|]. split; [reflexivity|].
  split; [destruct p; reflexivity|].
  split; [reflexivity|]. unfold effective, MAX_DISPENSE_SECONDS. split.
  - apply Q.le_max_l.
  - apply Q.max_lub; [lra | apply Q.le_min_r].
Qed.

(** C6, as amended.  A rejected request is a no-op: whatever the state, a
    request that the throttle check rejects leaves [state], the started
    threads and the stats file as they were, having entered [too_soon] and
    nothing else (and a request is rejected whenever the check fails);
    hence, for a monotone clock, the time of the last dispense noted along
    a session only moves at accepted requests and never decreases. *)
Theorem rejected_request_noop (clock : nat -> Q)
        (json_dumps : pyval -> string) :
  (forall (tgt : target) (w w' : World),
      request clock json_dumps tgt w = (Ok Rejected, w') ->
      state w' = state w /\ threads w' = threads w /\
      stats_file w' = stats_file w /\
      calls w' = (calls w ++ [Call_too_soon])%list)
  /\ (forall (tgt : target) (w : World) (s t m : Z) (l : Q),
         counters (state w) s t m l ->
         (clock (ticks w) - l < MIN_INTERVAL_SECONDS)%Q ->
         exists w', request clock json_dumps tgt w = (Ok Rejected, w'))
  /\ (monotone clock ->
      forall (reqs : list target) (w : World) (s t m : Z) (l : Q),
        counters (state w) s t m l ->
        exists log w',
          serve clock json_dumps reqs w = (Ok log, w')
          /\ timeline l log
          /\ forall (i j : nat) (vi vj : verdict) (xi xj : pyval),
              (i <= j)%nat ->
              log !! i = Some (vi, xi) ->
              log !! j = Some (vj, xj) ->
              exists a b, as_num xi = Some a /\ as_num xj = Some b /\
                          (l <= a)%Q /\ (a <= b)%Q).
Proof.
  split; [|split].
  - intros tgt w w' H.
    destruct (rejected_quiet clock json_dumps tgt w w' H) as (? & ? & ? & ?).
    auto.
  - intros tgt w s t m l Hc Hlt. eexists.
    exact (request_rejected clock json_dumps tgt w s t m l Hc Hlt).
  - intros Hmono reqs w s t m l Hc.
    destruct (serve_exec clock json_dumps reqs w s t m l Hc)
      as (log & w' & _ & _ & _ & _ & E & _ & _ & _ & Htl).
    exists log, w'. split; [exact E|]. split; [exact (Htl Hmono)|].
    exact (timeline_monotone log l (Htl Hmono)).
Qed.

Lemma rejected_request_noop_witness :
  monotone sample_clock
  /\ counters (state (world0 None)) 0 0 0 0
  /\ (sample_clock (ticks (world0 None)) - 0 < MIN_INTERVAL_SECONDS)%Q
  /\ (exists w',
        request sample_clock Json.dumps Tomato (world0 None)
        = (Ok Rejected, w')
        /\ state w' = state (world0 None)
        /\ threads w' = threads (world0 None)
        /\ stats_file w' = stats_file (world0 None))
  /\ (exists log w',
        serve sample_clock Json.dumps [Tomato; Tomato; Both; Mustard; Mustard]
              (world0 None) = (Ok log, w')
        /\ timeline 0 log
        /\ forall (i j : nat) (vi vj : verdict) (xi xj : pyval),
            (i <= j)%nat ->
            log !! i = Some (vi, xi) ->
            log !! j = Some (vj, xj) ->
            exists a b, as_num xi = Some a /\ as_num xj = Some b /\
                        (0 <= a)%Q /\ (a <= b)%Q).
Proof.
  assert (sample_clock (ticks (world0 None)) - 0 < MIN_INTERVAL_SECONDS)%Q
    as Hsoon by reflexivity.
  split; [exact sample_clock_monotone|].
  split; [exact counters_state0|].
  split; [exact Hsoon|].
  destruct (rejected_request_noop sample_clock Json.dumps)
    as (Hnoop & Hrej & Hmono).
  split.
  - destruct (Hrej Tomato (world0 None) 0%Z 0%Z 0%Z 0%Q counters_state0 Hsoon)
      as (w' & E).
    exists w'. split; [exact E|].
    destruct (Hnoop Tomato (world0 None) w' E) as (? & ? & ? & _). auto.
  - exact (Hmono sample_clock_monotone
                 [Tomato; Tomato; Both; Mustard; Mustard]
                 (world0 None) 0%Z 0%Z 0%Z 0%Q counters_state0).
Defined.

(** C6, as stated, fails in its last part: the time of the last dispense
    is a reading of the wall clock, so it decreases when an accepted
    request is recorded after the clock has been set back.  Here it goes
    from 11 to 3. *)
Lemma last_dispense_time_decreases_on_stepback_clock :
  exists w',
    serve stepback_clock Json.dumps [Mustard; Mustard; Mustard] (world0 None)
    = (Ok [(Accepted, PFloat 10); (Accepted, PFloat 11);
           (Accepted, PFloat 3)], w')
    /\ ~ (11 <= 3)%Q.
Proof.
  eexists. split; [vm_compute; reflexivity|].
  intros H. vm_compute in H. apply H. reflexivity.
Qed.

(** C7.  Both is gated as a single unit: [on_both] makes exactly one
    throttle check against [state["last_dispense_time"]]; when that check
    passes, both pumps are started and both sub-targets are recorded, the
    second although the first record has just moved the time of the last
    dispense; when it fails, nothing is started or recorded. *)
Theorem both_gated_once (clock : nat -> Q) (json_dumps : pyval -> string)
        (w : World) (s t m : Z) (l : Q) :
  counters (state w) s t m l ->
  exists w' entered,
    on_both clock json_dumps w = (Ok tt, w')
    /\ calls w' = (calls w ++ entered)%list
    /\ throttle_checks entered = 1%nat
    /\ ((MIN_INTERVAL_SECONDS <= clock (ticks w) - l)%Q ->
        entered = [Call_too_soon;
                   Call_dispense pump_tomato; Call_dispense pump_mustard;
                   Call_record_served "tomato"; Call_save_stats;
                   Call_record_served "mustard"; Call_save_stats]
        /\ threads w' = (threads w ++ [activation pump_tomato (3 # 2);
                                       activation pump_mustard (3 # 2)])%list
        /\ counters (state w') (s + 2) (t + 1) (m + 1)
                    (clock (S (S (ticks w)))))
    /\ ((clock (ticks w) - l < MIN_INTERVAL_SECONDS)%Q ->
        entered = [Call_too_soon]
        /\ threads w' = threads w /\ state w' = state w).
Proof.
  intros Hc.
  destruct (Qlt_le_dec (clock (ticks w) - l) MIN_INTERVAL_SECONDS)
    as [Hlt | Hge].
  - pose proof (handler_rejected clock json_dumps Both w s t m l Hc Hlt) as E.
    cbn [handler] in E.
    eexists _, [Call_too_soon]. split; [exact E|].
    cbn [calls threads state]. split; [reflexivity|]. split; [reflexivity|].
    split; [|auto].
    intros Hge. exfalso. exact (Qlt_not_le _ _ Hlt Hge).
  - destruct (on_both_accepted clock json_dumps w s t m l Hc Hge)
      as (d & E & Hd & _).
    eexists _, _. split; [exact E|].
    cbn [calls threads state]. split; [reflexivity|]. split; [reflexivity|].
    split.
    + intros _. split; [reflexivity|]. split; [reflexivity|].
      replace (s + 2)%Z with (s + 1 + 1)%Z by lia. exact Hd.
    + intros Hlt. exfalso. exact (Qlt_not_le _ _ Hlt Hge).
Qed.

Lemma both_gated_once_witness :
  counters (state sample_world) 3 2 1 (3400000001 # 2)
  /\ exists w' entered,
      on_both (fun n => (1700000010 + sample_clock n)%Q) Json.dumps
              sample_world = (Ok tt, w')
      /\ calls w' = (calls sample_world ++ entered)%list
      /\ throttle_checks entered = 1%nat
      /\ threads w' = [activation pump_tomato (3 # 2);
                       activation pump_mustard (3 # 2)]
      /\ counters (state w') 5 3 2 (1700000010 + sample_clock 9).
Proof.
  assert (counters (state sample_world) 3 2 1 (3400000001 # 2)) as Hc.
  { unfold counters, sample_world. exec. repeat split; try reflexivity.
    eexists. split; reflexivity. }
  split; [exact Hc|].
  destruct (both_gated_once (fun n => (1700000010 + sample_clock n)%Q)
                            Json.dumps sample_world 3 2 1 _ Hc)
    as (w' & entered & E & Hcalls & Hone & Hacc & _).
  exists w', entered. split; [exact E|]. split; [exact Hcalls|].
  split; [exact Hone|].
  assert (MIN_INTERVAL_SECONDS
          <= 1700000010 + sample_clock (ticks sample_world)
             - (3400000001 # 2))%Q as Hge by (vm_compute; discriminate).
  destruct (Hacc Hge) as (_ & Hth & Hc').
  split; [exact Hth | exact Hc'].
Defined.

(** C10.  An accepted request for Both records once per sub-target:
    [served] grows by exactly 2, [tomato_served] by exactly 1 and
    [mustard_served] by exactly 1. *)
Theorem both_counts_twice (clock : nat -> Q) (json_dumps : pyval -> string)
        (w : World) (s t m : Z) (l : Q) :
  counters (state w) s t m l ->
  (MIN_INTERVAL_SECONDS <= clock (ticks w) - l)%Q ->
  exists w' l',
    request clock json_dumps Both w = (Ok Accepted, w')
    /\ counters (state w') (s + 2) (t + 1) (m + 1) l'
    /\ List.filter (fun c => match c with
                             | Call_record_served _ => true
                             | _ => false
                             end) (calls w')
       = (List.filter (fun c => match c with
                                | Call_record_served _ => true
                                | _ => false
                                end) (calls w)
          ++ [Call_record_served "tomato"; Call_record_served "mustard"])%list.
Proof.
  intros Hc Hge.
  destruct (on_both_accepted clock json_dumps w s t m l Hc Hge)
    as (d & E & Hd & _).
  unfold request. cbn [handler]. rewrite E. cbn [threads].
  rewrite length_grows. eexists _, _. split; [reflexivity|].
  cbn [state calls]. split.
  - replace (s + 2)%Z with (s + 1 + 1)%Z by lia. exact Hd.
  - rewrite List.filter_app. reflexivity.
Qed.

Lemma both_counts_twice_witness :
  counters (state (world0 None)) 0 0 0 0
  /\ (MIN_INTERVAL_SECONDS
      <= scenario_clock 10 (ticks (world0 None)) - 0)%Q
  /\ exists w' l',
      request (scenario_clock 10) Json.dumps Both (world0 None)
      = (Ok Accepted, w')
      /\ counters (state w') 2 1 1 l'.
Proof.
  assert (MIN_INTERVAL_SECONDS
          <= scenario_clock 10 (ticks (world0 None)) - 0)%Q as Hge
      by (vm_compute; discriminate).
  split; [exact counters_state0|]. split; [exact Hge|].
  destruct (both_counts_twice (scenario_clock 10) Json.dumps (world0 None)
                              0 0 0 0 counters_state0 Hge)
    as (w' & l' & E & Hc & _).
  exists w', l'. split; [exact E | exact Hc].
Defined.

(** C8.  Recording is synchronous: when an accepted request returns, the
    counters in [state] are already incremented and the stats file holds
    the serialization of the full updated Counters, whatever the file held
    before, while the threads that drive the pumps have only been
    started. *)
Theorem record_before_return (clock : nat -> Q)
        (json_dumps : pyval -> string) (tgt : target) (w : World)
        (s t m : Z) (l : Q) :
  counters (state w) s t m l ->
  (MIN_INTERVAL_SECONDS <= clock (ticks w) - l)%Q ->
  let s' := (s + tomato_delta tgt + mustard_delta tgt)%Z in
  let t' := (t + tomato_delta tgt)%Z in
  let m' := (m + mustard_delta tgt)%Z in
  let now := clock (length (pumps_of tgt) + ticks w)%nat in
  exists w',
    request clock json_dumps tgt w = (Ok Accepted, w')
    /\ counters (state w') s' t' m' now
    /\ stats_file w' =
       Some (json_dumps (stats_dict (PInt s') (PInt t') (PInt m')
                                    (PFloat now)))
    /\ threads w' =
       (threads w ++ map (fun p => activation p (3 # 2)) (pumps_of tgt))%list
    /\ forall prior : option string,
        exists w'',
          request clock json_dumps tgt
                  (mkWorld (state w) prior (ticks w) (threads w) (calls w))
          = (Ok Accepted, w'')
          /\ stats_file w'' = stats_file w'.
Proof.
  intros Hc Hge s' t' m' now.
  destruct (request_accepted clock json_dumps tgt w s t m l Hc Hge)
    as (w' & E & Hc' & _ & Hfile & Hth & _).
  exists w'. split; [exact E|]. split; [exact Hc'|].
  split; [exact Hfile|]. split; [exact Hth|].
  intros prior.
  destruct (request_accepted clock json_dumps tgt
              (mkWorld (state w) prior (ticks w) (threads w) (calls w))
              s t m l Hc Hge)
    as (w'' & E' & _ & _ & Hfile' & _).
  exists w''. split; [exact E'|].
  rewrite Hfile, Hfile'. reflexivity.
Qed.

Lemma record_before_return_witness :
  counters (state (world0 None)) 0 0 0 0
  /\ (MIN_INTERVAL_SECONDS
      <= scenario_clock 10 (ticks (world0 None)) - 0)%Q
  /\ exists w',
      request (scenario_clock 10) Json.dumps Tomato (world0 None)
      = (Ok Accepted, w')
      /\ counters (state w') 1 1 0 10
      /\ stats_file w' =
         Some (Json.dumps (stats_dict (PInt 1) (PInt 1) (PInt 0) (PFloat 10)))
      /\ threads w' = [activation pump_tomato (3 # 2)].
Proof.
  assert (MIN_INTERVAL_SECONDS
          <= scenario_clock 10 (ticks (world0 None)) - 0)%Q as Hge
      by (vm_compute; discriminate).
  split; [exact counters_state0|]. split; [exact Hge|].
  destruct (record_before_return (scenario_clock 10) Json.dumps Tomato
                                 (world0 None) 0 0 0 0 counters_state0 Hge)
    as (w' & E & Hc & Hfile & Hth & _).
  exists w'. split; [exact E|]. split; [exact Hc|].
  split; [exact Hfile | exact Hth].
Defined.

(** C9, as amended.  Scenario: the counters are zero and the clock is
    monotone and reads T >= 1.5 at the first request.  Then request(Tomato)
    at T is accepted, giving served = 1, tomato_served = 1,
    mustard_served = 0 and a tomato activation of 1.5 s; request(Mustard)
    at T + 0.5 is rejected and changes nothing; request(Mustard) at T + 2 is
    accepted, giving served = 2, tomato_served = 1, mustard_served = 1. *)
Theorem scenario_after_first_interval (clock : nat -> Q)
        (json_dumps : pyval -> string) (file : option string) :
  monotone clock ->
  (MIN_INTERVAL_SECONDS <= clock 0%nat)%Q ->
  (clock 2%nat == clock 0%nat + (1 # 2))%Q ->
  (clock 3%nat == clock 0%nat + 2)%Q ->
  exists w1 w2 w3,
    request clock json_dumps Tomato (world0 file) = (Ok Accepted, w1)
    /\ counters (state w1) 1 1 0 (clock 1%nat)
    /\ threads w1 = [activation pump_tomato (3 # 2)]
    /\ request clock json_dumps Mustard w1 = (Ok Rejected, w2)
    /\ state w2 = state w1 /\ threads w2 = threads w1
    /\ stats_file w2 = stats_file w1
    /\ request clock json_dumps Mustard w2 = (Ok Accepted, w3)
    /\ counters (state w3) 2 1 1 (clock 4%nat).
Proof.
  intros Hmono H0 H2 H3. unfold MIN_INTERVAL_SECONDS in H0.
  pose proof (Hmono 0%nat 1%nat ltac:(lia)) as H01.
  pose proof (Hmono 1%nat 2%nat ltac:(lia)) as H12.
  destruct (request_accepted clock json_dumps Tomato (world0 file)
                             0 0 0 0 counters_state0)
    as (w1 & E1 & Hc1 & _ & Hf1 & Ht1 & Hk1).
  { cbn [world0 ticks]. unfold MIN_INTERVAL_SECONDS. lra. }
  cbn [tomato_delta mustard_delta pumps_of length Nat.add world0 ticks
       threads map app Z.add] in Hc1, Ht1, Hk1.
  assert (clock (ticks w1) - clock 1%nat < MIN_INTERVAL_SECONDS)%Q as Hsoon.
  { rewrite Hk1. unfold MIN_INTERVAL_SECONDS. lra. }
  pose proof (request_rejected clock json_dumps Mustard w1 _ _ _ _ Hc1 Hsoon)
    as E2.
  match type of E2 with _ = (_, ?w) => set (w2 := w) in * end.
  destruct (request_accepted clock json_dumps Mustard w2 1 1 0 (clock 1%nat))
    as (w3 & E3 & Hc3 & _).
  { exact Hc1. }
  { unfold w2. cbn [ticks]. rewrite Hk1.
    unfold MIN_INTERVAL_SECONDS. lra. }
  cbn [tomato_delta mustard_delta pumps_of length Nat.add Z.add] in Hc3.
  unfold w2 in Hc3 at 1. cbn [ticks] in Hc3. rewrite Hk1 in Hc3.
  exists w1, w2, w3.
  split; [exact E1|]. split; [exact Hc1|]. split; [exact Ht1|].
  split; [exact E2|]. split; [reflexivity|]. split; [reflexivity|].
  split; [reflexivity|]. split; [exact E3 | exact Hc3].
Qed.

Lemma scenario_after_first_interval_witness :
  monotone (scenario_clock 10)
  /\ (MIN_INTERVAL_SECONDS <= scenario_clock 10 0)%Q
  /\ (scenario_clock 10 2 == scenario_clock 10 0 + (1 # 2))%Q
  /\ (scenario_clock 10 3 == scenario_clock 10 0 + 2)%Q
  /\ exists w1 w2 w3,
      request (scenario_clock 10) Json.dumps Tomato (world0 None)
      = (Ok Accepted, w1)
      /\ counters (state w1) 1 1 0 10
      /\ request (scenario_clock 10) Json.dumps Mustard w1 = (Ok Rejected, w2)
      /\ state w2 = state w1
      /\ request (scenario_clock 10) Json.dumps Mustard w2 = (Ok Accepted, w3)
      /\ counters (state w3) 2 1 1 12.
Proof.
  assert (MIN_INTERVAL_SECONDS <= scenario_clock 10 0)%Q as H0
      by (vm_compute; discriminate).
  assert (scenario_clock 10 2 == scenario_clock 10 0 + (1 # 2))%Q as H2
      by reflexivity.
  assert (scenario_clock 10 3 == scenario_clock 10 0 + 2)%Q as H3
      by reflexivity.
  split; [exact (scenario_clock_monotone 10)|].
  split; [exact H0|]. split; [exact H2|]. split; [exact H3|].
  destruct (scenario_after_first_interval
              (scenario_clock 10) Json.dumps None
              (scenario_clock_monotone 10) H0 H2 H3)
    as (w1 & w2 & w3 & E1 & Hc1 & _ & E2 & Hs2 & _ & _ & E3 & Hc3).
  exists w1, w2, w3. tauto.
Defined.

(** C9, as stated, fails: with zero counters the time of the last dispense
    is 0, so the request at t = 0 comes 0 s after it and is rejected. *)
Lemma scenario_at_zero_rejected :
  ~ (exists w1,
        request (scenario_clock 0) Json.dumps Tomato (world0 None)
        = (Ok Accepted, w1)
        /\ state w1 !! "served" = Some (PInt 1)
        /\ state w1 !! "tomato_served" = Some (PInt 1)
        /\ state w1 !! "mustard_served" = Some (PInt 0)).
Proof.
  intros (w1 & E & _).
  assert (scenario_clock 0 (ticks (world0 None)) - 0
          < MIN_INTERVAL_SECONDS)%Q as Hsoon by reflexivity.
  rewrite (request_rejected (scenario_clock 0) Json.dumps Tomato
                            (world0 None) 0 0 0 0 counters_state0 Hsoon)
    in E.
  discriminate.
Qed.




(** C5.  Round trip: when [state] holds Counters whose three counts are
    integers and whose time of the last dispense is an integer or a float,
    [save_stats] followed by [load_stats], in this process or in a fresh
    one, yields Counters equal to the saved ones field for field.  The
    [json] module is the reference instance [Json]; a float is a number
    with a finite decimal expansion, and floats are compared as numbers. *)
Theorem save_load_round_trip (w w0 : World) (s t m : Z) (vl : pyval) :
  state w !! "served" = Some (PInt s) ->
  state w !! "tomato_served" = Some (PInt t) ->
  state w !! "mustard_served" = Some (PInt m) ->
  state w !! "last_dispense_time" = Some vl ->
  epoch_seconds vl ->
  exists w1 w2,
    save_stats Json.dumps w = (Ok tt, w1)
    /\ load_stats Json.loads
                  (mkWorld (state w0) (stats_file w1) (ticks w0) (threads w0)
                           (calls w0))
       = (Ok tt, w2)
    /\ state w2 !! "served" = Some (PInt s)
    /\ state w2 !! "tomato_served" = Some (PInt t)
    /\ state w2 !! "mustard_served" = Some (PInt m)
    /\ exists vl',
        state w2 !! "last_dispense_time" = Some vl'
        /\ same_value vl' vl.
Proof.
  intros Hs Ht Hm Hl Htime.
  assert (exists vl', reads_as (Json.dumps vl) vl' /\ same_value vl' vl)
    as (vl' & Hreads & Hsame).
  { destruct vl as [| | z | q | | |]; try contradiction.
    - exists (PInt z). split; [apply reads_as_int | reflexivity].
    - exists (PFloat (Qred q)).
      split; [apply reads_as_float; exact Htime | apply Qred_correct]. }
  assert (Json.loads (Json.dumps (stats_dict (PInt s) (PInt t) (PInt m) vl))
          = Ok (stats_dict (PInt s) (PInt t) (PInt m) vl')) as Hcodec.
  { rewrite dumps_record.
    apply loads_record; [apply reads_as_int .. | exact Hreads]. }
  eexists _, _. split.
  - exact (save_stats_exec Json.dumps w _ _ _ _ Hs Ht Hm Hl).
  - split.
    + eapply load_stats_dict; [reflexivity | exact Hcodec].
    + cbn [state merge_dict fold_left fst snd]. exec.
      split; [reflexivity|]. split; [reflexivity|]. split; [reflexivity|].
      exists vl'. split; [reflexivity | exact Hsame].
Qed.

Lemma save_load_round_trip_witness :
  epoch_seconds (PFloat (3400000001 # 2))
  /\ exists w1 w2,
      save_stats Json.dumps sample_world = (Ok tt, w1)
      /\ load_stats Json.loads
                    (mkWorld state0 (stats_file w1) 0 [] []) = (Ok tt, w2)
      /\ state w2 !! "served" = Some (PInt 3)
      /\ state w2 !! "tomato_served" = Some (PInt 2)
      /\ state w2 !! "mustard_served" = Some (PInt 1)
      /\ exists vl',
          state w2 !! "last_dispense_time" = Some vl'
          /\ same_value vl' (PFloat (3400000001 # 2)).
Proof.
  assert (epoch_seconds (PFloat (3400000001 # 2))) as Htime
      by (exists 1%nat; exists 5%Z; reflexivity).
  split; [exact Htime|].
  exact (save_load_round_trip sample_world (world0 None) 3 2 1 _
                              eq_refl eq_refl eq_refl eq_refl Htime).
Defined.

(** ** Further properties: loading and start-up *)

(** X1.  A stats file holding a JSON object is merged field by field: a key
    of the object takes the value of its last occurrence, and every key the
    object does not mention keeps the value it had.  A partial record thus
    changes only the counters it names. *)
Theorem load_merges_object (json_loads : string -> result pyval) (w : World)
        (text : string) (kvs : list (string * pyval)) :
  stats_file w = Some text ->
  json_loads text = Ok (PDict kvs) ->
  exists w',
    load_stats json_loads w = (Ok tt, w')
    /\ forall k : string,
        state w' !! k =
        match last_value k kvs with
        | Some v => Some v
        | None => state w !! k
        end.
Proof.
  intros Hfile Hparse. eexists. split.
  - exact (load_stats_dict json_loads w text kvs Hfile Hparse).
  - intros k. cbn [state]. apply merge_dict_lookup.
Qed.

Lemma load_merges_object_witness :
  Json.loads (Json.dumps (PDict [("served", PInt 5)]))
  = Ok (PDict [("served", PInt 5)])
  /\ exists w',
      load_stats Json.loads
                 (world0 (Some (Json.dumps (PDict [("served", PInt 5)]))))
      = (Ok tt, w')
      /\ state w' !! "served" = Some (PInt 5)
      /\ state w' !! "tomato_served" = Some (PInt 0)
      /\ state w' !! "mustard_served" = Some (PInt 0)
      /\ state w' !! "last_dispense_time" = Some (PFloat 0).
Proof.
  assert (Json.loads (Json.dumps (PDict [("served", PInt 5)]))
          = Ok (PDict [("served", PInt 5)])) as Hparse
      by (vm_compute; reflexivity).
  split; [exact Hparse|].
  destruct (load_merges_object
              Json.loads
              (world0 (Some (Json.dumps (PDict [("served", PInt 5)]))))
              _ _ eq_refl Hparse) as (w' & E & Hk).
  exists w'. split; [exact E|].
  rewrite !Hk. repeat split; reflexivity.
Defined.

(** X2.  A stats file holding a JSON list is taken as a sequence of
    key/value pairs: the pairs before the first element that is no pair
    are stored, the exception raised at that element is swallowed, and the
    pairs behind it are ignored. *)
Theorem load_merges_pairs_until_bad (json_loads : string -> result pyval)
        (w : World) (text : string) (items : list pyval) :
  stats_file w = Some text ->
  json_loads text = Ok (PList items) ->
  exists w',
    load_stats json_loads w = (Ok tt, w')
    /\ forall k : string,
        state w' !! k =
        match last_value k (seq_stores items) with
        | Some v => Some v
        | None => state w !! k
        end.
Proof.
  intros Hfile Hparse. eexists. split.
  - apply load_stats_exec.
  - intros k. rewrite Hfile, Hparse. cbn [state dict_update].
    rewrite merge_from_seq_stores. cbn [snd]. apply merge_dict_lookup.
Qed.

Lemma load_merges_pairs_until_bad_witness :
  let items := [PList [PStr "served"; PInt 5]; PInt 3;
                PList [PStr "tomato_served"; PInt 9]] in
  Json.loads (Json.dumps (PList items)) = Ok (PList items)
  /\ exists w',
      load_stats Json.loads (world0 (Some (Json.dumps (PList items))))
      = (Ok tt, w')
      /\ state w' !! "served" = Some (PInt 5)
      /\ state w' !! "tomato_served" = Some (PInt 0).
Proof.
  intros items.
  assert (Json.loads (Json.dumps (PList items)) = Ok (PList items))
    as Hparse by (vm_compute; reflexivity).
  split; [exact Hparse|].
  destruct (load_merges_pairs_until_bad
              Json.loads (world0 (Some (Json.dumps (PList items))))
              _ _ eq_refl Hparse) as (w' & E & Hk).
  exists w'. split; [exact E|].
  rewrite !Hk. split; reflexivity.
Defined.

(** Start-up: the second load finds nothing new. *)
Lemma main_exec (json_loads : string -> result pyval)
      (py_str : pyval -> string) (file : option string) :
  exists w1 w2,
    load_stats json_loads (world0 file) = (Ok tt, w1)
    /\ main json_loads py_str (world0 file) = (Ok tt, w2)
    /\ state w2 = state w1
    /\ stats_file w2 = file /\ threads w2 = [] /\ ticks w2 = 0%nat.
Proof.
  eexists _, _. split; [apply load_stats_exec|].
  assert (forall w : World,
             is_Some (state w !! "served") ->
             exists s, counter_text py_str w = (Ok s, w)) as Htext.
  { intros w [v Hv]. unfold counter_text.
    rewrite (bind_ok _ _ _ _ _ (getitem_exec _ _ _ Hv)). eexists.
    reflexivity. }
  set (w1 := snd (load_stats json_loads (world0 file))).
  assert (load_stats json_loads (world0 file) = (Ok tt, w1)) as E1
      by (unfold w1; rewrite load_stats_exec; reflexivity).
  assert (is_Some (state w1 !! "served")) as Hserved.
  { unfold w1. rewrite load_stats_exec. cbn [snd state world0 stats_file].
    assert (is_Some (state0 !! "served")) as H0 by (eexists; reflexivity).
    destruct file as [text|]; [|exact H0].
    destruct (json_loads text) as [j|e]; [|exact H0].
    apply dict_update_keeps, H0. }
  destruct (Htext w1 Hserved) as (s & Es).
  split.
  - assert (update_ui py_str w1 = (Ok tt, w1)) as Eu
        by (unfold update_ui; rewrite (bind_ok _ _ _ _ _ Es); reflexivity).
    unfold main, SauceBotUI_init.
    rewrite (bind_ok _ _ _ _ _ E1).
    rewrite (bind_ok _ _ _ _ _ Es).
    rewrite (bind_ok _ _ _ _ _ Eu).
    apply load_stats_exec.
  - unfold w1. rewrite load_stats_exec.
    cbn [snd state world0 stats_file ticks threads].
    split; [|auto].
    destruct file as [text|]; [|reflexivity].
    destruct (json_loads text) as [j|e]; [|reflexivity].
    rewrite dict_update_idem. reflexivity.
Qed.

(** X3.  Start-up loads the stats file twice, once in [main] and once in
    [SauceBotUI.__init__]; whatever the file holds, start-up returns
    normally and the second load changes nothing: the counters are those
    of a single load, and no clock reading, thread or file write has
    happened. *)
Theorem startup_loads_once (json_loads : string -> result pyval)
        (py_str : pyval -> string) (file : option string) :
  exists w1 w2,
    load_stats json_loads (world0 file) = (Ok tt, w1)
    /\ main json_loads py_str (world0 file) = (Ok tt, w2)
    /\ state w2 = state w1
    /\ stats_file w2 = file /\ threads w2 = [] /\ ticks w2 = 0%nat.
Proof. exact (main_exec json_loads py_str file). Qed.

(** ** Keys and exceptions, for any state *)

Lemma keys4_state0 : keys4 state0.
Proof. repeat split; eexists; reflexivity. Qed.

Lemma keys4_insert (d : gmap string pyval) (k : string) (v : pyval) :
  keys4 d -> keys4 (<[k := v]> d).
Proof.
  intros (H1 & H2 & H3 & H4).
  repeat split; rewrite lookup_insert; case_decide; eauto.
Qed.

Lemma safe_ret {A} (a : A) : safe (ret a).
Proof. intros w w' r Hk [= <- <-]. split; [exact Hk | discriminate]. Qed.

Lemma safe_called (c : call) : safe (called c).
Proof. intros w w' r Hk [= <- <-]. split; [exact Hk | discriminate]. Qed.

Lemma safe_time_time (clock : nat -> Q) : safe (time_time clock).
Proof. intros w w' r Hk [= <- <-]. split; [exact Hk | discriminate]. Qed.

Lemma safe_write_text (txt : string) : safe (write_text txt).
Proof. intros w w' r Hk [= <- <-]. split; [exact Hk | discriminate]. Qed.

Lemma safe_start_thread (body : list action) : safe (start_thread body).
Proof. intros w w' r Hk [= <- <-]. split; [exact Hk | discriminate]. Qed.

Lemma safe_setitem (k : string) (v : pyval) : safe (setitem k v).
Proof.
  intros w w' r Hk [= <- <-].
  split; [apply keys4_insert, Hk | discriminate].
Qed.

Lemma safe_add1 (v : pyval) : safe (lift (py_add1 v)).
Proof.
  intros w w' r Hk [= <- <-]. split; [exact Hk|].
  intros e. destruct v; cbn; congruence.
Qed.

Lemma safe_rsub (now : Q) (v : pyval) : safe (lift (py_rsub now v)).
Proof.
  intros w w' r Hk [= <- <-]. split; [exact Hk|].
  intros e. unfold py_rsub. destruct (as_num v); congruence.
Qed.

Lemma safe_getitem (k : string) :
  k = "served" \/ k = "tomato_served" \/ k = "mustard_served"
  \/ k = "last_dispense_time" ->
  safe (getitem k).
Proof.
  intros Hk w w' r (H1 & H2 & H3 & H4). unfold getitem.
  assert (is_Some (state w !! k)) as [v Hv]
      by (destruct Hk as [-> | [-> | [-> | ->]]]; assumption).
  rewrite Hv. intros [= <- <-].
  split; [repeat split; assumption | discriminate].
Qed.

Lemma safe_bind {A B} (m : M A) (f : A -> M B) :
  safe m -> (forall a, safe (f a)) -> safe (bind m f).
Proof.
  intros Hm Hf w w' r Hk. unfold bind.
  destruct (m w) as [[a|e] w1] eqn:E; destruct (Hm _ _ _ Hk E) as [Hk1 He].
  - intros H. exact (Hf a _ _ _ Hk1 H).
  - intros [= <- <-]. split; [exact Hk1|].
    intros e0 [= <-]. exact (He e eq_refl).
Qed.

Create HintDb safe.

#[local] Hint Resolve safe_ret safe_called safe_time_time safe_write_text
  safe_start_thread safe_setitem safe_add1 safe_rsub : safe.

Ltac safe_steps :=
  repeat (apply safe_bind; [|intros ?]);
  auto with safe; try (apply safe_getitem; tauto).

Lemma safe_incr (k : string) :
  k = "served" \/ k = "tomato_served" \/ k = "mustard_served"
  \/ k = "last_dispense_time" ->
  safe (incr k).
Proof. intros Hk. unfold incr. safe_steps. Qed.

Lemma safe_save_stats (json_dumps : pyval -> string) :
  safe (save_stats json_dumps).
Proof. unfold save_stats. safe_steps. Qed.

Lemma safe_dispense (p : pump) (d : Q) : safe (dispense p d).
Proof. unfold dispense. safe_steps. Qed.

Lemma safe_too_soon (clock : nat -> Q) : safe (too_soon clock).
Proof.
  unfold too_soon. safe_steps. destruct (Qltb _ _); auto with safe.
Qed.

Lemma safe_record_served (clock : nat -> Q) (json_dumps : pyval -> string)
      (which : string) :
  safe (record_served clock json_dumps which).
Proof.
  unfold record_served. safe_steps.
  all: try apply safe_save_stats.
  all: destruct (String.eqb _ _); [apply safe_incr; tauto|].
  all: destruct (String.eqb _ _); [apply safe_incr; tauto | auto with safe].
Qed.

Lemma safe_handlers (clock : nat -> Q) (json_dumps : pyval -> string) :
  (forall b, safe (on_tomato clock json_dumps b))
  /\ (forall b, safe (on_mustard clock json_dumps b))
  /\ safe (on_both clock json_dumps).
Proof.
  pose proof (safe_too_soon clock) as Hts.
  pose proof (safe_record_served clock json_dumps) as Hrec.
  pose proof safe_dispense as Hd.
  split; [|split]; [intros b | intros b |];
    unfold on_tomato, on_mustard, on_both;
    (apply safe_bind; [exact Hts|]); intros [|]; try apply safe_ret.
  - apply safe_bind; [apply Hd | intros ?; apply Hrec].
  - apply safe_bind; [apply Hd | intros ?; apply Hrec].
  - apply safe_bind; [apply Hd | intros ?].
    apply safe_bind; [apply Hd | intros ?].
    apply safe_bind; [apply Hrec | intros ?; apply Hrec].
Qed.

Section Callbacks.

Variable clock : nat -> Q.
Variable json_dumps : pyval -> string.
Variable py_str : pyval -> string.

Lemma safe_counter_text : safe (counter_text py_str).
Proof. unfold counter_text. safe_steps. Qed.

Lemma safe_update_ui : safe (update_ui py_str).
Proof.
  unfold update_ui. apply safe_bind; [apply safe_counter_text|].
  intros ?; apply safe_ret.
Qed.

Lemma safe_show_qr_txt : safe (show_qr_txt clock json_dumps).
Proof. unfold show_qr_txt. safe_steps. Qed.

Lemma safe_callback (ev : ui_event) :
  safe (callback clock json_dumps py_str ev).
Proof.
  destruct (safe_handlers clock json_dumps) as (Ht & Hm & Hb).
  destruct ev as [[| |]|[|]| |]; cbn [callback handler]; auto.
  - apply safe_update_ui.
  - apply safe_bind; [apply safe_show_qr_txt | intros ?; apply safe_ret].
Qed.

Lemma mainloop_keys4 (evs : list ui_event) :
  forall w : World,
    keys4 (state w) ->
    keys4 (state (mainloop clock json_dumps py_str evs w)).
Proof.
  induction evs as [|ev rest IH]; intros w Hk; [exact Hk|].
  cbn [mainloop]. apply IH.
  destruct (callback clock json_dumps py_str ev w) as [r w'] eqn:E.
  exact (proj1 (safe_callback ev _ _ _ Hk E)).
Qed.

End Callbacks.

Lemma load_stats_keys4 (json_loads : string -> result pyval) (w : World) :
  keys4 (state w) -> keys4 (state (snd (load_stats json_loads w))).
Proof.
  intros Hk. rewrite load_stats_exec. cbn [snd state].
  destruct (stats_file w) as [text|]; [|exact Hk].
  destruct (json_loads text) as [j|e]; [|exact Hk].
  destruct Hk as (H1 & H2 & H3 & H4).
  split; [|split; [|split]]; apply dict_update_keeps; assumption.
Qed.

Lemma main_keys4 (json_loads : string -> result pyval)
      (py_str : pyval -> string) (file : option string) :
  keys4 (state (snd (main json_loads py_str (world0 file)))).
Proof.
  destruct (main_exec json_loads py_str file)
    as (w1 & w2 & E1 & E2 & Hst & _).
  rewrite E2. cbn [snd]. rewrite Hst.
  replace w1 with (snd (load_stats json_loads (world0 file)))
    by (rewrite E1; reflexivity).
  apply load_stats_keys4, keys4_state0.
Qed.

(** ** The threads a callback starts *)

Lemma starts_of_keeps {A} (m : M A) : keeps_threads m -> starts_defaults m.
Proof.
  intros Hm w w' r E. exists []. rewrite (Hm _ _ _ E), app_nil_r.
  split; [reflexivity | constructor].
Qed.

Lemma starts_bind {A B} (m : M A) (f : A -> M B) :
  starts_defaults m -> (forall a, starts_defaults (f a)) ->
  starts_defaults (bind m f).
Proof.
  intros Hm Hf w w' r. unfold bind.
  destruct (m w) as [[a|e] w1] eqn:E; destruct (Hm _ _ _ E) as (m1 & H1 & F1).
  - intros H. destruct (Hf a _ _ _ H) as (m2 & H2 & F2).
    exists (m1 ++ m2)%list. rewrite H2, H1, app_assoc.
    split; [reflexivity | apply Forall_app; auto].
  - intros [= <- <-]. exists m1. auto.
Qed.

Lemma starts_dispense (p : pump) :
  starts_defaults (dispense p DEFAULT_DISPENSE_TIME_SECONDS).
Proof.
  intros w w' r. rewrite dispense_exec, clamp_default. intros [= <- <-].
  cbn [threads]. eexists. split; [reflexivity|].
  constructor; [|constructor]. destruct p; [left | right]; reflexivity.
Qed.

Lemma keeps_too_soon (clock : nat -> Q) : keeps_threads (too_soon clock).
Proof. intros w w' r E. apply too_soon_quiet in E. tauto. Qed.

Lemma starts_handlers (clock : nat -> Q) (json_dumps : pyval -> string) :
  (forall b, starts_defaults (on_tomato clock json_dumps b))
  /\ (forall b, starts_defaults (on_mustard clock json_dumps b))
  /\ starts_defaults (on_both clock json_dumps).
Proof.
  pose proof (starts_of_keeps _ (keeps_too_soon clock)) as Hts.
  assert (forall which,
             starts_defaults (record_served clock json_dumps which)) as Hrec
      by (intros which; apply starts_of_keeps, keeps_record_served).
  pose proof starts_dispense as Hd.
  assert (starts_defaults (ret tt)) as Hret
      by (apply starts_of_keeps, keeps_ret).
  split; [|split]; [intros b | intros b |];
    unfold on_tomato, on_mustard, on_both;
    (apply starts_bind; [exact Hts|]); intros [|]; try exact Hret.
  - apply starts_bind; [apply Hd | intros ?; apply Hrec].
  - apply starts_bind; [apply Hd | intros ?; apply Hrec].
  - apply starts_bind; [apply Hd | intros ?].
    apply starts_bind; [apply Hd | intros ?].
    apply starts_bind; [apply Hrec | intros ?; apply Hrec].
Qed.

Section CallbackThreads.

Variable clock : nat -> Q.
Variable json_dumps : pyval -> string.
Variable py_str : pyval -> string.

Lemma keeps_counter_text : keeps_threads (counter_text py_str).
Proof. unfold counter_text. keeps. Qed.

Lemma keeps_update_ui : keeps_threads (update_ui py_str).
Proof.
  unfold update_ui. apply keeps_bind; [apply keeps_counter_text|].
  intros ?; apply keeps_ret.
Qed.

Lemma keeps_show_qr_txt : keeps_threads (show_qr_txt clock json_dumps).
Proof. unfold show_qr_txt. keeps. Qed.

Lemma starts_callback (ev : ui_event) :
  starts_defaults (callback clock json_dumps py_str ev).
Proof.
  destruct (starts_handlers clock json_dumps) as (Ht & Hm & Hb).
  destruct ev as [[| |]|[|]| |]; cbn [callback handler]; auto.
  - apply starts_of_keeps, keeps_update_ui.
  - apply starts_of_keeps.
    apply keeps_bind; [apply keeps_show_qr_txt | intros ?; apply keeps_ret].
Qed.

Lemma mainloop_threads (evs : list ui_event) :
  forall w : World,
    Forall default_activation (threads w) ->
    Forall default_activation
           (threads (mainloop clock json_dumps py_str evs w)).
Proof.
  induction evs as [|ev rest IH]; intros w Hw; [exact Hw|].
  cbn [mainloop]. apply IH.
  destruct (callback clock json_dumps py_str ev w) as [r w'] eqn:E.
  destruct (starts_callback ev _ _ _ E) as (more & Hth & Hmore).
  cbn [snd]. rewrite Hth. apply Forall_app; auto.
Qed.

End CallbackThreads.

Lemma program_threads (clock : nat -> Q)
      (json_loads : string -> result pyval) (json_dumps : pyval -> string)
      (py_str : pyval -> string) (file : option string)
      (evs : list ui_event) :
  Forall default_activation
         (threads (program clock json_loads json_dumps py_str file evs)).
Proof.
  unfold program. apply mainloop_threads.
  destruct (main_exec json_loads py_str file)
    as (w1 & w2 & _ & E2 & _ & _ & Hth & _).
  rewrite E2. cbn [snd]. rewrite Hth. constructor.
Qed.


(** ** Further properties: the program as a whole *)

(** X4.  Whatever the stats file holds and whatever events follow, the
    four keys of [state] are still there: loading only adds keys or
    overwrites their values, and no callback deletes one.  So reading a
    counter from [state] finds a value and leaves the world as it is. *)
Theorem state_keys_are_never_lost
        (clock : nat -> Q) (json_loads : string -> result pyval)
        (json_dumps : pyval -> string) (py_str : pyval -> string)
        (file : option string) (evs : list ui_event) :
  let w := program clock json_loads json_dumps py_str file evs in
  keys4 (state w)
  /\ forall k : string,
      In k counter_keys -> exists v, getitem k w = (Ok v, w).
Proof.
  intros w.
  assert (keys4 (state w)) as Hk
      by (unfold w, program; apply mainloop_keys4; apply main_keys4).
  split; [exact Hk|].
  destruct Hk as ([vs Hs] & [vt Ht] & [vm Hm] & [vl Hl]).
  intros k [<- | [<- | [<- | [<- | []]]]]; eexists;
    apply getitem_exec; eassumption.
Qed.

(** X5.  Whatever the stats file holds and whatever events follow, every
    thread the program has started is a daemon that drives one pump for
    exactly 1.5 s under the lock: no activation is ever longer. *)
Theorem every_activation_is_default
        (clock : nat -> Q) (json_loads : string -> result pyval)
        (json_dumps : pyval -> string) (py_str : pyval -> string)
        (file : option string) (evs : list ui_event) (th : thread) :
  In th (threads (program clock json_loads json_dumps py_str file evs)) ->
  daemon th = true
  /\ exists p,
      thread_target th =
      [LockAcquire; PumpOn p; Sleep (3 # 2); PumpOff p; LockRelease]
      /\ held_on p false (thread_target th) = [(3 # 2)%Q].
Proof.
  intros Hin.
  pose proof (program_threads clock json_loads json_dumps py_str file evs)
    as Hall.
  rewrite List.Forall_forall in Hall.
  destruct (Hall th Hin) as [-> | ->]; (split; [reflexivity|]).
  - exists pump_tomato. split; reflexivity.
  - exists pump_mustard. split; reflexivity.
Qed.

Lemma every_activation_is_default_witness :
  In (activation pump_mustard (3 # 2))
     (threads (program (scenario_clock 10) Json.loads Json.dumps Json.dumps
                       None [Touch Both; Refresh; Pressed pump_tomato]))
  /\ held_on pump_mustard false
             (thread_target (activation pump_mustard (3 # 2)))
     = [(3 # 2)%Q].
Proof.
  assert (In (activation pump_mustard (3 # 2))
             (threads (program (scenario_clock 10) Json.loads Json.dumps
                               Json.dumps None
                               [Touch Both; Refresh; Pressed pump_tomato])))
    as Hin by (vm_compute; right; left; reflexivity).
  split; [exact Hin|].
  destruct (every_activation_is_default
              (scenario_clock 10) Json.loads Json.dumps Json.dumps None
              [Touch Both; Refresh; Pressed pump_tomato] _ Hin)
    as (_ & p & Hbody & Hheld).
  reflexivity.
Defined.

(** ** Callbacks on a typed state *)

Section TypedCallbacks.

Variable clock : nat -> Q.
Variable json_dumps : pyval -> string.
Variable py_str : pyval -> string.

Lemma handler_typed (tgt : target) (w : World) (s t m : Z) (l : Q) :
  counters (state w) s t m l ->
  exists w' s' t' m' l',
    handler clock json_dumps tgt w = (Ok tt, w')
    /\ counters (state w') s' t' m' l'
    /\ (s' - s = (t' - t) + (m' - m))%Z /\ (t <= t')%Z /\ (m <= m')%Z.
Proof.
  intros Hc.
  destruct (Qlt_le_dec (clock (ticks w) - l) MIN_INTERVAL_SECONDS)
    as [Hlt | Hge].
  - rewrite (handler_rejected clock json_dumps tgt w s t m l Hc Hlt).
    exists (mkWorld (state w) (stats_file w) (S (ticks w)) (threads w)
                    (calls w ++ [Call_too_soon])), s, t, m, l.
    split; [reflexivity|]. split; [exact Hc | lia].
  - destruct tgt; cbn [handler].
    + destruct (on_tomato_accepted clock json_dumps false w s t m l Hc Hge)
        as (d & E & Hd & _).
      rewrite E. eexists _, _, _, _, _. split; [reflexivity|].
      split; [exact Hd | lia].
    + destruct (on_mustard_accepted clock json_dumps false w s t m l Hc Hge)
        as (d & E & Hd & _).
      rewrite E. eexists _, _, _, _, _. split; [reflexivity|].
      split; [exact Hd | lia].
    + destruct (on_both_accepted clock json_dumps w s t m l Hc Hge)
        as (d & E & Hd & _).
      rewrite E. eexists _, _, _, _, _. split; [reflexivity|].
      split; [exact Hd | lia].
Qed.

Lemma counter_text_exec (w : World) (v : pyval) :
  state w !! "served" = Some v ->
  counter_text py_str w = (Ok ("Sausages served: " ++ py_str v), w).
Proof.
  intros Hv. unfold counter_text.
  rewrite (bind_ok _ _ _ _ _ (getitem_exec _ _ _ Hv)). reflexivity.
Qed.

Lemma update_ui_exec (w : World) (v : pyval) :
  state w !! "served" = Some v -> update_ui py_str w = (Ok tt, w).
Proof.
  intros Hv. unfold update_ui.
  rewrite (bind_ok _ _ _ _ _ (counter_text_exec w v Hv)). reflexivity.
Qed.

Lemma show_qr_txt_exec (w : World) (vs vt vm : pyval) :
  state w !! "served" = Some vs ->
  state w !! "tomato_served" = Some vt ->
  state w !! "mustard_served" = Some vm ->
  show_qr_txt clock json_dumps w =
  (Ok (json_dumps (PDict [("served", vs); ("tomato", vt); ("mustard", vm);
                          ("timestamp", PInt (py_int (clock (ticks w))))])),
   mkWorld (state w) (stats_file w) (S (ticks w)) (threads w) (calls w)).
Proof.
  intros Hs Ht Hm. unfold show_qr_txt.
  rewrite (bind_ok _ _ _ _ _ (getitem_exec _ _ _ Hs)).
  rewrite (bind_ok _ _ _ _ _ (getitem_exec _ _ _ Ht)).
  rewrite (bind_ok _ _ _ _ _ (getitem_exec _ _ _ Hm)).
  reflexivity.
Qed.

Lemma callback_typed (ev : ui_event) (w : World) (s t m : Z) (l : Q) :
  counters (state w) s t m l ->
  exists w' s' t' m' l',
    callback clock json_dumps py_str ev w = (Ok tt, w')
    /\ counters (state w') s' t' m' l'
    /\ (s' - s = (t' - t) + (m' - m))%Z /\ (t <= t')%Z /\ (m <= m')%Z.
Proof.
  intros Hc. destruct ev as [tgt|p| |]; cbn [callback].
  - exact (handler_typed tgt w s t m l Hc).
  - destruct p.
    + exact (handler_typed Tomato w s t m l Hc).
    + exact (handler_typed Mustard w s t m l Hc).
  - pose proof Hc as (Hs & _).
    exists w, s, t, m, l. split; [|split; [exact Hc | lia]].
    exact (update_ui_exec w _ Hs).
  - pose proof Hc as (Hs & Ht & Hm & _).
    exists (mkWorld (state w) (stats_file w) (S (ticks w)) (threads w)
                    (calls w)), s, t, m, l.
    split; [|split; [exact Hc | lia]].
    rewrite (bind_ok _ _ _ _ _ (show_qr_txt_exec w _ _ _ Hs Ht Hm)).
    reflexivity.
Qed.

Lemma mainloop_typed (evs : list ui_event) :
  forall (w : World) (s t m : Z) (l : Q),
    counters (state w) s t m l ->
    exists s' t' m' l',
      counters (state (mainloop clock json_dumps py_str evs w)) s' t' m' l'
      /\ (s' - s = (t' - t) + (m' - m))%Z /\ (t <= t')%Z /\ (m <= m')%Z.
Proof.
  induction evs as [|ev rest IH]; intros w s t m l Hc.
  - exists s, t, m, l. split; [exact Hc | lia].
  - cbn [mainloop].
    destruct (callback_typed ev w s t m l Hc)
      as (w1 & s1 & t1 & m1 & l1 & E & Hc1 & Hadd & Ht & Hm).
    rewrite E. cbn [snd].
    destruct (IH w1 s1 t1 m1 l1 Hc1) as (s' & t' & m' & l' & Hc' & ? & ? & ?).
    exists s', t', m', l'. split; [exact Hc' | lia].
Qed.

End TypedCallbacks.

(** ** Values that are no numbers *)

Lemma bind_raise {A B} (m : M A) (f : A -> M B) (w w' : World) (e : exn) :
  m w = (Raise e, w') -> bind m f w = (Raise e, w').
Proof. intros H. unfold bind. rewrite H. reflexivity. Qed.

Lemma reads_only_bind {A B} (m : M A) (f : A -> M B) :
  reads_only m -> (forall a, reads_only (f a)) -> reads_only (bind m f).
Proof.
  intros Hm Hf w w' r. unfold bind.
  destruct (m w) as [[a|e] w1] eqn:E;
    destruct (Hm _ _ _ E) as (H1 & H2 & H3).
  - intros H. destruct (Hf a _ _ _ H) as (G1 & G2 & G3).
    rewrite G1, G2, G3. auto.
  - intros [= <- <-]. auto.
Qed.

Lemma reads_only_ret {A} (a : A) : reads_only (ret a).
Proof. intros w w' r [= <- <-]. auto. Qed.

Lemma reads_only_getitem (k : string) : reads_only (getitem k).
Proof.
  intros w w' r. unfold getitem.
  destruct (state w !! k); intros [= <- <-]; auto.
Qed.

Lemma reads_only_time_time (clock : nat -> Q) : reads_only (time_time clock).
Proof. intros w w' r [= <- <-]. auto. Qed.

Lemma reads_only_too_soon (clock : nat -> Q) : reads_only (too_soon clock).
Proof. intros w w' r E. apply too_soon_quiet in E. tauto. Qed.

Section BadValues.

Variable clock : nat -> Q.
Variable json_dumps : pyval -> string.
Variable py_str : pyval -> string.

Lemma reads_only_update_ui : reads_only (update_ui py_str).
Proof.
  unfold update_ui, counter_text.
  repeat (apply reads_only_bind; [|intros ?]);
    auto using reads_only_ret, reads_only_getitem.
Qed.

Lemma reads_only_show_qr_txt : reads_only (show_qr_txt clock json_dumps).
Proof.
  unfold show_qr_txt.
  repeat (apply reads_only_bind; [|intros ?]);
    auto using reads_only_ret, reads_only_getitem, reads_only_time_time.
Qed.

Lemma too_soon_by_last (w : World) (x : pyval) (l : Q) :
  state w !! "last_dispense_time" = Some x -> as_num x = Some l ->
  too_soon clock w =
  (Ok (Qltb (clock (ticks w) - l) MIN_INTERVAL_SECONDS),
   mkWorld (state w) (stats_file w) (S (ticks w)) (threads w)
           (calls w ++ [Call_too_soon])).
Proof.
  intros Hx Hnum.
  unfold too_soon, bind, called, time_time, getitem, lift, py_rsub, ret.
  simpl. rewrite Hx, Hnum.
  destruct (Qltb _ _); reflexivity.
Qed.

Lemma too_soon_type_error (w : World) (x : pyval) :
  state w !! "last_dispense_time" = Some x -> as_num x = None ->
  too_soon clock w =
  (Raise TypeError,
   mkWorld (state w) (stats_file w) (S (ticks w)) (threads w)
           (calls w ++ [Call_too_soon])).
Proof.
  intros Hx Hnum.
  unfold too_soon, bind, called, time_time, getitem, lift, py_rsub, ret.
  simpl. rewrite Hx, Hnum. reflexivity.
Qed.

Lemma add1_type_error (v : pyval) :
  as_num v = None -> py_add1 v = Raise TypeError.
Proof. destruct v; cbn; congruence. Qed.

Lemma record_served_bad_served (which : string) (w : World) (v : pyval) :
  state w !! "served" = Some v -> as_num v = None ->
  record_served clock json_dumps which w =
  (Raise TypeError,
   mkWorld (state w) (stats_file w) (ticks w) (threads w)
           (calls w ++ [Call_record_served which])).
Proof.
  intros Hv Hnum.
  unfold record_served, incr, bind, called, getitem, lift.
  cbn [state stats_file ticks threads calls].
  rewrite Hv, (add1_type_error v Hnum). reflexivity.
Qed.

Lemma record_served_bad_tomato (w : World) (s : Z) (v : pyval) :
  state w !! "served" = Some (PInt s) ->
  state w !! "tomato_served" = Some v -> as_num v = None ->
  record_served clock json_dumps "tomato" w =
  (Raise TypeError,
   mkWorld (<["served" := PInt (s + 1)]> (state w)) (stats_file w) (ticks w)
           (threads w) (calls w ++ [Call_record_served "tomato"])).
Proof.
  intros Hs Hv Hnum.
  unfold record_served, incr, bind, called, getitem, setitem, lift.
  exec. rewrite (add1_type_error v Hnum). reflexivity.
Qed.

(** An accepted request whose record fails at once. *)
Lemma handler_bad_served (tgt : target) (w : World) (v x : pyval) (l : Q) :
  state w !! "served" = Some v -> as_num v = None ->
  state w !! "last_dispense_time" = Some x -> as_num x = Some l ->
  (MIN_INTERVAL_SECONDS <= clock (ticks w) - l)%Q ->
  exists cs,
    handler clock json_dumps tgt w =
    (Raise TypeError,
     mkWorld (state w) (stats_file w) (S (ticks w))
             (threads w ++ activations tgt) cs).
Proof.
  intros Hv Hnum Hx Hl Hge. apply Qltb_false in Hge.
  destruct tgt; cbn [handler]; unfold on_tomato, on_mustard, on_both;
    rewrite (bind_ok _ _ _ _ _ (too_soon_by_last w x l Hx Hl)), Hge;
    rewrite (bind_ok _ _ _ _ _ (dispense_exec _ _ _));
    rewrite ?(bind_ok _ _ _ _ _ (dispense_exec _ _ _)), clamp_default.
  - erewrite record_served_bad_served by (cbn [state]; eassumption).
    eexists. reflexivity.
  - erewrite record_served_bad_served by (cbn [state]; eassumption).
    eexists. reflexivity.
  - erewrite bind_raise
      by (apply record_served_bad_served with (v := v); cbn [state];
          assumption).
    cbn [state stats_file ticks threads calls]. rewrite <- app_assoc.
    eexists. reflexivity.
Qed.

End BadValues.

Lemma epoch_clock_monotone : monotone epoch_clock.
Proof.
  intros i j Hij. unfold epoch_clock.
  apply Qplus_le_r. rewrite <- Zle_Qle. lia.
Qed.

Section BadSessions.

Variable clock : nat -> Q.
Variable json_dumps : pyval -> string.
Variable py_str : pyval -> string.

Lemma mainloop_bad_served (tgts : list target) (v x : pyval) (l : Q) :
  monotone clock -> as_num v = None -> as_num x = Some l ->
  forall w : World,
    state w !! "served" = Some v ->
    state w !! "last_dispense_time" = Some x ->
    (MIN_INTERVAL_SECONDS <= clock (ticks w) - l)%Q ->
    let w' := mainloop clock json_dumps py_str (map Touch tgts) w in
    state w' = state w /\ stats_file w' = stats_file w /\
    threads w' = (threads w ++ flat_map activations tgts)%list.
Proof.
  intros Hmono Hv Hx.
  induction tgts as [|tgt rest IH]; intros w Hs Hl Hge.
  - cbn. rewrite app_nil_r. auto.
  - cbn [map mainloop callback flat_map].
    destruct (handler_bad_served clock json_dumps tgt w v x l
                                 Hs Hv Hl Hx Hge) as (cs & E).
    rewrite E. cbn [snd].
    match goal with
    | |- context [mainloop _ _ _ _ ?w1] =>
        destruct (IH w1) as (H1 & H2 & H3)
    end.
    + exact Hs.
    + exact Hl.
    + cbn [ticks].
      pose proof (Hmono (ticks w) (S (ticks w)) ltac:(lia)). lra.
    + cbn [state stats_file threads] in H1, H2, H3.
      cbv zeta. rewrite H1, H2, H3, <- app_assoc. auto.
Qed.

Lemma handler_bad_time (tgt : target) (w : World) (x : pyval) :
  state w !! "last_dispense_time" = Some x -> as_num x = None ->
  handler clock json_dumps tgt w =
  (Raise TypeError,
   mkWorld (state w) (stats_file w) (S (ticks w)) (threads w)
           (calls w ++ [Call_too_soon])).
Proof.
  intros Hx Hnum.
  destruct tgt; cbn [handler]; unfold on_tomato, on_mustard, on_both;
    apply bind_raise; exact (too_soon_type_error clock w x Hx Hnum).
Qed.

Lemma callback_bad_time (ev : ui_event) (w w' : World) (x : pyval)
      (r : result unit) :
  state w !! "last_dispense_time" = Some x -> as_num x = None ->
  callback clock json_dumps py_str ev w = (r, w') ->
  state w' = state w /\ stats_file w' = stats_file w /\
  threads w' = threads w.
Proof.
  intros Hx Hnum. destruct ev as [tgt|p| |]; cbn [callback].
  - rewrite (handler_bad_time tgt w x Hx Hnum). intros [= <- <-]. auto.
  - destruct p.
    + change (on_tomato clock json_dumps true)
        with (handler clock json_dumps Tomato).
      rewrite (handler_bad_time Tomato w x Hx Hnum). intros [= <- <-]. auto.
    + change (on_mustard clock json_dumps true)
        with (handler clock json_dumps Mustard).
      rewrite (handler_bad_time Mustard w x Hx Hnum). intros [= <- <-]. auto.
  - apply reads_only_update_ui.
  - apply reads_only_bind;
      [apply reads_only_show_qr_txt | intros ?; apply reads_only_ret].
Qed.

Lemma mainloop_bad_time (evs : list ui_event) (x : pyval) :
  as_num x = None ->
  forall w : World,
    state w !! "last_dispense_time" = Some x ->
    let w' := mainloop clock json_dumps py_str evs w in
    state w' = state w /\ stats_file w' = stats_file w /\
    threads w' = threads w.
Proof.
  intros Hnum. induction evs as [|ev rest IH]; intros w Hx; [cbn; auto|].
  cbn [mainloop].
  destruct (callback clock json_dumps py_str ev w) as [r w1] eqn:E.
  destruct (callback_bad_time ev w w1 x r Hx Hnum E) as (H1 & H2 & H3).
  cbn [snd]. destruct (IH w1) as (G1 & G2 & G3); [rewrite H1; exact Hx|].
  cbv zeta. rewrite G1, G2, G3. auto.
Qed.

End BadSessions.

(** ** Further properties: values that are no numbers *)

(** X7.  When [state["served"]] is not a number (a string or null merged
    from the stats file) and the throttle check passes, a request starts
    its pumps and then raises [TypeError] in [record_served] before
    anything is recorded: counters, time of the last dispense and stats
    file stay as they were.  So, on a monotone clock, the throttle never
    engages: every touch of a session fires its pumps again. *)
Theorem corrupt_served_disables_throttle
        (clock : nat -> Q) (json_dumps : pyval -> string)
        (py_str : pyval -> string) (w : World) (v x : pyval) (l : Q)
        (tgts : list target) :
  monotone clock ->
  state w !! "served" = Some v -> as_num v = None ->
  state w !! "last_dispense_time" = Some x -> as_num x = Some l ->
  (MIN_INTERVAL_SECONDS <= clock (ticks w) - l)%Q ->
  (forall tgt : target,
      exists w',
        handler clock json_dumps tgt w = (Raise TypeError, w')
        /\ state w' = state w /\ stats_file w' = stats_file w
        /\ threads w' = (threads w ++ activations tgt)%list)
  /\ let w' := mainloop clock json_dumps py_str (map Touch tgts) w in
     state w' = state w /\ stats_file w' = stats_file w
     /\ threads w' = (threads w ++ flat_map activations tgts)%list.
Proof.
  intros Hmono Hs Hv Hl Hx Hge. split.
  - intros tgt.
    destruct (handler_bad_served clock json_dumps tgt w v x l
                                 Hs Hv Hl Hx Hge) as (cs & E).
    eexists. split; [exact E|]. cbn [state stats_file threads]. auto.
  - exact (mainloop_bad_served clock json_dumps py_str tgts v x l
                               Hmono Hv Hx w Hs Hl Hge).
Qed.

Lemma corrupt_served_disables_throttle_witness :
  let w := program epoch_clock Json.loads Json.dumps Json.dumps
                   (Some corrupt_text) [] in
  state w !! "served" = Some (PStr "lots")
  /\ threads (mainloop epoch_clock Json.dumps Json.dumps
                       (map Touch [Tomato; Tomato; Both]) w)
     = [activation pump_tomato (3 # 2); activation pump_tomato (3 # 2);
        activation pump_tomato (3 # 2); activation pump_mustard (3 # 2)]
  /\ state (mainloop epoch_clock Json.dumps Json.dumps
                     (map Touch [Tomato; Tomato; Both]) w)
     = state w.
Proof.
  intros w.
  assert (state w !! "served" = Some (PStr "lots")) as Hs
      by (vm_compute; reflexivity).
  assert (state w !! "last_dispense_time" = Some (PFloat 0)) as Hl
      by (vm_compute; reflexivity).
  assert (MIN_INTERVAL_SECONDS <= epoch_clock (ticks w) - 0)%Q as Hge
      by (vm_compute; discriminate).
  destruct (corrupt_served_disables_throttle
              epoch_clock Json.dumps Json.dumps w (PStr "lots") (PFloat 0) 0
              [Tomato; Tomato; Both]
              epoch_clock_monotone Hs eq_refl Hl eq_refl Hge)
    as (_ & Hst & _ & Hth).
  split; [exact Hs|]. split; [exact Hth | exact Hst].
Defined.

(** X8.  When [state["served"]] is an integer but [state["tomato_served"]]
    is not a number, an accepted request for Tomato or Both starts its
    pumps, adds 1 to [served] and then raises [TypeError]: the sub-counter,
    the time of the last dispense and the stats file are not updated, and
    for Both the mustard dispense is not recorded at all. *)
Theorem corrupt_tomato_count_half_recorded
        (clock : nat -> Q) (json_dumps : pyval -> string)
        (tgt : target) (w : World) (s : Z) (v x : pyval) (l : Q) :
  tgt <> Mustard ->
  state w !! "served" = Some (PInt s) ->
  state w !! "tomato_served" = Some v -> as_num v = None ->
  state w !! "last_dispense_time" = Some x -> as_num x = Some l ->
  (MIN_INTERVAL_SECONDS <= clock (ticks w) - l)%Q ->
  exists w',
    handler clock json_dumps tgt w = (Raise TypeError, w')
    /\ state w' = <["served" := PInt (s + 1)]> (state w)
    /\ stats_file w' = stats_file w
    /\ threads w' = (threads w ++ activations tgt)%list.
Proof.
  intros Htgt Hs Hv Hnum Hx Hl Hge. apply Qltb_false in Hge.
  destruct tgt; [|congruence|]; cbn [handler]; unfold on_tomato, on_both;
    rewrite (bind_ok _ _ _ _ _ (too_soon_by_last clock w x l Hx Hl)), Hge;
    rewrite (bind_ok _ _ _ _ _ (dispense_exec _ _ _));
    rewrite ?(bind_ok _ _ _ _ _ (dispense_exec _ _ _)), clamp_default.
  - erewrite record_served_bad_tomato
      by (cbn [state]; eassumption).
    eexists. split; [reflexivity|].
    cbn [state stats_file threads]. auto.
  - erewrite bind_raise
      by (apply record_served_bad_tomato with (s := s) (v := v);
          cbn [state]; assumption).
    eexists. split; [reflexivity|].
    cbn [state stats_file threads]. rewrite <- app_assoc. auto.
Qed.

Lemma corrupt_tomato_count_half_recorded_witness :
  let w := mkWorld (<["tomato_served" := PNone]> state0) None 0 [] [] in
  Both <> Mustard
  /\ (MIN_INTERVAL_SECONDS <= epoch_clock (ticks w) - 0)%Q
  /\ exists w',
      handler epoch_clock Json.dumps Both w = (Raise TypeError, w')
      /\ state w' !! "served" = Some (PInt 1)
      /\ state w' !! "mustard_served" = Some (PInt 0)
      /\ threads w' = [activation pump_tomato (3 # 2);
                       activation pump_mustard (3 # 2)].
Proof.
  intros w.
  assert (Both <> Mustard) as Hne by discriminate.
  assert (MIN_INTERVAL_SECONDS <= epoch_clock (ticks w) - 0)%Q as Hge
      by (vm_compute; discriminate).
  split; [exact Hne|]. split; [exact Hge|].
  destruct (corrupt_tomato_count_half_recorded
              epoch_clock Json.dumps Both w 0 PNone (PFloat 0) 0
              Hne eq_refl eq_refl eq_refl eq_refl eq_refl Hge)
    as (w' & E & Hst & _ & Hth).
  exists w'. split; [exact E|]. rewrite Hst.
  split; [reflexivity|]. split; [reflexivity | exact Hth].
Defined.

(** X9.  When [state["last_dispense_time"]] is not a number, every request
    raises [TypeError] in the throttle check, before any pump is started;
    no sequence of events starts a pump or changes the counters or the
    stats file again. *)
Theorem corrupt_time_blocks_dispensing
        (clock : nat -> Q) (json_dumps : pyval -> string)
        (py_str : pyval -> string) (w : World) (x : pyval)
        (evs : list ui_event) :
  state w !! "last_dispense_time" = Some x -> as_num x = None ->
  (forall tgt : target,
      exists w',
        handler clock json_dumps tgt w = (Raise TypeError, w')
        /\ threads w' = threads w /\ state w' = state w)
  /\ let w' := mainloop clock json_dumps py_str evs w in
     state w' = state w /\ stats_file w' = stats_file w
     /\ threads w' = threads w.
Proof.
  intros Hx Hnum. split.
  - intros tgt. eexists.
    split; [exact (handler_bad_time clock json_dumps tgt w x Hx Hnum)|].
    cbn [state threads]. auto.
  - exact (mainloop_bad_time clock json_dumps py_str evs x Hnum w Hx).
Qed.

Lemma corrupt_time_blocks_dispensing_witness :
  let text := Json.dumps (PDict [("last_dispense_time", PStr "yesterday")]) in
  let w := program epoch_clock Json.loads Json.dumps Json.dumps
                   (Some text) [] in
  state w !! "last_dispense_time" = Some (PStr "yesterday")
  /\ threads (mainloop epoch_clock Json.dumps Json.dumps
                       [Touch Tomato; Pressed pump_mustard; Touch Both] w)
     = [].
Proof.
  intros text w.
  assert (state w !! "last_dispense_time" = Some (PStr "yesterday")) as Hx
      by (vm_compute; reflexivity).
  split; [exact Hx|].
  destruct (corrupt_time_blocks_dispensing
              epoch_clock Json.dumps Json.dumps w (PStr "yesterday")
              [Touch Tomato; Pressed pump_mustard; Touch Both] Hx eq_refl)
    as (_ & _ & _ & Hth).
  exact Hth.
Defined.

(** ** The ledger: counters, threads and the stats file *)

Lemma count_pump_app (p : pump) (a b : list thread) :
  count_pump p (a ++ b) = (count_pump p a + count_pump p b)%Z.
Proof.
  unfold count_pump. rewrite List.filter_app, length_app. lia.
Qed.

Section Ledger.

Variable clock : nat -> Q.
Variable json_dumps : pyval -> string.
Variable py_str : pyval -> string.

(** What one callback adds to the ledger. *)
Lemma callback_ledger (ev : ui_event) (w : World) (s t m : Z) (l : Q) :
  counters (state w) s t m l ->
  exists w' s' t' m' l' started,
    callback clock json_dumps py_str ev w = (Ok tt, w')
    /\ counters (state w') s' t' m' l'
    /\ threads w' = (threads w ++ started)%list
    /\ (s' - s = Z.of_nat (length started))%Z
    /\ (t' - t = count_pump pump_tomato started)%Z
    /\ (m' - m = count_pump pump_mustard started)%Z
    /\ ((started = [] /\ state w' = state w /\ stats_file w' = stats_file w)
        \/ (started <> [] /\ persisted json_dumps w')).
Proof.
  intros Hc.
  assert (forall w', state w' = state w -> stats_file w' = stats_file w ->
                     threads w' = threads w ->
                     counters (state w') s t m l
                     /\ threads w' = (threads w ++ [])%list
                     /\ (s - s = Z.of_nat (length (@nil thread)))%Z
                     /\ (t - t = count_pump pump_tomato [])%Z
                     /\ (m - m = count_pump pump_mustard [])%Z
                     /\ (([] = @nil thread /\ state w' = state w
                          /\ stats_file w' = stats_file w)
                         \/ (@nil thread <> [] /\ persisted json_dumps w')))
    as Hquiet.
  { intros w' H1 H2 H3. rewrite H1, H3, app_nil_r.
    split; [exact Hc|]. split; [reflexivity|].
    split; [cbn; lia|]. split; [unfold count_pump; cbn; lia|].
    split; [unfold count_pump; cbn; lia|].
    left. auto. }
  assert (forall tgt,
             exists w' s' t' m' l' started,
               handler clock json_dumps tgt w = (Ok tt, w')
               /\ counters (state w') s' t' m' l'
               /\ threads w' = (threads w ++ started)%list
               /\ (s' - s = Z.of_nat (length started))%Z
               /\ (t' - t = count_pump pump_tomato started)%Z
               /\ (m' - m = count_pump pump_mustard started)%Z
               /\ ((started = [] /\ state w' = state w
                    /\ stats_file w' = stats_file w)
                   \/ (started <> [] /\ persisted json_dumps w')))
    as Hhandler.
  { intros tgt.
    destruct (Qlt_le_dec (clock (ticks w) - l) MIN_INTERVAL_SECONDS)
      as [Hlt | Hge].
    - rewrite (handler_rejected clock json_dumps tgt w s t m l Hc Hlt).
      eexists _, s, t, m, l, []. split; [reflexivity|].
      apply Hquiet; reflexivity.
    - assert (forall d s' t' m' l' file ti th cs,
                 counters d s' t' m' l' ->
                 d !! "last_dispense_time" = Some (PFloat l') ->
                 file = Some (json_dumps
                                (stats_dict (PInt s') (PInt t') (PInt m')
                                            (PFloat l'))) ->
                 persisted json_dumps (mkWorld d file ti th cs)) as Hp.
      { intros d s' t' m' l' file ti th cs (H1 & H2 & H3 & _) H4 ->.
        exists s', t', m', l'. cbn [state stats_file]. auto. }
      destruct tgt; cbn [handler].
      + destruct (on_tomato_accepted clock json_dumps false w s t m l Hc Hge)
          as (d & E & Hd & Hl).
        rewrite E. eexists _, _, _, _, _, _. split; [reflexivity|].
        cbn [state threads]. split; [exact Hd|]. split; [reflexivity|].
        split; [cbn; lia|]. split; [unfold count_pump; cbn; lia|].
        split; [unfold count_pump; cbn; lia|].
        right. split; [discriminate|]. eapply Hp; eauto.
      + destruct (on_mustard_accepted clock json_dumps false w s t m l Hc Hge)
          as (d & E & Hd & Hl).
        rewrite E. eexists _, _, _, _, _, _. split; [reflexivity|].
        cbn [state threads]. split; [exact Hd|]. split; [reflexivity|].
        split; [cbn; lia|]. split; [unfold count_pump; cbn; lia|].
        split; [unfold count_pump; cbn; lia|].
        right. split; [discriminate|]. eapply Hp; eauto.
      + destruct (on_both_accepted clock json_dumps w s t m l Hc Hge)
          as (d & E & Hd & Hl).
        rewrite E. eexists _, _, _, _, _, _. split; [reflexivity|].
        cbn [state threads]. split; [exact Hd|]. split; [reflexivity|].
        split; [cbn; lia|]. split; [unfold count_pump; cbn; lia|].
        split; [unfold count_pump; cbn; lia|].
        right. split; [discriminate|]. eapply Hp; eauto. }
  destruct ev as [tgt|p| |]; cbn [callback].
  - apply Hhandler.
  - destruct p; [exact (Hhandler Tomato) | exact (Hhandler Mustard)].
  - pose proof Hc as (Hs & _).
    eexists w, s, t, m, l, [].
    split; [exact (update_ui_exec py_str w _ Hs)|].
    apply Hquiet; reflexivity.
  - pose proof Hc as (Hs & Ht & Hm & _).
    eexists _, s, t, m, l, [].
    split.
    + rewrite (bind_ok _ _ _ _ _
                 (show_qr_txt_exec clock json_dumps w _ _ _ Hs Ht Hm)).
      reflexivity.
    + apply Hquiet; reflexivity.
Qed.

Lemma mainloop_ledger (evs : list ui_event) :
  forall (w : World) (s t m : Z) (l : Q),
    counters (state w) s t m l ->
    let w' := mainloop clock json_dumps py_str evs w in
    exists s' t' m' l' started,
      counters (state w') s' t' m' l'
      /\ threads w' = (threads w ++ started)%list
      /\ (s' - s = Z.of_nat (length started))%Z
      /\ (t' - t = count_pump pump_tomato started)%Z
      /\ (m' - m = count_pump pump_mustard started)%Z
      /\ ((started = [] /\ state w' = state w /\ stats_file w' = stats_file w)
          \/ (started <> [] /\ persisted json_dumps w')).
Proof.
  induction evs as [|ev rest IH]; intros w s t m l Hc.
  - exists s, t, m, l, []. cbn [mainloop]. rewrite app_nil_r.
    split; [exact Hc|]. split; [reflexivity|].
    split; [cbn; lia|]. split; [unfold count_pump; cbn; lia|].
    split; [unfold count_pump; cbn; lia|]. left. auto.
  - cbn [mainloop].
    destruct (callback_ledger ev w s t m l Hc)
      as (w1 & s1 & t1 & m1 & l1 & st1 & E & Hc1 & Hth1 & Hs1 & Ht1 & Hm1
          & Hfile1).
    rewrite E. cbn [snd].
    destruct (IH w1 s1 t1 m1 l1 Hc1)
      as (s' & t' & m' & l' & st2 & Hc' & Hth' & Hs' & Ht' & Hm' & Hfile').
    exists s', t', m', l', (st1 ++ st2)%list.
    split; [exact Hc'|].
    split; [rewrite Hth', Hth1, app_assoc; reflexivity|].
    rewrite !count_pump_app, length_app.
    split; [lia|]. split; [lia|]. split; [lia|].
    destruct Hfile' as [(-> & G1 & G2) | (Hne & Hp)].
    + rewrite app_nil_r, G1, G2.
      destruct Hfile1 as [(-> & F1 & F2) | (Hne1 & Hp1)].
      * left. auto.
      * right. split; [exact Hne1|].
        destruct Hp1 as (a & b & c & e & P1 & P2 & P3 & P4 & P5).
        exists a, b, c, e. rewrite G1, G2. auto.
    + right. split; [|exact Hp].
      destruct st1; [exact Hne | discriminate].
Qed.

End Ledger.

(** ** Further properties: the ledger *)

(** X10.  Every pump activation is counted once: along any sequence of
    events on typed counters, [served] grows by the number of threads
    started, [tomato_served] by the number of them that drive the tomato
    pump and [mustard_served] by the number that drive the mustard pump. *)
Theorem served_counts_activations
        (clock : nat -> Q) (json_dumps : pyval -> string)
        (py_str : pyval -> string) (evs : list ui_event) (w : World)
        (s t m : Z) (l : Q) :
  counters (state w) s t m l ->
  let w' := mainloop clock json_dumps py_str evs w in
  exists s' t' m' l' started,
    counters (state w') s' t' m' l'
    /\ threads w' = (threads w ++ started)%list
    /\ (s' = s + Z.of_nat (length started))%Z
    /\ (t' = t + count_pump pump_tomato started)%Z
    /\ (m' = m + count_pump pump_mustard started)%Z.
Proof.
  intros Hc w'.
  destruct (mainloop_ledger clock json_dumps py_str evs w s t m l Hc)
    as (s' & t' & m' & l' & started & Hc' & Hth & Hs & Ht & Hm & _).
  exists s', t', m', l', started.
  split; [exact Hc'|]. split; [exact Hth|]. lia.
Qed.

Lemma served_counts_activations_witness :
  counters (state (world0 None)) 0 0 0 0
  /\ let w' := mainloop epoch_clock Json.dumps Json.dumps
                        [Touch Both; Touch Tomato; Refresh;
                         Pressed pump_mustard; ShowQR]
                        (world0 None) in
     exists s' t' m' l' started,
       counters (state w') s' t' m' l'
       /\ threads w' = (threads (world0 None) ++ started)%list
       /\ (s' = 0 + Z.of_nat (length started))%Z
       /\ (t' = 0 + count_pump pump_tomato started)%Z
       /\ (m' = 0 + count_pump pump_mustard started)%Z.
Proof.
  split; [exact counters_state0|].
  exact (served_counts_activations
           epoch_clock Json.dumps Json.dumps
           [Touch Both; Touch Tomato; Refresh; Pressed pump_mustard; ShowQR]
           (world0 None) 0 0 0 0 counters_state0).
Defined.

(** X11.  The stats file follows the counters: along any sequence of
    events on typed counters, either no pump has been started and counters
    and stats file are untouched, or the stats file holds exactly the
    serialization of the counters now in [state]. *)
Theorem stats_file_follows_counters
        (clock : nat -> Q) (json_dumps : pyval -> string)
        (py_str : pyval -> string) (evs : list ui_event) (w : World)
        (s t m : Z) (l : Q) :
  counters (state w) s t m l ->
  let w' := mainloop clock json_dumps py_str evs w in
  (threads w' = threads w /\ state w' = state w
   /\ stats_file w' = stats_file w)
  \/ (threads w' <> threads w /\ persisted json_dumps w').
Proof.
  intros Hc w'.
  destruct (mainloop_ledger clock json_dumps py_str evs w s t m l Hc)
    as (s' & t' & m' & l' & started & _ & Hth & _ & _ & _ & Hfile).
  fold w' in Hth, Hfile.
  destruct Hfile as [(-> & H1 & H2) | (Hne & Hp)].
  - left. rewrite Hth, app_nil_r. auto.
  - right. split; [|exact Hp].
    rewrite Hth. intros Heq.
    apply (f_equal (@length thread)) in Heq.
    rewrite length_app in Heq.
    destruct started; [congruence | cbn in Heq; lia].
Qed.

Lemma stats_file_follows_counters_witness :
  counters (state (world0 None)) 0 0 0 0
  /\ persisted Json.dumps
               (mainloop epoch_clock Json.dumps Json.dumps
                         [Touch Both; Touch Tomato; ShowQR] (world0 None)).
Proof.
  split; [exact counters_state0|].
  destruct (stats_file_follows_counters
              epoch_clock Json.dumps Json.dumps
              [Touch Both; Touch Tomato; ShowQR] (world0 None)
              0 0 0 0 counters_state0) as [(Hth & _) | (_ & Hp)].
  - vm_compute in Hth. discriminate.
  - exact Hp.
Defined.

(** ** Further properties: the QR text and the clamp *)

Lemma py_int_floor (q : Q) :
  (0 <= q)%Q ->
  (inject_Z (py_int q) <= q)%Q /\ (q < inject_Z (py_int q) + 1)%Q.
Proof.
  destruct q as [a b]. unfold py_int, Qle, Qlt. cbn. intros Ha.
  rewrite Z.mul_1_r in Ha.
  rewrite Z.quot_div_nonneg by lia.
  pose proof (Z.mul_div_le a (Zpos b) ltac:(lia)).
  pose proof (Z.mul_succ_div_gt a (Zpos b) ltac:(lia)).
  split; nia.
Qed.

Lemma py_int_ceil (q : Q) :
  (q <= 0)%Q ->
  (q <= inject_Z (py_int q))%Q /\ (inject_Z (py_int q) - 1 < q)%Q.
Proof.
  destruct q as [a b]. unfold py_int, Qle, Qlt. cbn. intros Ha.
  rewrite Z.mul_1_r in Ha.
  replace a with (- (- a))%Z by lia.
  rewrite Z.quot_opp_l by lia.
  rewrite Z.quot_div_nonneg by lia.
  pose proof (Z.mul_div_le (- a) (Zpos b) ltac:(lia)).
  pose proof (Z.mul_succ_div_gt (- a) (Zpos b) ltac:(lia)).
  split; nia.
Qed.

(** X12.  The text that [show_qr] encodes carries the three counters as
    they are in [state], under the names served, tomato and mustard, and
    the clock reading truncated towards zero as an integer timestamp;
    building it takes one clock reading and changes neither the counters,
    nor the time of the last dispense, nor the stats file, and starts no
    thread. *)
Theorem qr_text_is_a_snapshot
        (clock : nat -> Q) (json_dumps : pyval -> string) (w : World)
        (vs vt vm : pyval) :
  state w !! "served" = Some vs ->
  state w !! "tomato_served" = Some vt ->
  state w !! "mustard_served" = Some vm ->
  exists (ts : Z) (w' : World),
    show_qr_txt clock json_dumps w =
    (Ok (json_dumps (PDict [("served", vs); ("tomato", vt); ("mustard", vm);
                            ("timestamp", PInt ts)])), w')
    /\ state w' = state w /\ stats_file w' = stats_file w
    /\ threads w' = threads w /\ ticks w' = S (ticks w)
    /\ ((0 <= clock (ticks w))%Q ->
        (inject_Z ts <= clock (ticks w))%Q
        /\ (clock (ticks w) < inject_Z ts + 1)%Q)
    /\ ((clock (ticks w) <= 0)%Q ->
        (clock (ticks w) <= inject_Z ts)%Q
        /\ (inject_Z ts - 1 < clock (ticks w))%Q).
Proof.
  intros Hs Ht Hm. eexists _, _.
  split; [exact (show_qr_txt_exec clock json_dumps w vs vt vm Hs Ht Hm)|].
  cbn [state stats_file threads ticks].
  repeat (split; [reflexivity|]).
  split; [apply py_int_floor | apply py_int_ceil].
Qed.

Lemma qr_text_is_a_snapshot_witness :
  state sample_world !! "served" = Some (PInt 3)
  /\ exists (ts : Z) (w' : World),
      show_qr_txt epoch_clock Json.dumps sample_world
      = (Ok (Json.dumps (PDict [("served", PInt 3); ("tomato", PInt 2);
                                ("mustard", PInt 1);
                                ("timestamp", PInt ts)])), w')
      /\ state w' = state sample_world
      /\ (inject_Z ts <= epoch_clock 7)%Q
      /\ (epoch_clock 7 < inject_Z ts + 1)%Q.
Proof.
  split; [reflexivity|].
  destruct (qr_text_is_a_snapshot
              epoch_clock Json.dumps sample_world
              (PInt 3) (PInt 2) (PInt 1) eq_refl eq_refl eq_refl)
    as (ts & w' & E & Hst & _ & _ & _ & Hpos & _).
  exists ts, w'. split; [exact E|]. split; [exact Hst|].
  apply Hpos. vm_compute. discriminate.
Defined.

(** X13.  What [dispense] does with a requested duration [d]: at or below
    0.05 s the pump is driven for 0.05 s, above 6 s for 6 s, and in between
    for [d] itself; in every case the thread is a daemon and neither
    [state], nor the clock, nor the stats file is touched. *)
Theorem dispense_duration_cases (p : pump) (d : Q) (w : World) :
  exists (th : thread) (e : Q) (w' : World),
    dispense p d w = (Ok th, w')
    /\ daemon th = true
    /\ held_on p false (thread_target th) = [e]
    /\ threads w' = (threads w ++ [th])%list
    /\ state w' = state w /\ stats_file w' = stats_file w
    /\ ticks w' = ticks w
    /\ ((d <= 1 # 20)%Q -> e = (1 # 20)%Q)
    /\ ((1 # 20 < d)%Q -> (d <= 6 # 1)%Q -> e = d)
    /\ ((6 # 1 < d)%Q -> e = (6 # 1)%Q).
Proof.
  exists (activation p (clamp_spec d)), (clamp_spec d).
  eexists. split; [apply dispense_exec|].
  cbn [state stats_file ticks threads].
  split; [reflexivity|]. split; [destruct p; reflexivity|].
  do 4 (split; [reflexivity|]).
  unfold clamp_spec. rewrite <- py_max_Qmax, <- py_min_Qmin.
  unfold py_max, py_min, MAX_DISPENSE_SECONDS.
  split; [|split].
  - intros Hd.
    destruct (Qltb (6 # 1) d) eqn:E6.
    + apply Qltb_true in E6. lra.
    + apply Qltb_false in Hd. rewrite Hd. reflexivity.
  - intros Hlo Hhi.
    apply Qltb_false in Hhi. rewrite Hhi.
    apply Qltb_true in Hlo. rewrite Hlo. reflexivity.
  - intros Hd. apply Qltb_true in Hd. rewrite Hd. reflexivity.
Qed.

(** ** The lock discipline *)

Lemma stage_tail (a : action) (rest : list action) :
  stage (a :: rest) -> stage rest.
Proof. intros H. inversion H; subst; constructor. Qed.

Lemma act_inside (i : nat) (a : action) (h : hw) :
  a <> LockAcquire -> exists h', act i a h = Some h'.
Proof. destruct a; intros Ha; try congruence; eexists; reflexivity. Qed.

Lemma holding_head (a : action) (rest : list action) :
  holding (a :: rest) = false -> a = LockAcquire.
Proof. destruct a; cbn; congruence. Qed.

Lemma drives_cases (b : list action) :
  drives pump_tomato b = true -> drives pump_mustard b = true -> False.
Proof.
  unfold drives. destruct (driving b) as [[|]|]; cbn; congruence.
Qed.

(** The holder of the lock is the only thread inside its block. *)
Lemma disciplined_holder (pool : list (list action)) (h : hw) (i : nat)
      (b : list action) :
  disciplined (pool, h) -> pool !! i = Some b -> holding b = true ->
  lock_holder h = Some i.
Proof.
  intros [_ Hd] Hi Hb. cbn [fst snd] in Hd.
  destruct (lock_holder h) as [k|].
  - destruct Hd as (b' & _ & _ & Hothers & _).
    destruct (decide (i = k)) as [-> | Hne]; [reflexivity|].
    rewrite (Hothers i b Hne Hi) in Hb. discriminate.
  - destruct Hd as (Hall & _). rewrite (Hall i b Hi) in Hb. discriminate.
Qed.

Lemma step_disciplined (i : nat) (s s' : list (list action) * hw) :
  disciplined s -> step i s = Some s' -> disciplined s'.
Proof.
  destruct s as [pool h]. intros Hd. unfold step. cbn [fst snd].
  destruct (pool !! i) as [[|a rest]|] eqn:Hi; try discriminate.
  destruct (act i a h) as [h'|] eqn:Hact; [|discriminate].
  intros [= <-].
  pose proof Hd as [Hstages Hlock]. cbn [fst snd] in Hstages, Hlock.
  assert (stage (a :: rest)) as Hst
      by (rewrite List.Forall_forall in Hstages; apply Hstages;
          apply list_elem_of_In; eapply list_elem_of_lookup_2; exact Hi).
  assert (i < length pool)%nat as Hlen by (eapply lookup_lt_Some; exact Hi).
  assert (Forall stage (<[i := rest]> pool)) as Hstages'
      by (apply Forall_insert; [exact Hstages | exact (stage_tail _ _ Hst)]).
  assert (forall j b, j <> i -> <[i := rest]> pool !! j = Some b ->
                      pool !! j = Some b) as Hother
      by (intros j b Hne; rewrite list_lookup_insert_ne by congruence; auto).
  assert (<[i := rest]> pool !! i = Some rest) as Hi'
      by (apply list_lookup_insert_eq; exact Hlen).
  split; [exact Hstages'|]. cbn [fst snd].
  destruct a.
  - (* LockAcquire *)
    cbn in Hact. destruct (lock_holder h) eqn:Hl; [discriminate|].
    injection Hact as <-. cbn [lock_holder tomato_high mustard_high].
    destruct Hlock as (Hall & Ht & Hm).
    inversion Hst; subst.
    exists [PumpOn p; Sleep s; PumpOff p; LockRelease].
    split; [exact Hi'|]. split; [reflexivity|].
    split; [|split; [exact Ht | exact Hm]].
    intros j b' Hne Hj. exact (Hall j b' (Hother j b' Hne Hj)).
  - (* PumpOn *)
    pose proof (disciplined_holder pool h i _ Hd Hi eq_refl) as Hl.
    rewrite Hl in Hlock.
    destruct Hlock as (b & Hb & _ & Hothers & Ht & Hm).
    rewrite Hi in Hb. injection Hb as <-.
    injection Hact as <-.
    inversion Hst; subst.
    assert (lock_holder (set_pin p true h) = Some i) as Hl'
        by (destruct p; exact Hl).
    rewrite Hl'.
    exists [Sleep s; PumpOff p; LockRelease].
    split; [exact Hi'|]. split; [reflexivity|].
    split; [intros j b' Hne Hj; exact (Hothers j b' Hne (Hother j b' Hne Hj))|].
    cbn in Ht, Hm. destruct p; cbn; auto.
  - (* Sleep *)
    pose proof (disciplined_holder pool h i _ Hd Hi eq_refl) as Hl.
    rewrite Hl in Hlock.
    destruct Hlock as (b & Hb & _ & Hothers & Ht & Hm).
    rewrite Hi in Hb. injection Hb as <-.
    injection Hact as <-. rewrite Hl.
    inversion Hst; subst.
    exists [PumpOff p; LockRelease].
    split; [exact Hi'|]. split; [reflexivity|].
    split; [intros j b' Hne Hj; exact (Hothers j b' Hne (Hother j b' Hne Hj))|].
    split; [exact Ht | exact Hm].
  - (* PumpOff *)
    pose proof (disciplined_holder pool h i _ Hd Hi eq_refl) as Hl.
    rewrite Hl in Hlock.
    destruct Hlock as (b & Hb & _ & Hothers & Ht & Hm).
    rewrite Hi in Hb. injection Hb as <-.
    injection Hact as <-.
    inversion Hst; subst.
    assert (lock_holder (set_pin p false h) = Some i) as Hl'
        by (destruct p; exact Hl).
    rewrite Hl'.
    exists [LockRelease].
    split; [exact Hi'|]. split; [reflexivity|].
    split; [intros j b' Hne Hj; exact (Hothers j b' Hne (Hother j b' Hne Hj))|].
    cbn in Ht, Hm. destruct p; cbn; auto.
  - (* LockRelease *)
    pose proof (disciplined_holder pool h i _ Hd Hi eq_refl) as Hl.
    rewrite Hl in Hlock.
    destruct Hlock as (b & Hb & _ & Hothers & Ht & Hm).
    rewrite Hi in Hb. injection Hb as <-.
    injection Hact as <-. cbn [lock_holder tomato_high mustard_high].
    inversion Hst; subst.
    split; [|split; [exact Ht | exact Hm]].
    intros j b' Hj.
    destruct (decide (j = i)) as [-> | Hne].
    + rewrite Hi' in Hj. injection Hj as <-. reflexivity.
    + exact (Hothers j b' Hne (Hother j b' Hne Hj)).
Qed.

Lemma run_schedule_disciplined (sched : list nat) :
  forall s s' : list (list action) * hw,
    disciplined s -> run_schedule sched s = Some s' -> disciplined s'.
Proof.
  induction sched as [|i rest IH]; intros s s' Hd; cbn [run_schedule].
  - intros [= <-]. exact Hd.
  - destruct (step i s) as [s1|] eqn:E; [|discriminate].
    apply IH. exact (step_disciplined i s s1 Hd E).
Qed.

(** Threads that have not run yet, all of them workers, are disciplined. *)
Lemma boot_disciplined (w : World) :
  Forall default_activation (threads w) -> disciplined (boot w).
Proof.
  intros Hall. unfold boot. split; cbn [fst snd hw0 lock_holder
                                       tomato_high mustard_high].
  - induction Hall as [|th ths Hth _ IH]; [constructor|].
    cbn [map]. constructor; [|exact IH].
    destruct Hth as [-> | ->]; apply stage_waiting.
  - split; [|auto]. intros j b Hj.
    apply list_lookup_fmap_Some in Hj. destruct Hj as (th & -> & Hth).
    rewrite List.Forall_forall in Hall.
    destruct (Hall th) as [-> | ->]; [|reflexivity..].
    apply list_elem_of_In. eapply list_elem_of_lookup_2. exact Hth.
Qed.

(** The actions still to run. *)
Lemma step_consumes (i : nat) (s s' : list (list action) * hw) :
  step i s = Some s' ->
  (length (concat (fst s)) = S (length (concat (fst s'))))%nat.
Proof.
  destruct s as [pool h]. unfold step. cbn [fst snd].
  destruct (pool !! i) as [[|a rest]|] eqn:Hi; try discriminate.
  destruct (act i a h); [|discriminate]. intros [= <-]. cbn [fst].
  clear - Hi. revert i Hi.
  induction pool as [|b pool IH]; intros i Hi; [discriminate|].
  destruct i as [|i].
  - injection Hi as ->.
    change (<[0%nat := rest]> ((a :: rest) :: pool)) with (rest :: pool).
    cbn [concat]. rewrite !length_app. cbn [length]. lia.
  - change (<[S i := rest]> (b :: pool)) with (b :: <[i := rest]> pool).
    cbn [concat]. rewrite !length_app.
    rewrite (IH i Hi). lia.
Qed.

Lemma run_schedule_consumes (sched : list nat) :
  forall s s' : list (list action) * hw,
    run_schedule sched s = Some s' ->
    (length (concat (fst s)) = length sched + length (concat (fst s')))%nat.
Proof.
  induction sched as [|i rest IH]; intros s s'; cbn [run_schedule].
  - intros [= <-]. reflexivity.
  - destruct (step i s) as [s1|] eqn:E; [|discriminate].
    intros H. rewrite (step_consumes i s s1 E), (IH s1 s' H). cbn. lia.
Qed.

Lemma disciplined_progress (s : list (list action) * hw) (i : nat)
      (a : action) (rest : list action) :
  disciplined s -> fst s !! i = Some (a :: rest) ->
  exists k s', step k s = Some s'.
Proof.
  destruct s as [pool h]. intros Hd Hi. cbn [fst] in Hi.
  pose proof Hd as [_ Hlock]. cbn [fst snd] in Hlock.
  destruct (lock_holder h) as [k|] eqn:Hl.
  - destruct Hlock as (b & Hb & Hhold & _).
    destruct b as [|a' rest']; [discriminate|].
    assert (a' <> LockAcquire) as Ha by (intros ->; discriminate).
    destruct (act_inside k a' h Ha) as (h' & Hact).
    exists k. eexists. unfold step. cbn [fst snd]. rewrite Hb, Hact.
    reflexivity.
  - destruct Hlock as (Hall & _).
    pose proof (holding_head a rest (Hall i _ Hi)) as ->.
    exists i. eexists. unfold step. cbn [fst snd]. rewrite Hi.
    cbn [act]. rewrite Hl. reflexivity.
Qed.

Lemma disciplined_exclusive (s : list (list action) * hw) :
  disciplined s ->
  ~ (tomato_high (snd s) = true /\ mustard_high (snd s) = true)
  /\ (forall p, pin p (snd s) = true ->
                exists i b, lock_holder (snd s) = Some i
                            /\ fst s !! i = Some b /\ drives p b = true).
Proof.
  intros [_ Hlock].
  destruct (lock_holder (snd s)) as [k|].
  - destruct Hlock as (b & Hb & _ & _ & Ht & Hm). split.
    + intros [H1 H2]. rewrite Ht in H1. rewrite Hm in H2.
      exact (drives_cases b H1 H2).
    + intros p Hp. exists k, b. split; [reflexivity|]. split; [exact Hb|].
      destruct p; cbn in Hp; congruence.
  - destruct Hlock as (_ & Ht & Hm). split.
    + intros [H1 _]. congruence.
    + intros p Hp. destruct p; cbn in Hp; congruence.
Qed.

Lemma disciplined_idle (s : list (list action) * hw) :
  disciplined s -> Forall (fun b => b = []) (fst s) ->
  snd s = hw0.
Proof.
  intros [_ Hlock] Hdone.
  destruct (lock_holder (snd s)) as [k|] eqn:Hl.
  - destruct Hlock as (b & Hb & Hhold & _).
    rewrite List.Forall_forall in Hdone.
    rewrite (Hdone b) in Hhold; [discriminate|].
    apply list_elem_of_In. eapply list_elem_of_lookup_2. exact Hb.
  - destruct Hlock as (_ & Ht & Hm).
    destruct (snd s) as [lk th mh]. cbn in *. subst. reflexivity.
Qed.

Lemma boot_size (w : World) :
  Forall default_activation (threads w) ->
  length (concat (fst (boot w))) = (5 * length (threads w))%nat.
Proof.
  unfold boot. cbn [fst]. intros Hall.
  induction Hall as [|th ths Hth _ IH]; [reflexivity|].
  cbn [map concat length]. rewrite length_app, IH.
  destruct Hth as [-> | ->]; cbn; lia.
Qed.

(** ** Further properties: the running threads *)

(** X14.  The two pumps are never on at the same time: whatever the stats
    file, the events and the interleaving of the started threads, at most
    one output is high, and it is high only while the thread that drives
    it holds [dispense_lock].  A request for Both therefore runs its two
    pumps one after the other. *)
Theorem pumps_never_on_together
        (clock : nat -> Q) (json_loads : string -> result pyval)
        (json_dumps : pyval -> string) (py_str : pyval -> string)
        (file : option string) (evs : list ui_event) (sched : list nat)
        (s : list (list action) * hw) :
  run_schedule sched
               (boot (program clock json_loads json_dumps py_str file evs))
  = Some s ->
  ~ (tomato_high (snd s) = true /\ mustard_high (snd s) = true)
  /\ forall p : pump,
      pin p (snd s) = true ->
      exists i b, lock_holder (snd s) = Some i
                  /\ fst s !! i = Some b /\ drives p b = true.
Proof.
  intros Hrun. apply disciplined_exclusive.
  eapply run_schedule_disciplined; [|exact Hrun].
  apply boot_disciplined, program_threads.
Qed.

Lemma pumps_never_on_together_witness :
  let w := program epoch_clock Json.loads Json.dumps Json.dumps None
                   [Touch Both] in
  exists s,
    run_schedule [0; 0; 0]%nat (boot w) = Some s
    /\ tomato_high (snd s) = true /\ mustard_high (snd s) = false
    /\ step 1%nat s = None
    /\ ~ (tomato_high (snd s) = true /\ mustard_high (snd s) = true).
Proof.
  intros w.
  assert (exists s, run_schedule [0; 0; 0]%nat (boot w) = Some s
                    /\ tomato_high (snd s) = true
                    /\ mustard_high (snd s) = false
                    /\ step 1%nat s = None) as (s & Hrun & Ht & Hm & Hwait)
      by (eexists; vm_compute; repeat split; reflexivity).
  exists s. split; [exact Hrun|]. split; [exact Ht|]. split; [exact Hm|].
  split; [exact Hwait|].
  exact (proj1 (pumps_never_on_together
                  epoch_clock Json.loads Json.dumps Json.dumps None
                  [Touch Both] [0; 0; 0]%nat s Hrun)).
Defined.

(** X15.  The started threads always run to completion: whatever the
    stats file, the events and the interleaving, a run of the threads has
    taken exactly as many steps as actions are gone from the five of each
    thread, some thread can move as long as one is unfinished (the lock
    never deadlocks), and once all are finished both outputs are low and
    the lock is free. *)
Theorem activations_run_to_completion
        (clock : nat -> Q) (json_loads : string -> result pyval)
        (json_dumps : pyval -> string) (py_str : pyval -> string)
        (file : option string) (evs : list ui_event) (sched : list nat)
        (s : list (list action) * hw) :
  let w := program clock json_loads json_dumps py_str file evs in
  run_schedule sched (boot w) = Some s ->
  (length sched + length (concat (fst s)) = 5 * length (threads w))%nat
  /\ (forall i a rest,
         fst s !! i = Some (a :: rest) -> exists k s', step k s = Some s')
  /\ (Forall (fun b => b = []) (fst s) -> snd s = hw0).
Proof.
  intros w Hrun.
  assert (Forall default_activation (threads w)) as Hall
      by apply program_threads.
  assert (disciplined s) as Hd
      by (eapply run_schedule_disciplined;
          [apply boot_disciplined, Hall | exact Hrun]).
  split; [|split].
  - rewrite <- (boot_size w Hall).
    symmetry. exact (run_schedule_consumes sched _ s Hrun).
  - intros i a rest Hi. exact (disciplined_progress s i a rest Hd Hi).
  - exact (disciplined_idle s Hd).
Qed.

Lemma activations_run_to_completion_witness :
  let w := program epoch_clock Json.loads Json.dumps Json.dumps None
                   [Touch Both] in
  exists s,
    run_schedule [1; 1; 1; 1; 1; 0; 0; 0; 0; 0]%nat (boot w) = Some s
    /\ fst s = [[]; []] /\ snd s = hw0.
Proof.
  intros w.
  assert (exists s,
             run_schedule [1; 1; 1; 1; 1; 0; 0; 0; 0; 0]%nat (boot w)
             = Some s /\ fst s = [[]; []]) as (s & Hrun & Hdone)
      by (eexists; vm_compute; split; reflexivity).
  exists s. split; [exact Hrun|]. split; [exact Hdone|].
  destruct (activations_run_to_completion
              epoch_clock Json.loads Json.dumps Json.dumps None
              [Touch Both] _ s Hrun) as (_ & _ & Hidle).
  apply Hidle. rewrite Hdone. repeat constructor.
Defined.

(** ** Witnesses of the remaining properties *)

Lemma state_keys_are_never_lost_witness :
  In "served" counter_keys
  /\ let w := program epoch_clock Json.loads Json.dumps Json.dumps
                      (Some corrupt_text) [Touch Mustard; ShowQR] in
     exists v, getitem "served" w = (Ok v, w).
Proof.
  assert (In "served" counter_keys) as Hin by (left; reflexivity).
  split; [exact Hin|].
  exact (proj2 (state_keys_are_never_lost
                  epoch_clock Json.loads Json.dumps Json.dumps
                  (Some corrupt_text) [Touch Mustard; ShowQR])
               "served" Hin).
Defined.

Lemma dispense_duration_cases_witness :
  (6 # 1 < 100)%Q
  /\ exists th w',
      dispense pump_mustard 100 (world0 None) = (Ok th, w')
      /\ held_on pump_mustard false (thread_target th) = [(6 # 1)%Q].
Proof.
  assert (6 # 1 < 100)%Q as Hbig by reflexivity.
  split; [exact Hbig|].
  destruct (dispense_duration_cases pump_mustard 100 (world0 None))
    as (th & e & w' & E & _ & Hheld & _ & _ & _ & _ & _ & _ & Hcap).
  exists th, w'. split; [exact E|]. rewrite Hheld, (Hcap Hbig). reflexivity.
Defined.

(** ** Further properties: the throttle and the saved record *)

(** X16.  The throttle is shared by the two pumps: after an accepted
    request for any target, a request for any target, the other pump
    included, whose check comes less than 1.5 s after the recorded time is
    rejected and changes nothing. *)
Theorem throttle_is_shared_by_pumps
        (clock : nat -> Q) (json_dumps : pyval -> string)
        (first second : target) (w : World) (s t m : Z) (l : Q) :
  counters (state w) s t m l ->
  (MIN_INTERVAL_SECONDS <= clock (ticks w) - l)%Q ->
  let recorded := (length (pumps_of first) + ticks w)%nat in
  (clock (S recorded) - clock recorded < MIN_INTERVAL_SECONDS)%Q ->
  exists w1 w2,
    request clock json_dumps first w = (Ok Accepted, w1)
    /\ state w1 !! "last_dispense_time" = Some (PFloat (clock recorded))
    /\ request clock json_dumps second w1 = (Ok Rejected, w2)
    /\ state w2 = state w1 /\ threads w2 = threads w1
    /\ stats_file w2 = stats_file w1.
Proof.
  intros Hc Hge recorded Hsoon.
  destruct (request_accepted clock json_dumps first w s t m l Hc Hge)
    as (w1 & E1 & Hc1 & Hl1 & _ & _ & Hk).
  fold recorded in Hc1, Hl1, Hk.
  rewrite <- Hk in Hsoon.
  pose proof (request_rejected clock json_dumps second w1 _ _ _ _ Hc1 Hsoon)
    as E2.
  eexists w1, _. split; [exact E1|]. split; [exact Hl1|].
  split; [exact E2|]. cbn [state threads stats_file]. auto.
Qed.

Lemma throttle_is_shared_by_pumps_witness :
  counters (state (world0 None)) 0 0 0 0
  /\ (MIN_INTERVAL_SECONDS <= epoch_clock (ticks (world0 None)) - 0)%Q
  /\ (epoch_clock 2 - epoch_clock 1 < MIN_INTERVAL_SECONDS)%Q
  /\ exists w1 w2,
      request epoch_clock Json.dumps Tomato (world0 None) = (Ok Accepted, w1)
      /\ request epoch_clock Json.dumps Mustard w1 = (Ok Rejected, w2)
      /\ state w2 = state w1.
Proof.
  assert (MIN_INTERVAL_SECONDS <= epoch_clock (ticks (world0 None)) - 0)%Q
    as Hge by (vm_compute; discriminate).
  assert (epoch_clock 2 - epoch_clock 1 < MIN_INTERVAL_SECONDS)%Q
    as Hsoon by reflexivity.
  split; [exact counters_state0|]. split; [exact Hge|]. split; [exact Hsoon|].
  destruct (throttle_is_shared_by_pumps
              epoch_clock Json.dumps Tomato Mustard (world0 None)
              0 0 0 0 counters_state0 Hge Hsoon)
    as (w1 & w2 & E1 & _ & E2 & Hst & _).
  exists w1, w2. auto.
Defined.

(** X17.  After a clean start (nothing to load), as soon as one pump has
    been started the stats file holds a well-formed Counters record:
    non-negative integer counts with served = tomato_served +
    mustard_served, and a numeric time.  Before that the file is the one
    found at start-up. *)
Theorem saved_record_is_well_formed
        (clock : nat -> Q) (json_loads : string -> result pyval)
        (json_dumps : pyval -> string) (py_str : pyval -> string)
        (file : option string) (evs : list ui_event) :
  nothing_to_load json_loads file = true ->
  let w := program clock json_loads json_dumps py_str file evs in
  (threads w = [] /\ stats_file w = file)
  \/ (threads w <> []
      /\ exists (t m : Z) (l : Q),
          stats_file w =
          Some (json_dumps (stats_dict (PInt (t + m)) (PInt t) (PInt m)
                                       (PFloat l)))
          /\ counters (state w) (t + m) t m l
          /\ well_formed_counters
               (stats_dict (PInt (t + m)) (PInt t) (PInt m) (PFloat l))
             = true).
Proof.
  intros Hnothing w.
  destruct (main_exec json_loads py_str file)
    as (w1 & w2 & E1 & E2 & Hst & Hfile & Hth & _).
  assert (counters (state w2) 0 0 0 0) as H0.
  { rewrite Hst.
    destruct (load_stats_total json_loads (world0 file)) as (d & E & Hd).
    rewrite E in E1. injection E1 as <-. cbn [state].
    rewrite (Hd Hnothing). exact counters_state0. }
  assert (w = mainloop clock json_dumps py_str evs w2) as Hw
      by (unfold w, program; rewrite E2; reflexivity).
  destruct (mainloop_ledger clock json_dumps py_str evs w2 0 0 0 0 H0)
    as (s' & t' & m' & l' & started & Hc & Hthr & Hs & Ht & Hm & Hsync).
  rewrite <- Hw in Hc, Hthr, Hsync. rewrite Hth in Hthr. cbn [app] in Hthr.
  destruct Hsync as [(-> & _ & F) | (Hne & Hp)].
  - left. rewrite Hthr, F, Hfile. auto.
  - right. split; [rewrite Hthr; exact Hne|].
    assert (0 <= count_pump pump_tomato started)%Z
      by (unfold count_pump; lia).
    assert (0 <= count_pump pump_mustard started)%Z
      by (unfold count_pump; lia).
    destruct (mainloop_typed clock json_dumps py_str evs w2 0 0 0 0 H0)
      as (s2 & t2 & m2 & l2 & (D1 & D2 & D3 & _) & Hadd & _).
    rewrite <- Hw in D1, D2, D3.
    destruct Hc as (C1 & C2 & C3 & v & C4 & C5).
    rewrite C1 in D1. rewrite C2 in D2. rewrite C3 in D3.
    injection D1 as <-. injection D2 as <-. injection D3 as <-.
    assert (s' = t' + m')%Z as -> by lia.
    destruct Hp as (a & b & c & e & P1 & P2 & P3 & P4 & P5).
    rewrite C1 in P1. rewrite C2 in P2. rewrite C3 in P3.
    injection P1 as <-. injection P2 as <-. injection P3 as <-.
    exists t', m', e. split; [exact P5|].
    split.
    + repeat split; auto. exists (PFloat e). split; [exact P4|reflexivity].
    + unfold well_formed_counters, stats_dict. cbn.
      rewrite !andb_true_r.
      apply andb_true_intro. split; [apply andb_true_intro; split|];
        apply Z.leb_le; lia.
Qed.

Lemma saved_record_is_well_formed_witness :
  nothing_to_load Json.loads None = true
  /\ exists (t m : Z) (l : Q),
      stats_file (program epoch_clock Json.loads Json.dumps Json.dumps None
                          [Touch Both; Touch Tomato])
      = Some (Json.dumps (stats_dict (PInt (t + m)) (PInt t) (PInt m)
                                     (PFloat l)))
      /\ well_formed_counters
           (stats_dict (PInt (t + m)) (PInt t) (PInt m) (PFloat l)) = true.
Proof.
  split; [reflexivity|].
  destruct (saved_record_is_well_formed
              epoch_clock Json.loads Json.dumps Json.dumps None
              [Touch Both; Touch Tomato] eq_refl)
    as [(Hth & _) | (_ & t & m & l & Hfile & _ & Hwf)].
  - exfalso. vm_compute in Hth. discriminate.
  - exists t, m, l. split; [exact Hfile | exact Hwf].
Defined.
